(** * Token-budgeted context store, eviction optimizer and window builder

    A shallow embedding of the Python sources
    [30_context_management/context_manager.py],
    [30_context_management/context_optimizer.py],
    [30_context_management/context_window.py],
    [10_core_utils/token_counter.py] and [10_core_utils/validator.py],
    followed by the properties of the specification that were checked
    against it.

    Conventions of the embedding.

    - Python [int] is [Z]; Python [float] is an IEEE 754 binary64 value,
      represented by [spec_float] with the operations of [SpecFloat]
      (round to nearest, ties to even), the arithmetic CPython uses.
    - Python [str] is [string]; the text functions implement the
      behaviour of [re] and [str] on code points below 128.
    - A [datetime] is the number of microseconds since a fixed origin
      ([Z]); a [timedelta] is a number of microseconds.  Every operation
      reads the clock once: [now] is an argument.
    - A [dict] is an association list in insertion order.
    - A [try] block whose body cannot raise on typed arguments is its
      body; where the body can raise ([_load_context]) the outcome says
      so.  Logging is left out.
    - A context item is a value.  The sources mutate items in place
      ([relevance_score] in the optimizer); the embedding returns the
      updated items, which agrees with the sources as long as the items
      of a list are distinct objects, as the values of the store are.
      [HybridObjects] runs the hybrid strategy on a heap of objects,
      where the assignment and the sharing with the caller show. *)

From Stdlib Require Import ZArith List String Ascii Bool Lia.
From Stdlib Require Import SpecFloat.
Import ListNotations.
Open Scope Z_scope.

Set Implicit Arguments.

(* ================================================================== *)
(** * Python floats *)

Module PyFloat.

Definition float := spec_float.

Definition prec : Z := 53.
Definition emax : Z := 1024.

(** [float(n)] for an integer [n]: correctly rounded. *)
Definition of_int (z : Z) : float := binary_normalize prec emax z 0 false.

Definition add : float -> float -> float := SFadd prec emax.
Definition sub : float -> float -> float := SFsub prec emax.
Definition mul : float -> float -> float := SFmul prec emax.
Definition div : float -> float -> float := SFdiv prec emax.
Definition ltb : float -> float -> bool := SFltb.
Definition leb : float -> float -> bool := SFleb.
Definition eqb : float -> float -> bool := SFeqb.

(** [a / b] on two integers.  CPython rounds the exact quotient once;
    for [|a|, |b| < 2^53] both conversions are exact and the IEEE
    division below is that quotient. *)
Definition int_truediv (a b : Z) : float := div (of_int a) (of_int b).

(** [int(x)]: truncation toward zero.  CPython raises on infinities
    and NaN; no call site of the embedded code reaches them for
    integers inside the double range, and the embedding returns 0. *)
Definition to_int (f : float) : Z :=
  match f with
  | S754_finite s m e =>
      let v := if 0 <=? e then Z.shiftl (Zpos m) e
               else Z.shiftr (Zpos m) (- e) in
      if s then - v else v
  | _ => 0
  end.

(** The literals of the sources, each the double nearest to the
    decimal. *)
Definition f0 : float := S754_zero false.
Definition f1 : float := Eval vm_compute in of_int 1.
Definition f0_1 : float := Eval vm_compute in int_truediv 1 10.
Definition f0_2 : float := Eval vm_compute in int_truediv 2 10.
Definition f0_3 : float := Eval vm_compute in int_truediv 3 10.
Definition f0_4 : float := Eval vm_compute in int_truediv 4 10.
Definition f0_5 : float := Eval vm_compute in int_truediv 5 10.
Definition f0_6 : float := Eval vm_compute in int_truediv 6 10.
Definition f0_7 : float := Eval vm_compute in int_truediv 7 10.
Definition f0_8 : float := Eval vm_compute in int_truediv 8 10.
Definition f0_9 : float := Eval vm_compute in int_truediv 9 10.
Definition f10 : float := Eval vm_compute in of_int 10.

(** [int(n * 0.9)], [n * 0.8 < k] and the like: an [int] meets a
    [float] by conversion of the [int]. *)
Definition int_mul (n : Z) (x : float) : float := mul (of_int n) x.

(** [max(0, x)] with the integer 0 first: [x] only when [x > 0]. *)
Definition max0 (x : float) : float := if ltb f0 x then x else f0.

(** [min(1.0, x)]: [x] only when [x < 1.0]. *)
Definition min1 (x : float) : float := if ltb x f1 then x else f1.

End PyFloat.

(* ================================================================== *)
(** * Python strings and the regular expressions of the sources *)

Module PyStr.

Definition chars (s : string) : list ascii := list_ascii_of_string s.
Definition str (l : list ascii) : string := string_of_list_ascii l.

Definition len (s : string) : Z := Z.of_nat (String.length s).

Definition code (c : ascii) : nat := nat_of_ascii c.

Definition is_upper (c : ascii) : bool :=
  (65 <=? code c)%nat && (code c <=? 90)%nat.
Definition is_lower (c : ascii) : bool :=
  (97 <=? code c)%nat && (code c <=? 122)%nat.
Definition is_digit (c : ascii) : bool :=
  (48 <=? code c)%nat && (code c <=? 57)%nat.

Definition lower_char (c : ascii) : ascii :=
  if is_upper c then ascii_of_nat (code c + 32) else c.
Definition upper_char (c : ascii) : ascii :=
  if is_lower c then ascii_of_nat (code c - 32) else c.

(** [s.lower()] and [s.upper()]. *)
Definition lower (s : string) : string := str (map lower_char (chars s)).
Definition upper (s : string) : string := str (map upper_char (chars s)).

(** [\s] and [str.isspace]: tab, line feed, vertical tab, form feed,
    carriage return, the four separators 28..31 and the space. *)
Definition is_space (c : ascii) : bool :=
  ((9 <=? code c)%nat && (code c <=? 13)%nat)
  || ((28 <=? code c)%nat && (code c <=? 32)%nat).

(** [\w]: letters, digits and the underscore. *)
Definition is_word (c : ascii) : bool :=
  is_upper c || is_lower c || is_digit c || (code c =? 95)%nat.

Fixpoint drop_space (l : list ascii) : list ascii :=
  match l with
  | c :: t => if is_space c then drop_space t else l
  | [] => []
  end.

(** [s.strip()]. *)
Definition strip (s : string) : string :=
  str (rev (drop_space (rev (drop_space (chars s))))).

Fixpoint collapse_aux (in_run : bool) (l : list ascii) : list ascii :=
  match l with
  | [] => []
  | c :: t =>
      if is_space c
      then (if in_run then collapse_aux true t
            else " "%char :: collapse_aux true t)
      else c :: collapse_aux false t
  end.

(** [re.sub(r'\s+', ' ', s)]. *)
Definition collapse_ws (s : string) : string :=
  str (collapse_aux false (chars s)).

Definition ascii_eqb_ci (a b : ascii) : bool :=
  Ascii.eqb (lower_char a) (lower_char b).

(** [p] is a prefix of [l], letters compared without case when [ci]. *)
Fixpoint prefix_of (ci : bool) (p l : list ascii) : bool :=
  match p, l with
  | [], _ => true
  | _ :: _, [] => false
  | a :: p', b :: l' =>
      (if ci then ascii_eqb_ci a b else Ascii.eqb a b) && prefix_of ci p' l'
  end.

Fixpoint contains_aux (ci : bool) (p l : list ascii) : bool :=
  prefix_of ci p l
  || match l with
     | [] => false
     | _ :: t => contains_aux ci p t
     end.

(** [p in s]. *)
Definition contains (p s : string) : bool :=
  contains_aux false (chars p) (chars s).

(** [re.search(p, s, re.IGNORECASE)] for a pattern [p] that, once its
    escapes are read, is a literal. *)
Definition search_ci (p s : string) : bool :=
  contains_aux true (chars p) (chars s).

Definition next_is_word (l : list ascii) : bool :=
  match l with
  | c :: _ => is_word c
  | [] => false
  end.

(** The scan of [re.sub(r'\bw\b', '', s, flags=re.IGNORECASE)] for a
    word [w] of letters: [prev] tells whether the character before the
    position is a word character, [skip] counts the characters of a
    match that are still to be deleted. *)
Fixpoint remove_word_aux (w : list ascii) (prev : bool) (skip : nat)
    (l : list ascii) : list ascii :=
  match l with
  | [] => []
  | c :: t =>
      match skip with
      | S k => remove_word_aux w (is_word c) k t
      | O =>
          if negb prev && prefix_of true w l
             && negb (next_is_word (skipn (List.length w) l))
          then remove_word_aux w (is_word c) (List.length w - 1) t
          else c :: remove_word_aux w (is_word c) 0 t
      end
  end.

Definition remove_word (w s : string) : string :=
  match chars w with
  | [] => s
  | wl => str (remove_word_aux wl false 0 (chars s))
  end.

(** [re.findall(r'\b\w+\b', s)]: the maximal runs of word characters. *)
Fixpoint words_aux (cur : list ascii) (l : list ascii) : list string :=
  match l with
  | [] => match cur with [] => [] | _ => [str (rev cur)] end
  | c :: t =>
      if is_word c then words_aux (c :: cur) t
      else match cur with
           | [] => words_aux [] t
           | _ => str (rev cur) :: words_aux [] t
           end
  end.

Definition findall_words (s : string) : list string := words_aux [] (chars s).

(** [s[:k]], with the clamping of Python slices. *)
Definition slice_to (k : Z) (s : string) : string :=
  let n := len s in
  let k' := if k <? 0 then Z.max 0 (n + k) else Z.min k n in
  str (firstn (Z.to_nat k') (chars s)).

(** [l[:k]] on a list. *)
Definition list_slice_to (A : Type) (k : Z) (l : list A) : list A :=
  let n := Z.of_nat (List.length l) in
  let k' := if k <? 0 then Z.max 0 (n + k) else Z.min k n in
  firstn (Z.to_nat k') l.

(** [s.rfind(p)]: the greatest index where [p] starts, or [-1]. *)
Fixpoint rfind_aux (p l : list ascii) (i : Z) (best : Z) : Z :=
  let best' := if prefix_of false p l then i else best in
  match l with
  | [] => best'
  | _ :: t => rfind_aux p t (i + 1) best'
  end.

Definition rfind (p s : string) : Z := rfind_aux (chars p) (chars s) 0 (-1).

(** [sep.join(parts)]. *)
Fixpoint join (sep : string) (parts : list string) : string :=
  match parts with
  | [] => EmptyString
  | [p] => p
  | p :: rest => p ++ sep ++ join sep rest
  end.

(** [str(n)] for an integer. *)
Definition digit_char (d : Z) : ascii := ascii_of_nat (48 + Z.to_nat d).

Fixpoint pos_digits (fuel : nat) (n : Z) (acc : list ascii) : list ascii :=
  match fuel with
  | O => acc
  | S f =>
      if n <? 10 then digit_char n :: acc
      else pos_digits f (n / 10) (digit_char (n mod 10) :: acc)
  end.

Definition of_int (n : Z) : string :=
  if n <? 0
  then String "-"%char (str (pos_digits (Z.to_nat (- n)) (- n) []))
  else str (pos_digits (S (Z.to_nat n)) n []).

Definition nl : string := String (ascii_of_nat 10) EmptyString.

(** [c * n]: a text of [n] copies of one character. *)
Definition replicate (n : nat) (c : ascii) : string := str (repeat c n).

End PyStr.

(* ================================================================== *)
(** * Generic Python helpers: stable sorts, sums, dictionaries *)

Module Py.

Section Sorting.
Variable A : Type.
(** [lt a b]: the key of [a] is strictly below the key of [b]. *)
Variable lt : A -> A -> bool.

(** [sorted(l, key=..., reverse=True)]: descending, and elements of
    equal key keep their order.  (With a NaN among float keys the
    order CPython produces depends on its merge strategy; the
    embedding covers keys that are totally ordered.) *)
Fixpoint insert_desc (x : A) (l : list A) : list A :=
  match l with
  | [] => [x]
  | y :: t => if lt x y then y :: insert_desc x t else x :: l
  end.

Fixpoint sorted_desc (l : list A) : list A :=
  match l with
  | [] => []
  | x :: t => insert_desc x (sorted_desc t)
  end.

(** [sorted(l)]: ascending and stable. *)
Fixpoint insert_asc (x : A) (l : list A) : list A :=
  match l with
  | [] => [x]
  | y :: t => if lt y x then y :: insert_asc x t else x :: l
  end.

Fixpoint sorted_asc (l : list A) : list A :=
  match l with
  | [] => []
  | x :: t => insert_asc x (sorted_asc t)
  end.

(** [max(l, key=...)]: the first element of greatest key. *)
Definition max_by (x : A) (l : list A) : A :=
  fold_left (fun best y => if lt best y then y else best) l x.
End Sorting.

(** [sum(f(x) for x in l)]. *)
Definition sum (A : Type) (f : A -> Z) (l : list A) : Z :=
  fold_right (fun x acc => f x + acc) 0 l.

Definition mem (x : string) (l : list string) : bool :=
  existsb (String.eqb x) l.

(** [l.remove(x)]: the first occurrence goes. *)
Fixpoint remove_first (x : string) (l : list string) : list string :=
  match l with
  | [] => []
  | y :: t => if String.eqb x y then t else y :: remove_first x t
  end.

Section Dict.
Variable V : Type.
Definition dict := list (string * V).

Fixpoint get (k : string) (d : dict) : option V :=
  match d with
  | [] => None
  | (k', v) :: t => if String.eqb k k' then Some v else get k t
  end.

(** [d[k] = v]: a known key keeps its place, a new one goes last. *)
Fixpoint set (k : string) (v : V) (d : dict) : dict :=
  match d with
  | [] => [(k, v)]
  | (k', v') :: t =>
      if String.eqb k k' then (k, v) :: t else (k', v') :: set k v t
  end.

(** [del d[k]]. *)
Fixpoint del (k : string) (d : dict) : dict :=
  match d with
  | [] => []
  | (k', v') :: t =>
      if String.eqb k k' then t else (k', v') :: del k t
  end.

Definition has (k : string) (d : dict) : bool :=
  match get k d with Some _ => true | None => false end.

Definition keys (d : dict) : list string := map fst d.
Definition values (d : dict) : list V := map snd d.
End Dict.

End Py.

(* ================================================================== *)
(** * token_counter.py *)

Module TokenCounter.

(** A counter holds the model name and the tokenizer [_get_tokenizer]
    found, if any.  [encode] yields the token ids, or nothing when it
    raises. *)
Record t := mk {
  model : string;
  tokenizer : option (string -> option (list Z))
}.

Definition default_model : string := "claude-3-sonnet-20241022".

(** [TokenCounter()] on a machine without a usable tokenizer. *)
Definition fallback : t := mk default_model None.

Definition model_limits : Py.dict Z :=
  [ ("claude-3-sonnet-20241022"%string, 200000);
    ("claude-3-haiku-20240307"%string, 200000);
    ("claude-3-opus-20240229"%string, 200000);
    ("gpt-4"%string, 8192);
    ("gpt-4-32k"%string, 32768);
    ("gpt-3.5-turbo"%string, 4096);
    ("gpt-3.5-turbo-16k"%string, 16384) ].

Definition estimate (text : string) : Z := Z.max 1 (PyStr.len text / 4).

Definition count_tokens (self : t) (text : string) : Z :=
  match text with
  | EmptyString => 0
  | _ =>
      match tokenizer self with
      | Some encode =>
          match encode text with
          | Some toks => Z.of_nat (List.length toks)
          | None => estimate text
          end
      | None => estimate text
      end
  end.

Definition get_model_limit (self : t) (m : option string) : Z :=
  let m' := match m with
            | Some (String _ _ as x) => x
            | _ => model self
            end in
  match Py.get m' model_limits with
  | Some l => l
  | None => 4096
  end.

(** The binary search of [truncate_to_limit]: the greatest prefix
    length in [left..right] whose prefix counts at most [limit]
    tokens, as the loop finds it.  Each round shrinks [right - left],
    so [fuel >= right - left] rounds are enough. *)
Fixpoint bsearch (self : t) (text : string) (limit : Z) (fuel : nat)
    (left right : Z) : Z :=
  match fuel with
  | O => left
  | S f =>
      if left <? right then
        let mid := (left + right + 1) / 2 in
        if count_tokens self (PyStr.slice_to mid text) <=? limit
        then bsearch self text limit f mid right
        else bsearch self text limit f left (mid - 1)
      else left
  end.

(** [last_pos > len(text) * r], an integer against a float. *)
Definition above_share (last_pos : Z) (text : string) (r : PyFloat.float)
    : bool :=
  PyFloat.ltb (PyFloat.int_mul (PyStr.len text) r) (PyFloat.of_int last_pos).

Definition sentence_ends : list string :=
  [ "."%string; "!"%string; "?"%string; (PyStr.nl ++ PyStr.nl)%string ].

Fixpoint first_sentence_end (text : string) (ends : list string)
    : option string :=
  match ends with
  | [] => None
  | e :: rest =>
      let last_pos := PyStr.rfind e text in
      if above_share last_pos text PyFloat.f0_8
      then Some (PyStr.slice_to (last_pos + PyStr.len e) text)
      else first_sentence_end text rest
  end.

Definition _truncate_at_boundary (text : string) : string :=
  match first_sentence_end text sentence_ends with
  | Some r => r
  | None =>
      let last_space := PyStr.rfind " " text in
      if above_share last_space text PyFloat.f0_9
      then PyStr.slice_to last_space text
      else text
  end.

Definition truncate_to_limit (self : t) (text : string) (m : option string)
    (buffer : Z) : string :=
  let limit := get_model_limit self m - buffer in
  let current_tokens := count_tokens self text in
  if current_tokens <=? limit then text
  else
    let left :=
      bsearch self text limit (String.length text) 0 (PyStr.len text) in
    _truncate_at_boundary (PyStr.slice_to left text).

End TokenCounter.

(* ================================================================== *)
(** * validator.py *)

Module Validator.

(** The patterns of [is_safe_string], their escapes read. *)
Definition dangerous_patterns : list string :=
  [ "<script"%string; "javascript:"%string; "data:text/html"%string;
    "eval("%string; "exec("%string; "__import__"%string;
    "subprocess"%string; "os.system"%string ].

Definition is_safe_string (text : string) : bool :=
  negb (existsb (fun p => PyStr.search_ci p text) dangerous_patterns).

End Validator.

(* ================================================================== *)
(** * JSON documents, as [json.load] returns them *)

#[warnings="-register-all"]
Inductive json : Type :=
| JNull
| JBool (b : bool)
| JInt (n : Z)
| JFloat (x : PyFloat.float)
| JStr (s : string)
| JArr (l : list json)
| JObj (fields : list (string * json)).

(** Truth value of a loaded document ([if not data]). *)
Definition json_truthy (j : json) : bool :=
  match j with
  | JNull => false
  | JBool b => b
  | JInt n => negb (n =? 0)
  | JFloat x => negb (PyFloat.eqb x PyFloat.f0)
  | JStr s => negb (String.eqb s EmptyString)
  | JArr l => match l with [] => false | _ => true end
  | JObj l => match l with [] => false | _ => true end
  end.

(* ================================================================== *)
(** * context_manager.py: the item *)

Definition datetime := Z.

(** Microseconds of [timedelta(hours=h)]. *)
Definition hours (h : Z) : Z := h * 3600 * 1000000.

Record ContextItem := mkItem {
  id : string;
  content : string;
  type : string;
  priority : Z;
  timestamp : datetime;
  metadata : json;
  token_count : Z;
  relevance_score : PyFloat.float;
  expiry : option datetime;
  tags : list string
}.

(** [ContextItem.is_expired], the clock read as [now]. *)
Definition is_expired (now : datetime) (c : ContextItem) : bool :=
  match expiry c with
  | Some e => e <? now
  | None => false
  end.

Definition set_relevance (c : ContextItem) (r : PyFloat.float) : ContextItem :=
  mkItem (id c) (content c) (type c) (priority c) (timestamp c) (metadata c)
         (token_count c) r (expiry c) (tags c).

(** The sort key [(x.priority, x.timestamp)] (and the same key with
    [x.timestamp.timestamp()], which keeps the order of the datetimes). *)
Definition key_priority_time_lt (a b : ContextItem) : bool :=
  (priority a <? priority b)
  || ((priority a =? priority b) && (timestamp a <? timestamp b)).

Definition key_time_lt (a b : ContextItem) : bool :=
  timestamp a <? timestamp b.

Definition key_relevance_lt (a b : ContextItem) : bool :=
  PyFloat.ltb (relevance_score a) (relevance_score b).

Definition total_tokens (l : list ContextItem) : Z := Py.sum token_count l.

(* ================================================================== *)
(** * context_optimizer.py *)

Module ContextOptimizer.

Record OptimizationMetrics := mkMetrics {
  tokens_before : Z;
  tokens_after : Z;
  items_before : Z;
  items_after : Z;
  optimization_time : PyFloat.float;
  strategy_used : string;
  compression_ratio : PyFloat.float
}.

(** The dataclass constructor with its [__post_init__]. *)
Definition OptimizationMetrics_new (tb ta ib ia : Z) (time : PyFloat.float)
    (strategy : string) : OptimizationMetrics :=
  mkMetrics tb ta ib ia time strategy
    (if 0 <? tb
     then PyFloat.sub PyFloat.f1 (PyFloat.int_truediv ta tb)
     else PyFloat.f0).

(** [self.config], the entries the strategies read. *)
Record Config := mkConfig {
  recency_weight : PyFloat.float;
  relevance_threshold : PyFloat.float;
  max_age_hours : Z
}.

Definition default_config : Config :=
  mkConfig PyFloat.f0_3 PyFloat.f0_5 168.

Record t := mk {
  max_tokens : Z;
  token_counter : TokenCounter.t;
  config : Config
}.

(** [ContextOptimizer(max_tokens)] over a given counter. *)
Definition new (tk : TokenCounter.t) (mt : Z) : t := mk mt tk default_config.

Section Optimizer.
Variable self : t.
(** The clock, read as [now] by every [datetime.now()] of a call. *)
Variable now : datetime.

Let count := TokenCounter.count_tokens (token_counter self).

(** The loop shared by the single-key strategies: take items while
    they fit and stop at the first that does not. *)
Fixpoint fill_until (target current : Z) (l : list ContextItem)
    : list ContextItem :=
  match l with
  | [] => []
  | c :: rest =>
      if current + token_count c <=? target
      then c :: fill_until target (current + token_count c) rest
      else []
  end.

Definition _optimize_by_priority (contexts : list ContextItem)
    (target_tokens : Z) : list ContextItem :=
  fill_until target_tokens 0
    (Py.sorted_desc key_priority_time_lt contexts).

Definition _optimize_by_recency (contexts : list ContextItem)
    (target_tokens : Z) : list ContextItem :=
  fill_until target_tokens 0 (Py.sorted_desc key_time_lt contexts).

(** [_update_relevance_scores]: words longer than three characters
    are counted over all contents; an item's score is averaged with
    the (capped) frequency of its own words. *)
Definition long_words (c : ContextItem) : list string :=
  filter (fun w => 3 <? PyStr.len w)
         (PyStr.findall_words (PyStr.lower (content c))).

Definition frequency (all : list string) (w : string) : Z :=
  Z.of_nat (List.length (filter (String.eqb w) all)).

Definition _update_relevance_scores (contexts : list ContextItem)
    : list ContextItem :=
  let all := flat_map long_words contexts in
  map (fun c =>
         let frequency_score := Py.sum (frequency all) (long_words c) in
         let normalized :=
           PyFloat.min1 (PyFloat.int_truediv frequency_score 100) in
         set_relevance c
           (PyFloat.div (PyFloat.add (relevance_score c) normalized)
                        (PyFloat.of_int 2)))
      contexts.

(** The loop of [_optimize_by_relevance]: an item is taken when it
    passes the threshold and fits; the loop ends once the budget is
    reached, and otherwise goes on past items that do not fit. *)
Fixpoint relevance_fill (target current : Z) (l : list ContextItem)
    : list ContextItem :=
  match l with
  | [] => []
  | c :: rest =>
      if PyFloat.leb (relevance_threshold (config self)) (relevance_score c)
         && (current + token_count c <=? target)
      then
        let current' := current + token_count c in
        if target <=? current' then [c]
        else c :: relevance_fill target current' rest
      else
        if target <=? current then []
        else relevance_fill target current rest
  end.

Definition _optimize_by_relevance (contexts : list ContextItem)
    (target_tokens : Z) : list ContextItem :=
  relevance_fill target_tokens 0
    (Py.sorted_desc key_relevance_lt (_update_relevance_scores contexts)).

Definition filler_words : list string :=
  [ "very"%string; "really"%string; "quite"%string; "rather"%string;
    "somewhat"%string; "actually"%string; "basically"%string ].

Definition compressed_marker : string :=
  (PyStr.nl ++ "[...compressed...]")%string.

Definition _compress_content (text : string) (max_tokens : Z)
    : option string :=
  let current_tokens := count text in
  if current_tokens <=? max_tokens then Some text
  else
    let compressed := PyStr.collapse_ws (PyStr.strip text) in
    let compressed :=
      fold_left (fun acc w => PyStr.remove_word w acc)
                filler_words compressed in
    let compressed :=
      if max_tokens <? count compressed then
        let truncated :=
          TokenCounter.truncate_to_limit (token_counter self)
            compressed None 500 in
        String.append truncated
          (if PyStr.len truncated <? PyStr.len text
           then compressed_marker else EmptyString)
      else compressed in
    if count compressed <=? max_tokens then Some compressed else None.

(** Truth value of an optional text: [None] and the empty text are
    false. *)
Definition nonempty (o : option string) : option string :=
  match o with
  | Some (String _ _ as s) => Some s
  | _ => None
  end.

(** The loop of [_optimize_by_compression]. *)
Fixpoint compression_fill (target current : Z) (l : list ContextItem)
    : list ContextItem :=
  match l with
  | [] => []
  | c :: rest =>
      if current + token_count c <=? target
      then c :: compression_fill target (current + token_count c) rest
      else
        let remaining_tokens := target - current in
        if 100 <? remaining_tokens then
          match nonempty (_compress_content (content c) remaining_tokens)
          with
          | Some compressed_content =>
              [ mkItem (id c) compressed_content (type c) (priority c)
                  (timestamp c) (metadata c) (count compressed_content)
                  (relevance_score c) (expiry c)
                  (tags c ++ ["compressed"%string]) ]
          | None => []
          end
        else []
  end.

Definition _optimize_by_compression (contexts : list ContextItem)
    (target_tokens : Z) : list ContextItem :=
  compression_fill target_tokens 0
    (Py.sorted_desc key_priority_time_lt contexts).

(** [_group_contexts_semantically]: groups keyed by the type joined
    with the sorted tags, in the order the keys first appear. *)
Definition group_key (c : ContextItem) : string :=
  PyStr.join "_" (type c :: Py.sorted_asc String.ltb (tags c)).

Fixpoint group_add (k : string) (c : ContextItem)
    (groups : list (string * list ContextItem))
    : list (string * list ContextItem) :=
  match groups with
  | [] => [(k, [c])]
  | (k', g) :: rest =>
      if String.eqb k k' then (k', g ++ [c]) :: rest
      else (k', g) :: group_add k c rest
  end.

Definition _group_contexts_semantically (contexts : list ContextItem)
    : list (list ContextItem) :=
  map snd
    (fold_left (fun groups c => group_add (group_key c) c groups)
               contexts []).

(** [max(ctx.priority for ctx in g)] of a group, which is never
    empty. *)
Definition group_priority (g : list ContextItem) : Z :=
  match g with
  | [] => 0
  | c :: rest => fold_left Z.max (map priority rest) (priority c)
  end.

(** The key [(priority, relevance_score, timestamp)], compared as
    tuples are: the first components that are not equal decide. *)
Definition key_best_lt (a b : ContextItem) : bool :=
  if negb (priority a =? priority b) then priority a <? priority b
  else if negb (PyFloat.eqb (relevance_score a) (relevance_score b))
  then PyFloat.ltb (relevance_score a) (relevance_score b)
  else timestamp a <? timestamp b.

Definition best_of (g : list ContextItem) : list ContextItem :=
  match g with
  | [] => []
  | c :: rest => [Py.max_by key_best_lt c rest]
  end.

Definition _optimize_by_semantic_grouping (contexts : list ContextItem)
    (target_tokens : Z) : list ContextItem :=
  let groups := _group_contexts_semantically contexts in
  let ordered :=
    Py.sorted_desc (fun g h => group_priority g <? group_priority h)
                   groups in
  fill_until target_tokens 0 (flat_map best_of ordered).

Definition _filter_active_contexts (contexts : list ContextItem)
    : list ContextItem :=
  let max_age := hours (max_age_hours (config self)) in
  filter (fun c =>
            negb (is_expired now c)
            && negb (negb (String.eqb (type c) "system")
                     && (priority c <? 8)
                     && (max_age <? now - timestamp c)))
         contexts.

Definition type_bonus (ty : string) : PyFloat.float :=
  if String.eqb ty "system" then PyFloat.f1
  else if String.eqb ty "instructions" then PyFloat.f0_9
  else if String.eqb ty "conversation" then PyFloat.f0_7
  else if String.eqb ty "memory" then PyFloat.f0_6
  else PyFloat.f0_5.

(** [(now - timestamp).total_seconds() / 3600]; the microseconds are
    below [2^53] for ages under 285 years, where the first division
    is the correctly rounded one. *)
Definition age_hours (c : ContextItem) : PyFloat.float :=
  PyFloat.div (PyFloat.int_truediv (now - timestamp c) 1000000)
              (PyFloat.of_int 3600).

Definition composite_score (c : ContextItem) : PyFloat.float :=
  let recency_score :=
    PyFloat.max0
      (PyFloat.sub PyFloat.f1
         (PyFloat.div (age_hours c)
                      (PyFloat.of_int (max_age_hours (config self))))) in
  let priority_score := PyFloat.div (PyFloat.of_int (priority c)) PyFloat.f10 in
  PyFloat.add
    (PyFloat.add
       (PyFloat.add (PyFloat.mul priority_score PyFloat.f0_4)
                    (PyFloat.mul recency_score (recency_weight (config self))))
       (PyFloat.mul (relevance_score c) PyFloat.f0_2))
    (PyFloat.mul (type_bonus (type c)) PyFloat.f0_1).

Definition _calculate_composite_scores (contexts : list ContextItem)
    : list ContextItem :=
  Py.sorted_desc key_relevance_lt
    (map (fun c => set_relevance c (composite_score c)) contexts).

Definition _try_compress_context (context : ContextItem) (max_tokens : Z)
    : option ContextItem :=
  if max_tokens <? 50 then None
  else
    match nonempty (_compress_content (content context) max_tokens) with
    | None => None
    | Some compressed_content =>
        Some (mkItem (id context) compressed_content (type context)
                (Z.max 1 (priority context - 1))
                (timestamp context) (metadata context)
                (count compressed_content)
                (PyFloat.mul (relevance_score context) PyFloat.f0_9)
                (expiry context)
                (tags context ++ ["compressed"%string]))
    end.

(** The loop of [_optimize_hybrid]; [current] starts at the tokens of
    the system items and is compared with [remaining], the target
    less those same tokens, as the source has it. *)
Fixpoint hybrid_fill (remaining current : Z) (l : list ContextItem)
    : list ContextItem :=
  match l with
  | [] => []
  | c :: rest =>
      if current + token_count c <=? remaining
      then c :: hybrid_fill remaining (current + token_count c) rest
      else if 100 <? remaining - current then
        match _try_compress_context c (remaining - current) with
        | Some compressed_context => [compressed_context]
        | None => []
        end
      else hybrid_fill remaining current rest
  end.

Definition _optimize_hybrid (contexts : list ContextItem)
    (target_tokens : Z) : list ContextItem :=
  let active_contexts := _filter_active_contexts contexts in
  let system_contexts :=
    filter (fun c => String.eqb (type c) "system") active_contexts in
  let non_system_contexts :=
    filter (fun c => negb (String.eqb (type c) "system")) active_contexts in
  let system_tokens := total_tokens system_contexts in
  let remaining_tokens := target_tokens - system_tokens in
  if remaining_tokens <=? 0 then system_contexts
  else
    let scored_contexts := _calculate_composite_scores non_system_contexts in
    system_contexts ++ hybrid_fill remaining_tokens system_tokens scored_contexts.

(** [self.strategies]: the known names, anything else runs hybrid. *)
Definition run_strategy (strategy : string)
    : list ContextItem -> Z -> list ContextItem :=
  if String.eqb strategy "priority_based" then _optimize_by_priority
  else if String.eqb strategy "recency_based" then _optimize_by_recency
  else if String.eqb strategy "relevance_based" then _optimize_by_relevance
  else if String.eqb strategy "compression" then _optimize_by_compression
  else if String.eqb strategy "semantic_grouping"
  then _optimize_by_semantic_grouping
  else _optimize_hybrid.

(** [target_tokens or int(self.max_tokens * 0.9)]: [None] and 0 both
    give way to the default. *)
Definition default_target : Z :=
  PyFloat.to_int (PyFloat.int_mul (max_tokens self) PyFloat.f0_9).

Definition effective_target (target_tokens : option Z) : Z :=
  match target_tokens with
  | Some 0 | None => default_target
  | Some t => t
  end.

(** [optimize_contexts]; [elapsed] is the wall-clock time the
    strategy took, as the second reading of the clock shows it. *)
Definition optimize_contexts (elapsed : PyFloat.float)
    (contexts : list ContextItem) (target_tokens : option Z)
    (strategy : string) : list ContextItem * OptimizationMetrics :=
  let target := effective_target target_tokens in
  let tokens_before := total_tokens contexts in
  let items_before := Z.of_nat (List.length contexts) in
  if tokens_before <=? target then
    (contexts,
     OptimizationMetrics_new tokens_before tokens_before
       items_before items_before PyFloat.f0 "none")
  else
    let optimized_contexts := run_strategy strategy contexts target in
    (optimized_contexts,
     OptimizationMetrics_new tokens_before (total_tokens optimized_contexts)
       items_before (Z.of_nat (List.length optimized_contexts))
       elapsed strategy).

(** The selected items of [optimize_contexts]. *)
Definition optimize (contexts : list ContextItem) (target_tokens : option Z)
    (strategy : string) : list ContextItem :=
  fst (optimize_contexts PyFloat.f0 contexts target_tokens strategy).

End Optimizer.

End ContextOptimizer.

(* ================================================================== *)
(** * context_optimizer.py: hybrid on items as objects *)

(** The items of a call as the Python objects they are: a heap of
    items addressed by position, and a list of items is a list of
    addresses.  [_calculate_composite_scores] assigns to the
    [relevance_score] of the objects it is given, which the caller
    still holds; [_try_compress_context] makes a new object. *)
Module HybridObjects.

Definition heap := list ContextItem.
Definition ref := nat.

Definition no_item : ContextItem :=
  mkItem EmptyString EmptyString EmptyString 0 0 JNull 0 PyFloat.f0 None [].

Definition deref (h : heap) (r : ref) : ContextItem := nth r h no_item.

(** [obj.relevance_score = x] on the object at [r]. *)
Fixpoint assign_relevance (h : heap) (r : ref) (x : PyFloat.float) : heap :=
  match h, r with
  | [], _ => []
  | c :: t, O => set_relevance c x :: t
  | c :: t, S r' => c :: assign_relevance t r' x
  end.

(** A new object: it takes the next address. *)
Definition new_object (h : heap) (c : ContextItem) : heap * ref :=
  (h ++ [c], List.length h).

Section Hybrid.
Variable self : ContextOptimizer.t.
Variable now : datetime.

Definition _filter_active_contexts (h : heap) (contexts : list ref)
    : list ref :=
  let max_age :=
    hours (ContextOptimizer.max_age_hours (ContextOptimizer.config self)) in
  filter (fun r =>
            let c := deref h r in
            negb (is_expired now c)
            && negb (negb (String.eqb (type c) "system")
                     && (priority c <? 8)
                     && (max_age <? now - timestamp c)))
         contexts.

(** The [for] loop of [_calculate_composite_scores]: each object of
    the list, in turn, gets its composite score as [relevance_score]. *)
Definition score_all (h : heap) (contexts : list ref) : heap :=
  fold_left
    (fun h r =>
       assign_relevance h r
         (ContextOptimizer.composite_score self now (deref h r)))
    contexts h.

Definition _calculate_composite_scores (h : heap) (contexts : list ref)
    : heap * list ref :=
  let h' := score_all h contexts in
  (h',
   Py.sorted_desc
     (fun a b => key_relevance_lt (deref h' a) (deref h' b)) contexts).

(** The loop of [_optimize_hybrid]. *)
Fixpoint hybrid_fill (h : heap) (remaining current : Z) (l : list ref)
    : heap * list ref :=
  match l with
  | [] => (h, [])
  | r :: rest =>
      let c := deref h r in
      if current + token_count c <=? remaining
      then
        let (h', out) :=
          hybrid_fill h remaining (current + token_count c) rest in
        (h', r :: out)
      else if 100 <? remaining - current then
        match ContextOptimizer._try_compress_context self c
                (remaining - current) with
        | Some compressed_context =>
            let (h', r') := new_object h compressed_context in
            (h', [r'])
        | None => (h, [])
        end
      else hybrid_fill h remaining current rest
  end.

Definition _optimize_hybrid (h : heap) (contexts : list ref)
    (target_tokens : Z) : heap * list ref :=
  let active_contexts := _filter_active_contexts h contexts in
  let system_contexts :=
    filter (fun r => String.eqb (type (deref h r)) "system")
           active_contexts in
  let non_system_contexts :=
    filter (fun r => negb (String.eqb (type (deref h r)) "system"))
           active_contexts in
  let system_tokens :=
    Py.sum (fun r => token_count (deref h r)) system_contexts in
  let remaining_tokens := target_tokens - system_tokens in
  if remaining_tokens <=? 0 then (h, system_contexts)
  else
    let (h1, scored_contexts) :=
      _calculate_composite_scores h non_system_contexts in
    let (h2, out) :=
      hybrid_fill h1 remaining_tokens system_tokens scored_contexts in
    (h2, system_contexts ++ out).

End Hybrid.

End HybridObjects.

(* ================================================================== *)
(** * context_manager.py: the store *)

Module ContextManager.

(** [stats['last_optimization']]: nothing, a time set by
    [optimize_context], or whatever a snapshot held. *)
Inductive stamp :=
| NoStamp
| At (d : datetime)
| Raw (j : json).

Record Stats := mkStats {
  total_items : Z;
  stats_total_tokens : Z;
  items_by_type : Py.dict Z;
  last_optimization : stamp
}.

Record t := mk {
  agent_id : string;
  max_tokens : Z;
  token_counter : TokenCounter.t;
  contexts : Py.dict ContextItem;
  context_order : list string;
  system_contexts : list string;
  conversation_contexts : list string;
  memory_contexts : list string;
  tool_contexts : list string;
  stats : Stats
}.

(** The fields [__init__] sets before it loads a snapshot. *)
Definition empty (tk : TokenCounter.t) (agent : string) (mt : Z) : t :=
  mk agent mt tk [] [] [] [] [] [] (mkStats 0 0 [] NoStamp).

Definition with_contexts (self : t) (d : Py.dict ContextItem) : t :=
  mk (agent_id self) (max_tokens self) (token_counter self) d
     (context_order self) (system_contexts self)
     (conversation_contexts self) (memory_contexts self)
     (tool_contexts self) (stats self).

Definition with_order (self : t) (o : list string) : t :=
  mk (agent_id self) (max_tokens self) (token_counter self) (contexts self)
     o (system_contexts self) (conversation_contexts self)
     (memory_contexts self) (tool_contexts self) (stats self).

Definition with_categories (self : t) (sy co me to : list string) : t :=
  mk (agent_id self) (max_tokens self) (token_counter self) (contexts self)
     (context_order self) sy co me to (stats self).

Definition with_stats (self : t) (st : Stats) : t :=
  mk (agent_id self) (max_tokens self) (token_counter self) (contexts self)
     (context_order self) (system_contexts self)
     (conversation_contexts self) (memory_contexts self)
     (tool_contexts self) st.

Definition get_total_tokens (self : t) : Z :=
  total_tokens (Py.values (contexts self)).

Definition count_type (counts : Py.dict Z) (c : ContextItem) : Py.dict Z :=
  Py.set (type c)
    (match Py.get (type c) counts with Some n => n | None => 0 end + 1)
    counts.

Definition _update_stats (self : t) : t :=
  with_stats self
    (mkStats (Z.of_nat (List.length (contexts self)))
             (get_total_tokens self)
             (fold_left count_type (Py.values (contexts self)) [])
             (last_optimization (stats self))).

Definition _categorize_context (self : t) (context : ContextItem) : t :=
  let context_id := id context in
  let ty := type context in
  if String.eqb ty "system" then
    with_categories self (system_contexts self ++ [context_id])
      (conversation_contexts self) (memory_contexts self) (tool_contexts self)
  else if String.eqb ty "user" || String.eqb ty "assistant" then
    with_categories self (system_contexts self)
      (conversation_contexts self ++ [context_id])
      (memory_contexts self) (tool_contexts self)
  else if String.eqb ty "memory" then
    with_categories self (system_contexts self) (conversation_contexts self)
      (memory_contexts self ++ [context_id]) (tool_contexts self)
  else if String.eqb ty "tool_result" then
    with_categories self (system_contexts self) (conversation_contexts self)
      (memory_contexts self) (tool_contexts self ++ [context_id])
  else self.

Definition _remove_from_categories (self : t) (context_id : string) : t :=
  with_categories self
    (Py.remove_first context_id (system_contexts self))
    (Py.remove_first context_id (conversation_contexts self))
    (Py.remove_first context_id (memory_contexts self))
    (Py.remove_first context_id (tool_contexts self)).

Definition get_context (self : t) (context_id : string)
    : option ContextItem :=
  Py.get context_id (contexts self).

Definition remove_context (self : t) (context_id : string) : bool * t :=
  if Py.has context_id (contexts self) then
    let s1 := with_contexts self (Py.del context_id (contexts self)) in
    let s2 := with_order s1 (Py.remove_first context_id (context_order s1)) in
    let s3 := _remove_from_categories s2 context_id in
    (true, _update_stats s3)
  else (false, self).

Definition remove_all (self : t) (ids : list string) : t :=
  fold_left (fun s i => snd (remove_context s i)) ids self.

Definition _remove_expired_contexts (now : datetime) (self : t) : t :=
  let expired_ids :=
    map fst (filter (fun kv => is_expired now (snd kv)) (contexts self)) in
  remove_all self expired_ids.

(** [int(self.max_tokens * 0.9)]. *)
Definition default_target (self : t) : Z :=
  PyFloat.to_int (PyFloat.int_mul (max_tokens self) PyFloat.f0_9).

Definition effective_target (self : t) (target_tokens : option Z) : Z :=
  match target_tokens with
  | Some 0 | None => default_target self
  | Some x => x
  end.

(** The ids kept by the loop of [optimize_context]. *)
Fixpoint keep_ids (target total : Z) (l : list ContextItem) : list string :=
  match l with
  | [] => []
  | c :: rest =>
      if total + token_count c <=? target
      then id c :: keep_ids target (total + token_count c) rest
      else []
  end.

Definition with_last_optimization (self : t) (now : datetime) : t :=
  with_stats self
    (mkStats (total_items (stats self)) (stats_total_tokens (stats self))
             (items_by_type (stats self)) (At now)).

(** [optimize_context].  The ids to remove form a set in the source;
    they are removed here in the order of the dictionary, and removals
    of different ids commute. *)
Definition optimize_context (now : datetime) (self : t)
    (target_tokens : option Z) : t :=
  let target := effective_target self target_tokens in
  let current_tokens := get_total_tokens self in
  if current_tokens <=? target then self
  else
    let s1 := _remove_expired_contexts now self in
    let sorted :=
      Py.sorted_desc key_priority_time_lt (Py.values (contexts s1)) in
    let contexts_to_keep := keep_ids target 0 sorted in
    let contexts_to_remove :=
      filter (fun k => negb (Py.mem k contexts_to_keep))
             (Py.keys (contexts s1)) in
    with_last_optimization (remove_all s1 contexts_to_remove) now.

Definition or_empty_object (m : option json) : json :=
  match m with
  | None => JObj []
  | Some j => if json_truthy j then j else JObj []
  end.

(** [add_context]; [new_id] is the identifier [uuid4] draws.  The
    result of [is_safe_string] is computed and dropped, as in the
    source; nothing in the body raises on a text, so the [except]
    branch is not reached. *)
Definition add_context (now : datetime) (new_id : string) (self : t)
    (text : string) (context_type : string) (prio : Z)
    (meta : option json) (tgs : option (list string))
    (exp : option datetime) : string * t :=
  let _ignored := Validator.is_safe_string text in
  let count := TokenCounter.count_tokens (token_counter self) text in
  let context_item :=
    mkItem new_id text context_type prio now (or_empty_object meta)
           count PyFloat.f1 exp
           (match tgs with Some l => l | None => [] end) in
  let s1 := with_contexts self (Py.set new_id context_item (contexts self)) in
  let s2 := with_order s1 (context_order s1 ++ [new_id]) in
  let s3 := _categorize_context s2 context_item in
  let s4 := _update_stats s3 in
  let s5 := if max_tokens s4 <? get_total_tokens s4
            then optimize_context now s4 None else s4 in
  (new_id, s5).

(** The keyword arguments of [update_context] that name data fields.
    [timestamp] is left out because the method overwrites it with the
    clock, [id] because a call that renames an item leaves it under
    its old key, which the properties below exclude ([store_ok]). *)
Record Updates := mkUpdates {
  u_content : option string;
  u_type : option string;
  u_priority : option Z;
  u_metadata : option json;
  u_token_count : option Z;
  u_relevance_score : option PyFloat.float;
  u_expiry : option (option datetime);
  u_tags : option (list string)
}.

Definition no_updates : Updates :=
  mkUpdates None None None None None None None None.

Definition or_old (A : Type) (o : option A) (old : A) : A :=
  match o with Some v => v | None => old end.

Definition update_context (now : datetime) (self : t)
    (context_id : string) (u : Updates) : bool * t :=
  match Py.get context_id (contexts self) with
  | None => (false, self)
  | Some c =>
      let text := or_old (u_content u) (content c) in
      let count :=
        match u_content u with
        | Some _ =>
            TokenCounter.count_tokens (token_counter self) text
        | None => or_old (u_token_count u) (token_count c)
        end in
      let c' :=
        mkItem (id c) text (or_old (u_type u) (type c))
               (or_old (u_priority u) (priority c)) now
               (or_old (u_metadata u) (metadata c)) count
               (or_old (u_relevance_score u) (relevance_score c))
               (or_old (u_expiry u) (expiry c))
               (or_old (u_tags u) (tags c)) in
      (true,
       _update_stats
         (with_contexts self (Py.set context_id c' (contexts self))))
  end.

Definition get_contexts_by_type (self : t) (context_type : string)
    : list ContextItem :=
  filter (fun c => String.eqb (type c) context_type)
         (Py.values (contexts self)).

Definition get_contexts_by_priority (self : t) (min_priority : Z)
    : list ContextItem :=
  Py.sorted_desc key_priority_time_lt
    (filter (fun c => min_priority <=? priority c)
            (Py.values (contexts self))).

Definition get_recent_contexts (now : datetime) (self : t) (hrs : Z)
    (limit : option Z) : list ContextItem :=
  let cutoff := now - hours hrs in
  let found :=
    Py.sorted_desc key_time_lt
      (filter (fun c => cutoff <? timestamp c)
              (Py.values (contexts self))) in
  match limit with
  | Some 0 | None => found
  | Some k => PyStr.list_slice_to k found
  end.

Definition search_contexts (now : datetime) (self : t) (query : string)
    (context_type : option string) (tgs : option (list string))
    : list ContextItem :=
  let query_lower := PyStr.lower query in
  let keep (c : ContextItem) : bool :=
    negb (is_expired now c)
    && match context_type with
       | Some (String _ _ as ty) => String.eqb (type c) ty
       | _ => true
       end
    && match tgs with
       | Some ((_ :: _) as l) => existsb (fun tag => Py.mem tag (tags c)) l
       | _ => true
       end
    && PyStr.contains query_lower (PyStr.lower (content c)) in
  Py.sorted_desc key_priority_time_lt
    (filter keep (Py.values (contexts self))).

Definition _format_context_item (c : ContextItem) : string :=
  let header :=
    String.append
      (String.append "[" (String.append (PyStr.upper (type c)) "]"))
      (if 1 <? priority c
       then String.append " #" (PyStr.of_int (priority c))
       else EmptyString) in
  let header :=
    match tags c with
    | [] => header
    | _ => String.append header
             (String.append " Tags: " (PyStr.join ", " (tags c)))
    end in
  String.append header (String.append PyStr.nl (content c)).

(** The loop of [get_context_window]: the items that are rendered. *)
Fixpoint window_fill (limit current : Z) (l : list ContextItem)
    : list ContextItem :=
  match l with
  | [] => []
  | c :: rest =>
      if current + token_count c <=? limit
      then c :: window_fill limit (current + token_count c) rest
      else []
  end.

Definition window_items (now : datetime) (self : t) (mt : option Z)
    : list ContextItem :=
  let limit := match mt with
               | Some 0 | None => max_tokens self
               | Some m => m
               end in
  window_fill limit 0
    (Py.sorted_desc key_priority_time_lt
       (filter (fun c => negb (is_expired now c))
               (Py.values (contexts self)))).

Definition get_context_window (now : datetime) (self : t) (mt : option Z)
    : string :=
  PyStr.join (String.append PyStr.nl PyStr.nl)
    (map _format_context_item (window_items now self mt)).

(** Total tokens of the items that have not expired. *)
Definition live_tokens (now : datetime) (self : t) : Z :=
  total_tokens
    (filter (fun c => negb (is_expired now c)) (Py.values (contexts self))).

End ContextManager.

(* ================================================================== *)
(** * context_manager.py: loading a snapshot *)

Module Persistence.
Import ContextManager.

(** What evaluating a Python expression on loaded data comes to: a
    value, an exception, or a value the typed records of the embedding
    cannot hold (a field of another JSON type, which Python stores as
    it is). *)
Inductive decoded (A : Type) :=
| Value (a : A)
| Raises
| Untyped.
Arguments Value {A} a.
Arguments Raises {A}.
Arguments Untyped {A}.

Section Load.
(** [datetime.fromisoformat]; nothing when it raises [ValueError]. *)
Variable fromisoformat : string -> option datetime.
Variable now : datetime.

Fixpoint strings_of (l : list json) : option (list string) :=
  match l with
  | [] => Some []
  | JStr s :: rest =>
      match strings_of rest with
      | Some r => Some (s :: r)
      | None => None
      end
  | _ => None
  end.

Definition set_field (c : ContextItem) (k : string) (v : json)
    : decoded ContextItem :=
  let '(mkItem i co ty pr ts me tc rs ex tg) := c in
  if String.eqb k "id" then
    match v with JStr s => Value (mkItem s co ty pr ts me tc rs ex tg)
            | _ => Untyped end
  else if String.eqb k "content" then
    match v with JStr s => Value (mkItem i s ty pr ts me tc rs ex tg)
            | _ => Untyped end
  else if String.eqb k "type" then
    match v with JStr s => Value (mkItem i co s pr ts me tc rs ex tg)
            | _ => Untyped end
  else if String.eqb k "priority" then
    match v with JInt n => Value (mkItem i co ty n ts me tc rs ex tg)
            | _ => Untyped end
  else if String.eqb k "timestamp" then
    match v with
    | JStr s =>
        match fromisoformat s with
        | Some d => Value (mkItem i co ty pr d me tc rs ex tg)
        | None => Raises
        end
    | _ => Untyped
    end
  else if String.eqb k "metadata" then
    Value (mkItem i co ty pr ts v tc rs ex tg)
  else if String.eqb k "token_count" then
    match v with JInt n => Value (mkItem i co ty pr ts me n rs ex tg)
            | _ => Untyped end
  else if String.eqb k "relevance_score" then
    match v with JFloat x => Value (mkItem i co ty pr ts me tc x ex tg)
            | _ => Untyped end
  else if String.eqb k "expiry" then
    match v with
    | JNull => Value (mkItem i co ty pr ts me tc rs None tg)
    | JStr (String _ _ as s) =>
        match fromisoformat s with
        | Some d => Value (mkItem i co ty pr ts me tc rs (Some d) tg)
        | None => Raises
        end
    | _ => Untyped
    end
  else if String.eqb k "tags" then
    match v with
    | JArr l =>
        match strings_of l with
        | Some r => Value (mkItem i co ty pr ts me tc rs ex r)
        | None => Untyped
        end
    | _ => Untyped
    end
  else Raises.

Fixpoint set_fields (c : ContextItem) (fields : list (string * json))
    : decoded ContextItem :=
  match fields with
  | [] => Value c
  | (k, v) :: rest =>
      match set_field c k v with
      | Value c' => set_fields c' rest
      | Raises => Raises
      | Untyped =>
          (* an unknown key later on still raises before any field
             is stored *)
          match set_fields c rest with
          | Raises => Raises
          | _ => Untyped
          end
      end
  end.

(** [ContextItem.from_dict]: the constructor applied to the entries of
    [data], then [__post_init__].
    [fresh] is the identifier drawn when the data names none.  A key
    that is no field, or a document that is no object, raises
    [TypeError]; a date that does not parse raises [ValueError]. *)
Definition from_dict (fresh : string) (data : json) : decoded ContextItem :=
  match data with
  | JObj fields =>
      set_fields
        (mkItem fresh EmptyString "general" 1 now (JObj []) 0 PyFloat.f1
                None [])
        fields
  | _ => Raises
  end.

(** The outcome of [_load_context]: the flag it returns with the
    store it leaves, or a snapshot outside the typed embedding. *)
Inductive load_result :=
| Load (ok : bool) (s : t)
| OutOfModel.

(** The first loop: entries are stored one by one; an exception
    leaves the loop with the entries stored so far. *)
Fixpoint load_entries (fresh : nat -> string) (n : nat) (self : t)
    (entries : list (string * json)) : decoded t :=
  match entries with
  | [] => Value self
  | (ctx_id, ctx_data) :: rest =>
      match from_dict (fresh n) ctx_data with
      | Value c =>
          load_entries fresh (S n)
            (with_contexts self (Py.set ctx_id c (contexts self))) rest
      | Raises => Raises
      | Untyped => Untyped
      end
  end.

(** Where the first loop stops when an entry raises. *)
Fixpoint loaded_before_raise (fresh : nat -> string) (n : nat) (self : t)
    (entries : list (string * json)) : t :=
  match entries with
  | [] => self
  | (ctx_id, ctx_data) :: rest =>
      match from_dict (fresh n) ctx_data with
      | Value c =>
          loaded_before_raise fresh (S n)
            (with_contexts self (Py.set ctx_id c (contexts self))) rest
      | _ => self
      end
  end.

Fixpoint ints_of (l : list (string * json)) : option (Py.dict Z) :=
  match l with
  | [] => Some []
  | (k, JInt n) :: rest =>
      match ints_of rest with
      | Some r => Some ((k, n) :: r)
      | None => None
      end
  | _ => None
  end.

Definition update_stat (st : Stats) (k : string) (v : json)
    : option Stats :=
  if String.eqb k "total_items" then
    match v with
    | JInt n => Some (mkStats n (stats_total_tokens st)
                        (items_by_type st) (last_optimization st))
    | _ => None
    end
  else if String.eqb k "total_tokens" then
    match v with
    | JInt n => Some (mkStats (total_items st) n
                        (items_by_type st) (last_optimization st))
    | _ => None
    end
  else if String.eqb k "items_by_type" then
    match v with
    | JObj l =>
        match ints_of l with
        | Some d => Some (mkStats (total_items st) (stats_total_tokens st)
                            d (last_optimization st))
        | None => None
        end
    | _ => None
    end
  else if String.eqb k "last_optimization" then
    Some (mkStats (total_items st) (stats_total_tokens st)
            (items_by_type st)
            (match v with JNull => NoStamp | _ => Raw v end))
  else None.

Fixpoint update_stats_from (st : Stats) (l : list (string * json))
    : option Stats :=
  match l with
  | [] => Some st
  | (k, v) :: rest =>
      match update_stat st k v with
      | Some st' => update_stats_from st' rest
      | None => None
      end
  end.

(** The part of [_load_context] after the first loop. *)
Definition finish_load (self : t) (fields : list (string * json))
    : load_result :=
  let order :=
    match Py.get "context_order" fields with
    | None => Some []
    | Some (JArr l) => strings_of l
    | Some _ => None
    end in
  match order with
  | None => OutOfModel
  | Some o =>
      let s1 := with_order self o in
      match Py.get "stats" fields with
      | Some (JObj l) =>
          match update_stats_from (stats s1) l with
          | Some st =>
              Load true
                (fold_left _categorize_context
                   (Py.values (contexts s1)) (with_stats s1 st))
          | None => OutOfModel
          end
      | Some (JArr []) | Some (JStr EmptyString) | None =>
          Load true
            (fold_left _categorize_context (Py.values (contexts s1)) s1)
      | Some (JArr _) => OutOfModel
      | Some _ => Load false s1
      end
  end.

(** [_load_context].  [file_exists] is [file_path.exists()];
    [loaded] is the result of [FileHandler.load_json], which is
    [None] whenever reading or parsing the file raised. *)
Definition _load_context (fresh : nat -> string) (self : t)
    (file_exists : bool) (loaded : option json) : load_result :=
  if negb file_exists then Load true self
  else
    match loaded with
    | None => Load false self
    | Some data =>
        if negb (json_truthy data) then Load false self
        else
          match data with
          | JObj fields =>
              match Py.get "contexts" fields with
              | None => finish_load self fields
              | Some (JObj entries) =>
                  match load_entries fresh 0 self entries with
                  | Value s1 => finish_load s1 fields
                  | Raises =>
                      Load false
                        (loaded_before_raise fresh 0 self entries)
                  | Untyped => OutOfModel
                  end
              | Some _ => Load false self
              end
          | _ => Load false self
          end
    end.

(** [ContextManager(agent_id, max_tokens)]: the empty fields, then
    the snapshot. *)
Definition init (fresh : nat -> string) (tk : TokenCounter.t)
    (agent : string) (mt : Z) (file_exists : bool)
    (loaded : option json) : load_result :=
  _load_context fresh (empty tk agent mt) file_exists loaded.

End Load.

End Persistence.

(* ================================================================== *)
(** * context_window.py *)

Module ContextWindow.

Record WindowSection := mkSection {
  name : string;
  sec_content : string;
  sec_priority : Z;
  sec_token_count : Z;
  required : bool
}.

Record t := mk {
  max_tokens : Z;
  token_counter : TokenCounter.t;
  response_buffer : Z
}.

(** [ContextWindow(max_tokens)] over a given counter. *)
Definition new (tk : TokenCounter.t) (mt : Z) : t := mk mt tk 4000.

Definition section_priorities : Py.dict Z :=
  [ ("system"%string, 10); ("instructions"%string, 9); ("tools"%string, 8);
    ("recent_conversation"%string, 7); ("relevant_memory"%string, 6);
    ("context_data"%string, 5); ("background"%string, 4);
    ("examples"%string, 3); ("metadata"%string, 2); ("debug"%string, 1) ].

(** How a call ends: with a value, with [ZeroDivisionError], or not
    at all. *)
Inductive outcome (A : Type) :=
| Returns (a : A)
| ZeroDivision
| Diverges.
Arguments Returns {A} a.
Arguments ZeroDivision {A}.
Arguments Diverges {A}.

Definition bind (A B : Type) (m : outcome A) (f : A -> outcome B)
    : outcome B :=
  match m with
  | Returns a => f a
  | ZeroDivision => ZeroDivision
  | Diverges => Diverges
  end.

Section Window.
Variable self : t.

Let count := TokenCounter.count_tokens (token_counter self).

Definition truncated_marker : string :=
  String.append PyStr.nl "[...truncated...]".

(** [int(len(text) * 0.9)]. *)
Definition shrink_point (text : string) : Z :=
  PyFloat.to_int (PyFloat.int_mul (PyStr.len text) PyFloat.f0_9).

(** The [while] loop of [_truncate_section].  A round that does not
    shorten the text repeats for ever, a round that shortens it can
    happen at most [len(text)] times: the loop ends within
    [len(text) + 1] tests or never, and [None] is the latter. *)
Fixpoint shrink_loop (fuel : nat) (max_tokens : Z) (text : string)
    : option string :=
  match fuel with
  | O => None
  | S f =>
      if max_tokens <? count text
      then shrink_loop f max_tokens
             (PyStr.slice_to (shrink_point text) text)
      else Some text
  end.

Definition _truncate_section (section : WindowSection) (max_tokens : Z)
    : outcome (option WindowSection) :=
  if max_tokens <? 50 then Returns None
  else
    let truncated_content :=
      TokenCounter.truncate_to_limit (token_counter self)
        (sec_content section) None 0 in
    match shrink_loop (S (String.length truncated_content)) max_tokens
            truncated_content with
    | None => Diverges
    | Some truncated_content =>
        Returns (Some
          (mkSection
             (String.append (name section) "_truncated")
             (if PyStr.len truncated_content
                 <? PyStr.len (sec_content section)
              then String.append truncated_content truncated_marker
              else truncated_content)
             (sec_priority section)
             (count truncated_content)
             (required section)))
    end.

(** [int(max_tokens * (section.priority / total_priority))]. *)
Definition allocation (max_tokens total_priority : Z)
    (section : WindowSection) : Z :=
  PyFloat.to_int
    (PyFloat.int_mul max_tokens
       (PyFloat.int_truediv (sec_priority section) total_priority)).

Fixpoint truncate_each (max_tokens total_priority : Z)
    (sections : list WindowSection) : outcome (list WindowSection) :=
  match sections with
  | [] => Returns []
  | section :: rest =>
      if total_priority =? 0 then ZeroDivision
      else
        let allocated_tokens :=
          allocation max_tokens total_priority section in
        bind
          (if allocated_tokens <? sec_token_count section
           then bind (_truncate_section section allocated_tokens)
                  (fun r => Returns match r with
                                    | Some s => [s]
                                    | None => []
                                    end)
           else Returns [section])
          (fun here =>
             bind (truncate_each max_tokens total_priority rest)
               (fun there => Returns (here ++ there)))
  end.

Definition _truncate_sections (sections : list WindowSection)
    (max_tokens : Z) : outcome (list WindowSection) :=
  truncate_each max_tokens (Py.sum sec_priority sections) sections.

(** The loop over the optional sections. *)
Fixpoint optional_fill (max_tokens current : Z)
    (l : list WindowSection) : outcome (list WindowSection) :=
  match l with
  | [] => Returns []
  | section :: rest =>
      if current + sec_token_count section <=? max_tokens
      then bind (optional_fill max_tokens
                   (current + sec_token_count section) rest)
             (fun r => Returns (section :: r))
      else
        let remaining_tokens := max_tokens - current in
        if 100 <? remaining_tokens
        then bind (_truncate_section section remaining_tokens)
               (fun r => Returns match r with
                                 | Some s => [s]
                                 | None => []
                                 end)
        else Returns []
  end.

Definition _optimize_sections (sections : list WindowSection)
    (max_tokens : Z) : outcome (list WindowSection) :=
  let required_sections := filter required sections in
  let optional_sections :=
    filter (fun s => negb (required s)) sections in
  let required_tokens := Py.sum sec_token_count required_sections in
  if max_tokens <? required_tokens
  then _truncate_sections required_sections max_tokens
  else
    let optional_sections :=
      Py.sorted_desc (fun a b => sec_priority a <? sec_priority b)
                     optional_sections in
    bind (optional_fill max_tokens required_tokens optional_sections)
      (fun r => Returns (required_sections ++ r)).

Definition _format_window (sections : list WindowSection) : string :=
  PyStr.join PyStr.nl
    (map (fun s =>
            String.append "=== "
              (String.append (PyStr.upper (name s))
                 (String.append " ==="
                    (String.append PyStr.nl
                       (String.append (sec_content s) PyStr.nl)))))
         (Py.sorted_desc (fun a b => sec_priority a <? sec_priority b)
                         sections)).

(** The sections [build_window] makes of its dictionary; contents
    that are lists or dictionaries arrive already rendered. *)
Definition window_sections (sections : Py.dict string)
    (required_sections : option (list string)) : list WindowSection :=
  let req := match required_sections with
             | Some ((_ :: _) as l) => l
             | _ => [ "system"%string; "instructions"%string ]
             end in
  map (fun kv =>
         mkSection (fst kv) (snd kv)
           (match Py.get (fst kv) section_priorities with
            | Some p => p
            | None => 5
            end)
           (count (snd kv))
           (Py.mem (fst kv) req))
      sections.

Definition build_window (sections : Py.dict string)
    (required_sections : option (list string)) : outcome string :=
  let available_tokens := max_tokens self - response_buffer self in
  bind (_optimize_sections (window_sections sections required_sections)
          available_tokens)
    (fun optimized => Returns (_format_window optimized)).

Definition estimate_context_items_fit (context_items : list ContextItem)
    (reserved_tokens : Z) : list ContextItem * Z :=
  let available_tokens :=
    max_tokens self - response_buffer self - reserved_tokens in
  let selected :=
    ContextManager.window_fill available_tokens 0
      (Py.sorted_desc key_priority_time_lt context_items) in
  (selected, total_tokens selected).

End Window.

End ContextWindow.

(* ================================================================== *)
(** * Concrete inputs used by the examples below *)

Module Examples.

Definition tk : TokenCounter.t := TokenCounter.fallback.

(** [ContextOptimizer()] with its default [max_tokens]. *)
Definition optimizer : ContextOptimizer.t := ContextOptimizer.new tk 100000.

Definition item (i text ty : string) (prio tokens : Z)
    (exp : option datetime) : ContextItem :=
  mkItem i text ty prio 0 (JObj []) tokens PyFloat.f1 exp [].

(** The optimizer of the hybrid scenario, [max_tokens=1000]. *)
Definition scenario_optimizer : ContextOptimizer.t :=
  ContextOptimizer.new tk 1000.

(** The three items of the hybrid scenario. *)
Definition item_A : ContextItem :=
  item "A" "You are a careful assistant." "system" 9 800 None.
Definition item_B : ContextItem :=
  item "B" "Earlier turns of the conversation." "conversation" 5 500 None.
Definition item_C : ContextItem :=
  item "C" "A remembered fact." "memory" 3 400 None.

(** A system item whose expiry, time 0, lies before the clock of the
    examples, time 10. *)
Definition item_expired_system : ContextItem :=
  item "S" "An old instruction." "system" 9 800 (Some 0).

(** 302 characters, 75 tokens for the fallback estimator. *)
Definition long_text : string :=
  String.append "  " (PyStr.replicate 300 "a").

Definition item_long : ContextItem :=
  item "L" long_text "conversation" 5 75 None.

(** A text that fits 50 tokens once its filler words are gone. *)
Definition padded_text : string :=
  "this is really   very quite    rather somewhat actually basically padded text, very very really really quite quite rather rather somewhat somewhat actually actually basically basically very really quite rather so that the measured size goes just above fifty units.".

Definition item_padded : ContextItem :=
  mkItem "P" padded_text "conversation" 5 0 (JObj []) 66 PyFloat.f0_5 None
         ["draft"%string].

(** A store of 100 tokens: one item of 50 tokens is added, its text is
    then replaced by one of 150 tokens. *)
Definition store0 : ContextManager.t := ContextManager.empty tk "agent" 100.

Definition store1 : ContextManager.t :=
  snd (ContextManager.add_context 0 "id-1" store0
         (PyStr.replicate 200 "a") "user" 1 None None None).

Definition store2 : ContextManager.t :=
  snd (ContextManager.update_context 1 store1 "id-1"
         (ContextManager.mkUpdates (Some (PyStr.replicate 600 "b"))
            None None None None None None None)).

(** The item [store1] holds. *)
Definition item_stored : ContextItem :=
  mkItem "id-1" (PyStr.replicate 200 "a") "user" 1 0 (JObj []) 50
         PyFloat.f1 None [].

(** Text the safety checker rejects. *)
Definition unsafe_text : string := "<script>alert(1)</script>".

Definition store_unsafe : ContextManager.t :=
  snd (ContextManager.add_context 0 "id-1" store0 unsafe_text "user" 1
         None None None).

(** A store holding one item that expires at time 5. *)
Definition store_expiring : ContextManager.t :=
  snd (ContextManager.add_context 0 "id-1" store0 "meeting at noon" "user"
         7 None None (Some 5)).

(** A snapshot that parses as JSON but whose second entry carries a
    key that is no field of [ContextItem]. *)
Definition snapshot_bad_entry : json :=
  JObj [ ("agent_id"%string, JStr "agent");
         ("contexts"%string,
          JObj [ ("a"%string,
                  JObj [ ("id"%string, JStr "a");
                         ("content"%string, JStr "kept");
                         ("type"%string, JStr "user") ]);
                 ("b"%string, JObj [ ("bogus"%string, JInt 1) ]) ]);
         ("context_order"%string, JArr [JStr "a"; JStr "b"]) ].

(** A date parser that accepts nothing, and a constant identifier
    supply: the snapshot above needs neither. *)
Definition no_dates (s : string) : option datetime := None.
Definition fresh_ids (n : nat) : string := "fresh"%string.

(** Window sections of 3600 characters, 900 tokens for the fallback
    estimator. *)
Definition window : ContextWindow.t := ContextWindow.new tk 5000.

Definition section_900 (n : string) (prio : Z) (req : bool)
    : ContextWindow.WindowSection :=
  ContextWindow.mkSection n (PyStr.replicate 3600 "x") prio 900 req.

Definition section_optional : ContextWindow.WindowSection :=
  ContextWindow.mkSection "examples" "one short example" 3 4 false.

(** What [_truncate_section] makes of a 900-token section under a
    quota of 500 tokens. *)
Definition section_900_truncated (n : string) (prio : Z)
    : ContextWindow.WindowSection :=
  ContextWindow.mkSection (String.append n "_truncated")
    (String.append (PyStr.replicate 1911 "x") ContextWindow.truncated_marker)
    prio 477 true.

(** What [_try_compress_context] makes of [item_padded] under a limit
    of 50 tokens. *)
Definition padded_result : ContextItem :=
  Eval vm_compute in
    match ContextOptimizer._try_compress_context optimizer item_padded 50
    with
    | Some r => r
    | None => item_padded
    end.

End Examples.

(* ================================================================== *)
(** * context_manager.py: clearing and saving *)

Module StoreOps.
Import ContextManager.

(** [clear_context]: with a type, the items of that type are removed
    one by one; without one (or with the empty string), every
    container is emptied and the statistics are recomputed. *)
Definition clear_context (self : t) (context_type : option string) : t :=
  match context_type with
  | Some (String _ _ as ty) =>
      remove_all self
        (map fst (filter (fun kv => String.eqb (type (snd kv)) ty)
                         (contexts self)))
  | _ =>
      _update_stats
        (mk (agent_id self) (max_tokens self) (token_counter self)
            [] [] [] [] [] [] (stats self))
  end.

Section Saving.
(** [datetime.isoformat] and [str] of a datetime, as texts. *)
Variable isoformat : datetime -> string.
Variable str_datetime : datetime -> string.

(** [ContextItem.to_dict]. *)
Definition to_dict (c : ContextItem) : json :=
  JObj [ ("id"%string, JStr (id c));
         ("content"%string, JStr (content c));
         ("type"%string, JStr (type c));
         ("priority"%string, JInt (priority c));
         ("timestamp"%string, JStr (isoformat (timestamp c)));
         ("metadata"%string, metadata c);
         ("token_count"%string, JInt (token_count c));
         ("relevance_score"%string, JFloat (relevance_score c));
         ("expiry"%string,
          match expiry c with
          | Some e => JStr (isoformat e)
          | None => JNull
          end);
         ("tags"%string, JArr (map JStr (tags c))) ].

Definition stats_document (st : Stats) : json :=
  JObj [ ("total_items"%string, JInt (total_items st));
         ("total_tokens"%string, JInt (stats_total_tokens st));
         ("items_by_type"%string,
          JObj (map (fun kv => (fst kv, JInt (snd kv))) (items_by_type st)));
         ("last_optimization"%string,
          match last_optimization st with
          | NoStamp => JNull
          | At d => JStr (str_datetime d)
          | Raw j => j
          end) ].

(** The document [save_context] hands to [save_json], as [json.dump]
    with [default=str] writes it and [json.load] reads it back. *)
Definition context_data (now : datetime) (self : t) : json :=
  JObj [ ("agent_id"%string, JStr (agent_id self));
         ("contexts"%string,
          JObj (map (fun kv => (fst kv, to_dict (snd kv))) (contexts self)));
         ("context_order"%string, JArr (map JStr (context_order self)));
         ("stats"%string, stats_document (stats self));
         ("saved_at"%string, JStr (isoformat now)) ].

End Saving.

End StoreOps.

(* ================================================================== *)
(** * token_counter.py: the limit check *)

Module TokenCounterOps.

(** [check_within_limit]. *)
Definition check_within_limit (self : TokenCounter.t) (text : string)
    (m : option string) (buffer : Z) : bool :=
  let token_count := TokenCounter.count_tokens self text in
  let limit := TokenCounter.get_model_limit self m - buffer in
  token_count <=? limit.

End TokenCounterOps.

(* ================================================================== *)
(** * Further example data *)

Module MoreExamples.

(** A stand-in for [isoformat] and [fromisoformat] on the times of the
    examples: a time is written as its number of microseconds. *)
Definition stamp_text (d : datetime) : string := PyStr.of_int d.

Fixpoint parse_digits (l : list ascii) (acc : Z) : option Z :=
  match l with
  | [] => Some acc
  | c :: t =>
      if PyStr.is_digit c
      then parse_digits t (10 * acc + Z.of_nat (PyStr.code c - 48))
      else None
  end.

Definition stamp_parse (s : string) : option datetime :=
  match s with
  | EmptyString => None
  | _ => parse_digits (PyStr.chars s) 0
  end.

(** A store of two items: a note that expires at time 5 and a system
    instruction that does not expire. *)
Definition store_mixed : ContextManager.t :=
  snd (ContextManager.add_context 1 "id-2" Examples.store_expiring
         "be brief" "system" 9 None None None).

(** A store of two notes on one plan, both tagged: the first expires
    at time 5, the second at time 20. *)
Definition store_dated : ContextManager.t :=
  snd (ContextManager.add_context 1 "id-2"
         (snd (ContextManager.add_context 0 "id-1" Examples.store0
                 "meeting at noon" "user" 7 None (Some ["plan"%string])
                 (Some 5)))
         "lunch at one" "user" 5
         (Some (JObj [("room"%string, JInt 4)])) (Some ["plan"%string])
         (Some 20)).

(** The second note. *)
Definition item_dated : ContextItem :=
  mkItem "id-2" "lunch at one" "user" 5 1 (JObj [("room"%string, JInt 4)])
         3 PyFloat.f1 (Some 20) ["plan"%string].


(** An item of 808 characters, 202 tokens for the fallback estimator,
    nearly all of them spaces: collapsing the spaces brings it to 9
    characters.  [hybrid_W] is what hybrid makes, at time 10 and with a
    target of 150 tokens, of a heap that holds this one item. *)
Definition item_W : ContextItem :=
  mkItem "W"
    (String.append "word"
       (String.append (PyStr.replicate 800 " ") "word"))
    "conversation" 5 0 (JObj []) 202 PyFloat.f1 None [].

Definition hybrid_W : HybridObjects.heap * list HybridObjects.ref :=
  Eval vm_compute in
    HybridObjects._optimize_hybrid Examples.scenario_optimizer 10
      [item_W] [0%nat] 150.

(** A clock more than [max_age_hours] (168 hours, in microseconds)
    after time 0. *)
Definition late : datetime := 700000000000.

(** Three items written at time 0 and read at [late]: one that has
    expired, one of low priority, one of priority 9 that expires
    later still. *)
Definition item_gone : ContextItem :=
  mkItem "G" "gone" "conversation" 9 0 (JObj []) 1 PyFloat.f1 (Some 5) [].
Definition item_old_minor : ContextItem :=
  mkItem "M" "minor" "conversation" 3 0 (JObj []) 1 PyFloat.f1 None [].
Definition item_old_key : ContextItem :=
  mkItem "K" "key fact" "conversation" 9 0 (JObj []) 2 PyFloat.f1
         (Some 800000000000) [].

(** [item_old_key] with the composite score hybrid gives it. *)
Definition item_old_key_scored : ContextItem :=
  Eval vm_compute in
    set_relevance item_old_key
      (ContextOptimizer.composite_score Examples.scenario_optimizer late
         item_old_key).

End MoreExamples.

(* ================================================================== *)
(** * Vocabulary of the optimizer and store properties *)

Module OptimizerSpec.
Import ContextOptimizer.

Definition nonneg (l : list ContextItem) : Prop :=
  forall c, In c l -> 0 <= token_count c.

Definition is_system (c : ContextItem) : bool := String.eqb (type c) "system".

(** A greedy loop either selects nothing or stays within its bound. *)
Definition bounded (bound current : Z) (l : list ContextItem) : Prop :=
  l = [] \/ current + total_tokens l <= bound.

(** The system items [_optimize_hybrid] sets apart: those that have not
    expired. *)
Definition live_system (self : t) (now : datetime)
    (contexts : list ContextItem) : list ContextItem :=
  filter is_system (_filter_active_contexts self now contexts).

(** The names [self.strategies] maps to a single-key strategy; every
    other name runs hybrid. *)
Definition simple_strategy (strategy : string) : bool :=
  String.eqb strategy "priority_based"
  || String.eqb strategy "recency_based"
  || String.eqb strategy "relevance_based"
  || String.eqb strategy "compression"
  || String.eqb strategy "semantic_grouping".

End OptimizerSpec.

Module StoreSpec.
Import ContextManager.

(** The shape [add_context] gives a store and [remove_context] keeps:
    keys are unique, every item sits under its own identifier, and
    token counts are not negative.  ([update_context] with a new
    [token_count], or a snapshot written by hand, can break it.) *)
Definition store_ok (s : t) : Prop :=
  NoDup (Py.keys (contexts s))
  /\ forall k c, In (k, c) (contexts s) -> id c = k /\ 0 <= token_count c.

Definition key_in (ids : list string) (kv : string * ContextItem) : bool :=
  Py.mem (fst kv) ids.

(** The store [add_context] holds right after the insertion, before
    the budget is looked at. *)
Definition inserted (now : datetime) (new_id : string) (s : t)
    (text ty : string) (prio : Z) (meta : option json)
    (tgs : option (list string)) (exp : option datetime) : t :=
  let c := mkItem new_id text ty prio now (or_empty_object meta)
             (TokenCounter.count_tokens (token_counter s) text)
             PyFloat.f1 exp (match tgs with Some l => l | None => [] end) in
  _update_stats
    (_categorize_context
       (with_order (with_contexts s (Py.set new_id c (contexts s)))
                   (context_order s ++ [new_id]))
       c).

End StoreSpec.

(* ================================================================== *)
(** * Vocabulary of the further properties *)

From Stdlib Require Import Sorted.

Module MoreSpec.
Import ContextManager.

(** The statistics agree with the item map. *)
Definition stats_ok (s : t) : Prop :=
  total_items (stats s) = Z.of_nat (List.length (contexts s))
  /\ stats_total_tokens (stats s) = get_total_tokens s
  /\ items_by_type (stats s)
     = fold_left count_type (Py.values (contexts s)) [].

(** An index list names stored items only, each at most once. *)
Definition index_list_ok (d : Py.dict ContextItem) (l : list string)
    : Prop :=
  NoDup l /\ forall i, In i l -> Py.has i d = true.

(** The order list and the four category lists are such index lists,
    over a map with unique keys. *)
Definition indices_ok (s : t) : Prop :=
  NoDup (Py.keys (contexts s))
  /\ index_list_ok (contexts s) (context_order s)
  /\ index_list_ok (contexts s) (system_contexts s)
  /\ index_list_ok (contexts s) (conversation_contexts s)
  /\ index_list_ok (contexts s) (memory_contexts s)
  /\ index_list_ok (contexts s) (tool_contexts s).

(** Every stored item carries the token count the store's counter
    measures on its content. *)
Definition measured (s : t) : Prop :=
  forall k c, In (k, c) (contexts s) ->
    token_count c
    = TokenCounter.count_tokens (token_counter s) (content c).

(** A list in descending order of a key: no element is below a later
    one. *)
Definition descending (A : Type) (lt : A -> A -> bool) (l : list A) : Prop :=
  StronglySorted (fun a b => lt a b = false) l.

(** The bound [get_context_window] works with:
    [max_tokens or self.max_tokens]. *)
Definition window_limit (s : t) (mt : option Z) : Z :=
  match mt with
  | Some 0 | None => max_tokens s
  | Some m => m
  end.

(** The times of the stored items are written by [isoformat] as texts
    that [fromisoformat] reads back, and that are not empty. *)
Definition dates_round_trip (isoformat : datetime -> string)
    (fromisoformat : string -> option datetime) (s : t) : Prop :=
  forall k c, In (k, c) (contexts s) ->
    fromisoformat (isoformat (timestamp c)) = Some (timestamp c)
    /\ forall e, expiry c = Some e ->
         isoformat e <> EmptyString
         /\ fromisoformat (isoformat e) = Some e.

(** [x] is [c] up to its content, priority, token count, relevance and
    tags: it stands for the same stored item. *)
Definition derived_from (x c : ContextItem) : Prop :=
  id x = id c /\ type x = type c /\ timestamp x = timestamp c
  /\ expiry x = expiry c /\ metadata x = metadata c.

(** The groups of [_group_contexts_semantically] while they are
    built: keys are unique, no group is empty, and a group holds items
    of its key, drawn from [universe]. *)
Definition groups_ok (universe : list ContextItem)
    (groups : list (string * list ContextItem)) : Prop :=
  NoDup (map fst groups)
  /\ forall k g, In (k, g) groups ->
       g <> []
       /\ forall c, In c g ->
            ContextOptimizer.group_key c = k /\ In c universe.

(** A text of code points below 128, where [PyStr.upper] and
    [PyStr.lower] are [str.upper] and [str.lower]. *)
Definition ascii_text (s : string) : Prop :=
  Forall (fun c => (PyStr.code c < 128)%nat) (PyStr.chars s).

(** [a] is a prefix of [b]. *)
Definition is_prefix (a b : string) : Prop :=
  exists rest, b = String.append a rest.

(** A counter never counts more tokens in a prefix than in the whole
    text. *)
Definition prefix_monotone (tk : TokenCounter.t) : Prop :=
  forall (text : string) (k : Z),
    TokenCounter.count_tokens tk (PyStr.slice_to k text)
    <= TokenCounter.count_tokens tk text.

End MoreSpec.

(* ================================================================== *)
(** * Vocabulary of the window properties *)

Module WindowSpec.
Import ContextWindow MoreSpec.

(** The section [_truncate_section] builds from a section [s] and the
    text [text] its loop ends with: the text, followed by the marker
    when it is shorter than the content of [s]; the recorded size is
    the measured size of [text], the marker not counted. *)
Definition truncated_section (self : t) (s : WindowSection) (text : string)
    : WindowSection :=
  mkSection (String.append (name s) "_truncated")
    (if PyStr.len text <? PyStr.len (sec_content s)
     then String.append text truncated_marker
     else text)
    (sec_priority s)
    (TokenCounter.count_tokens (token_counter self) text)
    (required s).

(** What the required-overflow branch makes of one required section
    [s] whose quota is [q]: the section itself when it is within the
    quota, nothing when the quota is under 50 tokens, and otherwise
    the truncated section built from a beginning of its content that
    measures at most the quota. *)
Definition shrunk_to_quota (self : t) (q : Z) (s : WindowSection)
    (out : list WindowSection) : Prop :=
  if q <? sec_token_count s then
    if q <? 50 then out = []
    else exists text,
        is_prefix text (sec_content s)
        /\ TokenCounter.count_tokens (token_counter self) text <= q
        /\ out = [truncated_section self s text]
  else out = [s].

End WindowSpec.

(* ================================================================== *)
(** * Properties *)

From Stdlib Require Import Permutation.

Unset Implicit Arguments.

(** ** Double arithmetic: [int(n * 0.9)] *)

Module FloatFacts.

Lemma digits_bounds (p : positive) :
  2 ^ (Zpos (digits2_pos p) - 1) <= Zpos p < 2 ^ Zpos (digits2_pos p).
Proof.
  induction p as [p IH|p IH|]; simpl digits2_pos.
  - rewrite Pos2Z.inj_succ.
    replace (Z.succ (Zpos (digits2_pos p)) - 1) with (Z.succ (Zpos (digits2_pos p) - 1)) by lia.
    rewrite !Z.pow_succ_r by lia. lia.
  - rewrite Pos2Z.inj_succ.
    replace (Z.succ (Zpos (digits2_pos p)) - 1) with (Z.succ (Zpos (digits2_pos p) - 1)) by lia.
    rewrite !Z.pow_succ_r by lia. lia.
  - simpl. lia.
Qed.

Lemma shr_1_m (mrs : shr_record) :
  0 <= shr_m mrs -> shr_m (shr_1 mrs) = shr_m mrs / 2.
Proof.
  destruct mrs as [m r s]. simpl. intros H.
  destruct m as [|[p|p|]|p]; simpl in *.
  all: try lia. all: try reflexivity.
  - apply (Z.div_unique _ 2 _ 1); lia.
  - apply (Z.div_unique _ 2 _ 0); lia.
Qed.

Lemma shr_1_nonneg (mrs : shr_record) :
  0 <= shr_m mrs -> 0 <= shr_m (shr_1 mrs).
Proof.
  intros H. rewrite shr_1_m by assumption. apply Z.div_pos; lia.
Qed.

Lemma iter_shr_m (n : positive) (mrs : shr_record) :
  0 <= shr_m mrs ->
  shr_m (iter_pos shr_1 n mrs) = shr_m mrs / 2 ^ Zpos n
  /\ 0 <= shr_m (iter_pos shr_1 n mrs).
Proof.
  revert mrs. induction n as [n IH|n IH|]; intros mrs H; simpl iter_pos.
  - pose proof (shr_1_nonneg mrs H) as H1.
    destruct (IH (shr_1 mrs) H1) as [E2 H2].
    destruct (IH _ H2) as [E3 H3]. split; [|assumption].
    assert (P : 0 < 2 ^ Zpos n) by (apply Z.pow_pos_nonneg; lia).
    assert (Hp : 2 ^ Zpos n~1 = 2 * (2 ^ Zpos n * 2 ^ Zpos n)).
    { replace (Zpos n~1) with (1 + Zpos n + Zpos n) by lia.
      rewrite !Z.pow_add_r by lia. change (2 ^ 1) with 2. lia. }
    rewrite Hp, E3, E2, shr_1_m by assumption.
    rewrite !Z.div_div by lia. reflexivity.
  - destruct (IH mrs H) as [E2 H2].
    destruct (IH _ H2) as [E3 H3]. split; [|assumption].
    assert (P : 0 < 2 ^ Zpos n) by (apply Z.pow_pos_nonneg; lia).
    assert (Hp : 2 ^ Zpos n~0 = 2 ^ Zpos n * 2 ^ Zpos n).
    { replace (Zpos n~0) with (Zpos n + Zpos n) by lia.
      rewrite !Z.pow_add_r by lia. reflexivity. }
    rewrite Hp, E3, E2.
    rewrite !Z.div_div by lia. reflexivity.
  - split; [|now apply shr_1_nonneg].
    rewrite shr_1_m by assumption. reflexivity.
Qed.

Lemma shr_fexp_spec (m e : Z) (l : location) :
  0 <= m ->
  exists s,
    0 <= s
    /\ s = Z.max 0 (fexp 53 1024 (Zdigits2 m + e) - e)
    /\ snd (shr_fexp 53 1024 m e l) = e + s
    /\ shr_m (fst (shr_fexp 53 1024 m e l)) = m / 2 ^ s.
Proof.
  intros Hm. unfold shr_fexp, shr.
  assert (Hrec : shr_m (shr_record_of_loc m l) = m)
    by (destruct l as [|[]]; reflexivity).
  destruct (fexp 53 1024 (Zdigits2 m + e) - e) as [|p|p] eqn:E.
  - exists 0. simpl. rewrite Hrec, Z.div_1_r. repeat split; lia.
  - exists (Zpos p). simpl fst. simpl snd.
    destruct (iter_shr_m p (shr_record_of_loc m l)) as [E1 _]; [lia|].
    rewrite E1, Hrec. repeat split; lia.
  - exists 0. simpl. rewrite Hrec, Z.div_1_r. repeat split; lia.
Qed.

Lemma rne_bounds (m : Z) (l : location) :
  m <= round_nearest_even m l <= m + 1.
Proof.
  unfold round_nearest_even. destruct l as [|[]]; try lia.
  destruct (Z.even m); lia.
Qed.

(** Rounding a positive mantissa never adds more than one unit of the
    first shift. *)
Lemma round_aux_upper (sx : bool) (mx : positive) (ex : Z)
    (s' : bool) (m3 : positive) (e3 : Z) :
  binary_round_aux 53 1024 sx (Zpos mx) ex loc_Exact = S754_finite s' m3 e3 ->
  s' = sx /\ ex <= e3
  /\ Zpos m3 * 2 ^ (e3 - ex)
     <= Zpos mx + 2 ^ Z.max 0 (fexp 53 1024 (Zdigits2 (Zpos mx) + ex) - ex).
Proof.
  unfold binary_round_aux.
  destruct (shr_fexp_spec (Zpos mx) ex loc_Exact) as [s1 [Hs1 [Es1 [He1 Hm1]]]];
    [lia|].
  destruct (shr_fexp 53 1024 (Zpos mx) ex loc_Exact) as [mrs1 e1].
  simpl in He1, Hm1. rewrite <- Es1.
  pose proof (rne_bounds (shr_m mrs1) (loc_of_shr_record mrs1)) as Hr.
  set (m2 := round_nearest_even (shr_m mrs1) (loc_of_shr_record mrs1)) in *.
  assert (H1 : 0 <= shr_m mrs1).
  { rewrite Hm1. apply Z.div_pos; [lia | apply Z.pow_pos_nonneg; lia]. }
  destruct (shr_fexp_spec m2 e1 loc_Exact) as [s2 [Hs2 [_ [He2 Hm2]]]]; [lia|].
  destruct (shr_fexp 53 1024 m2 e1 loc_Exact) as [mrs2 e2].
  simpl in He2, Hm2.
  destruct (shr_m mrs2) as [|m|m] eqn:E; try discriminate.
  destruct (e2 <=? 1024 - 53); [|discriminate].
  intros H. injection H as <- <- <-.
  split; [reflexivity|]. split; [lia|].
  subst e2 e1. replace (ex + s1 + s2 - ex) with (s2 + s1) by lia.
  rewrite Z.pow_add_r by lia.
  assert (P1 : 0 < 2 ^ s1) by (apply Z.pow_pos_nonneg; lia).
  assert (P2 : 0 < 2 ^ s2) by (apply Z.pow_pos_nonneg; lia).
  assert (A : Zpos m * 2 ^ s2 <= m2).
  { rewrite Hm2. rewrite Z.mul_comm. apply Z.mul_div_le. lia. }
  assert (B : shr_m mrs1 * 2 ^ s1 <= Zpos mx).
  { rewrite Hm1. rewrite Z.mul_comm. apply Z.mul_div_le. lia. }
  nia.
Qed.

Lemma iter_xO (k p : positive) :
  Zpos (Pos.iter xO p k) = Zpos p * 2 ^ Zpos k
  /\ Zpos (digits2_pos (Pos.iter xO p k)) = Zpos (digits2_pos p) + Zpos k.
Proof.
  induction k as [|k IH] using Pos.peano_ind.
  - simpl. split; lia.
  - rewrite Pos.iter_succ. destruct IH as [IH1 IH2]. split.
    + rewrite Pos2Z.inj_xO, IH1, Pos2Z.inj_succ, Z.pow_succ_r by lia. lia.
    + simpl digits2_pos. rewrite Pos2Z.inj_succ, IH2. lia.
Qed.

Lemma round_aux_exact (sx : bool) (mz : positive) (ez : Z) :
  Zpos (digits2_pos mz) = 53 -> -1074 <= ez <= 971 ->
  binary_round_aux 53 1024 sx (Zpos mz) ez loc_Exact = S754_finite sx mz ez.
Proof.
  intros Hd He. unfold binary_round_aux, shr_fexp.
  assert (E : fexp 53 1024 (Zdigits2 (Zpos mz) + ez) - ez = 0).
  { unfold fexp, emin. simpl Zdigits2. rewrite Hd. lia. }
  rewrite E.
  cbn [shr shr_record_of_loc shr_m loc_of_shr_record round_nearest_even].
  rewrite E.
  cbn [shr shr_record_of_loc shr_m].
  replace (1024 - 53) with 971 by reflexivity.
  destruct (ez <=? 971) eqn:L; [reflexivity|]. apply Z.leb_gt in L. lia.
Qed.

Lemma of_int_exact (n : Z) :
  1 <= n < 2 ^ 53 ->
  exists m e,
    PyFloat.of_int n = S754_finite false m e
    /\ -52 <= e <= 0
    /\ Zpos m = n * 2 ^ (- e)
    /\ 2 ^ 52 <= Zpos m < 2 ^ 53.
Proof.
  intros Hn. destruct n as [|p|p]; try lia.
  unfold PyFloat.of_int, PyFloat.prec, PyFloat.emax, binary_normalize,
    binary_round.
  pose proof (digits_bounds p) as Hd.
  set (d := Zpos (digits2_pos p)) in *.
  assert (Hd53 : 1 <= d <= 53).
  { split; [unfold d; lia|].
    destruct (Z_le_gt_dec d 53) as [L|G]; [assumption|].
    assert (2 ^ 53 <= 2 ^ (d - 1)) by (apply Z.pow_le_mono_r; lia). lia. }
  assert (Ef : fexp 53 1024 (d + 0) = d - 53) by (unfold fexp, emin; lia).
  rewrite Ef. unfold shl_align.
  assert (Hnorm : forall mz, Zpos (digits2_pos mz) = 53 ->
                             2 ^ 52 <= Zpos mz < 2 ^ 53).
  { intros mz H. pose proof (digits_bounds mz) as B. rewrite H in B.
    exact B. }
  destruct (d - 53 - 0) as [|k|k] eqn:Ek; try lia.
  - assert (d = 53) by lia.
    rewrite round_aux_exact by (fold d; lia).
    exists p, 0. split; [reflexivity|]. split; [lia|].
    split; [simpl; lia | apply Hnorm; fold d; lia].
  - destruct (iter_xO k p) as [Hv Hdig]. fold d in Hdig.
    rewrite round_aux_exact by lia.
    exists (Pos.iter xO p k), (d - 53). split; [reflexivity|].
    split; [lia|]. split; [|apply Hnorm; lia].
    rewrite Hv. f_equal. f_equal. lia.
Qed.

(** [int(n * 0.9) < n] in double arithmetic, for every positive
    integer below [2^53]. *)
Lemma mul_0_9_lt (n : Z) :
  1 <= n < 2 ^ 53 -> PyFloat.to_int (PyFloat.mul (PyFloat.of_int n) PyFloat.f0_9) < n.
Proof.
  intros Hn. destruct (of_int_exact n Hn) as [m [e [E [He [Hm Hnorm]]]]].
  rewrite E.
  unfold PyFloat.mul, PyFloat.f0_9, PyFloat.prec, PyFloat.emax, SFmul.
  simpl xorb.
  destruct (binary_round_aux 53 1024 false
              (Zpos (m * 8106479329266893)) (e + -53) loc_Exact)
    as [s'| s' | | s' m3 e3] eqn:R; simpl PyFloat.to_int; try lia.
  apply round_aux_upper in R. destruct R as [-> [Hle Hup]].
  pose proof (digits_bounds (m * 8106479329266893)) as Hd.
  simpl Zdigits2 in Hup.
  set (D := Zpos (digits2_pos (m * 8106479329266893))) in *.
  rewrite Pos2Z.inj_mul in *.
  change (2 ^ 52) with 4503599627370496 in Hnorm.
  change (2 ^ 53) with 9007199254740992 in Hnorm.
  assert (HD : D <= 106).
  { destruct (Z_le_gt_dec D 106) as [L|G]; [assumption|].
    assert (2 ^ 106 <= 2 ^ (D - 1)) by (apply Z.pow_le_mono_r; lia).
    change (2 ^ 106) with (9007199254740992 * 9007199254740992) in H.
    nia. }
  assert (Hs : 2 ^ Z.max 0 (fexp 53 1024 (D + (e + -53)) - (e + -53))
               <= 2 ^ 53).
  { apply Z.pow_le_mono_r; [lia|]. unfold fexp, emin. lia. }
  change (2 ^ 53) with 9007199254740992 in Hs.
  set (k := - e) in *.
  assert (Hk : 0 <= k <= 52) by (unfold k; lia).
  set (t := e3 - (e + -53)) in *.
  assert (Ht : 0 <= t) by (unfold t; lia).
  assert (Hkey : Zpos m3 * 2 ^ t < n * 2 ^ k * 9007199254740992).
  { rewrite <- Hm. lia. }
  assert (P53 : 2 ^ 53 = 9007199254740992) by reflexivity.
  destruct (0 <=? e3) eqn:S3.
  - apply Z.leb_le in S3. rewrite Z.shiftl_mul_pow2 by assumption.
    assert (Et : 2 ^ t = 2 ^ e3 * (2 ^ k * 9007199254740992)).
    { rewrite <- P53, <- !Z.pow_add_r by lia. f_equal. unfold t, k. lia. }
    rewrite Et in Hkey.
    assert (0 < 2 ^ k * 9007199254740992)
      by (assert (0 < 2 ^ k) by (apply Z.pow_pos_nonneg; lia); lia).
    nia.
  - apply Z.leb_gt in S3. rewrite Z.shiftr_div_pow2 by lia.
    assert (Et : 2 ^ k * 9007199254740992 = 2 ^ (- e3) * 2 ^ t).
    { rewrite <- P53, <- !Z.pow_add_r by lia. f_equal. unfold t, k. lia. }
    assert (P : 0 < 2 ^ t) by (apply Z.pow_pos_nonneg; lia).
    assert (Q : 0 < 2 ^ (- e3)) by (apply Z.pow_pos_nonneg; lia).
    apply Z.div_lt_upper_bound; [assumption|].
    replace (n * 2 ^ k * 9007199254740992)
      with (n * (2 ^ k * 9007199254740992)) in Hkey by lia.
    rewrite Et in Hkey. nia.
Qed.

Lemma mul_0_9_le (n : Z) :
  0 <= n < 2 ^ 53 -> 0 <= n -> PyFloat.to_int (PyFloat.mul (PyFloat.of_int n) PyFloat.f0_9) <= n.
Proof.
  intros Hn _. destruct (Z.eq_dec n 0) as [->|Hne]; [vm_compute; discriminate|].
  pose proof (mul_0_9_lt n). lia.
Qed.

End FloatFacts.

(** ** Sums, filters and the stable sort *)

Module ListFacts.

Lemma sum_app (A : Type) (f : A -> Z) (l1 l2 : list A) :
  Py.sum f (l1 ++ l2) = Py.sum f l1 + Py.sum f l2.
Proof.
  unfold Py.sum. induction l1 as [|x l1 IH]; simpl; [reflexivity|].
  rewrite IH. lia.
Qed.

Lemma sum_nonneg (A : Type) (f : A -> Z) (l : list A) :
  (forall x, In x l -> 0 <= f x) -> 0 <= Py.sum f l.
Proof.
  unfold Py.sum. induction l as [|x l IH]; simpl; intros H; [lia|].
  assert (0 <= f x) by (apply H; now left).
  assert (0 <= fold_right (fun x acc => f x + acc) 0 l)
    by (apply IH; intros y Hy; apply H; now right).
  lia.
Qed.

Lemma sum_filter_le (A : Type) (f : A -> Z) (p : A -> bool) (l : list A) :
  (forall x, In x l -> 0 <= f x) ->
  Py.sum f (filter p l) <= Py.sum f l.
Proof.
  unfold Py.sum. induction l as [|x l IH]; simpl; intros H; [lia|].
  assert (0 <= f x) by (apply H; now left).
  assert (Hl : forall y, In y l -> 0 <= f y) by (intros y Hy; apply H; now right).
  specialize (IH Hl). destruct (p x); simpl; lia.
Qed.

Lemma sum_perm (A : Type) (f : A -> Z) (l1 l2 : list A) :
  Permutation l1 l2 -> Py.sum f l1 = Py.sum f l2.
Proof.
  unfold Py.sum. induction 1; simpl; lia.
Qed.

Lemma filter_perm (A : Type) (p : A -> bool) (l1 l2 : list A) :
  Permutation l1 l2 -> Permutation (filter p l1) (filter p l2).
Proof.
  induction 1; simpl.
  - constructor.
  - destruct (p x); [now constructor | assumption].
  - destruct (p x), (p y);
      auto using Permutation_refl, perm_swap, perm_skip.
  - eapply Permutation_trans; eassumption.
Qed.

Lemma filter_filter (A : Type) (p q : A -> bool) (l : list A) :
  filter p (filter q l) = filter (fun x => q x && p x) l.
Proof.
  induction l as [|x l IH]; simpl; [reflexivity|].
  destruct (q x); simpl; [destruct (p x)|]; rewrite ?IH; reflexivity.
Qed.

Lemma filter_all (A : Type) (p : A -> bool) (l : list A) :
  (forall x, In x l -> p x = true) -> filter p l = l.
Proof.
  induction l as [|x l IH]; simpl; intros H; [reflexivity|].
  rewrite (H x (or_introl eq_refl)). f_equal. apply IH.
  intros y Hy. apply H. now right.
Qed.

Lemma filter_none (A : Type) (p : A -> bool) (l : list A) :
  (forall x, In x l -> p x = false) -> filter p l = [].
Proof.
  induction l as [|x l IH]; simpl; intros H; [reflexivity|].
  rewrite (H x (or_introl eq_refl)). apply IH.
  intros y Hy. apply H. now right.
Qed.

Lemma filter_idem (A : Type) (p : A -> bool) (l : list A) :
  filter p (filter p l) = filter p l.
Proof.
  apply filter_all. intros x Hx. apply filter_In in Hx. tauto.
Qed.

Section Sorted.
Variable A : Type.
Variable lt : A -> A -> bool.

Lemma insert_desc_perm (x : A) (l : list A) :
  Permutation (x :: l) (Py.insert_desc lt x l).
Proof.
  induction l as [|y l IH]; simpl; [apply Permutation_refl|].
  destruct (lt x y); [|apply Permutation_refl].
  eapply Permutation_trans; [apply perm_swap|].
  now constructor.
Qed.

Lemma sorted_desc_perm (l : list A) :
  Permutation l (Py.sorted_desc lt l).
Proof.
  induction l as [|x l IH]; simpl; [constructor|].
  eapply Permutation_trans; [|apply insert_desc_perm].
  now constructor.
Qed.

Lemma sorted_desc_in (x : A) (l : list A) :
  In x (Py.sorted_desc lt l) <-> In x l.
Proof.
  split; apply Permutation_in;
    [apply Permutation_sym|]; apply sorted_desc_perm.
Qed.
End Sorted.

End ListFacts.

(** ** The eviction optimizer *)

Module OptimizerFacts.
Import ContextOptimizer OptimizerSpec ListFacts.

Lemma total_app (l1 l2 : list ContextItem) :
  total_tokens (l1 ++ l2) = total_tokens l1 + total_tokens l2.
Proof. apply sum_app. Qed.

Lemma total_cons (c : ContextItem) (l : list ContextItem) :
  total_tokens (c :: l) = token_count c + total_tokens l.
Proof. reflexivity. Qed.

Lemma fill_until_bounded (l : list ContextItem) (target current : Z) :
  bounded target current (fill_until target current l).
Proof.
  revert current. induction l as [|c l IH]; intros current; simpl.
  - now left.
  - destruct (current + token_count c <=? target) eqn:E; [|now left].
    right. rewrite total_cons. apply Z.leb_le in E.
    destruct (IH (current + token_count c)) as [H|H].
    + rewrite H. unfold total_tokens, Py.sum. simpl. lia.
    + lia.
Qed.

Section WithOptimizer.
Variable self : t.
Variable now : datetime.

Lemma relevance_fill_bounded (l : list ContextItem) (target current : Z) :
  bounded target current (relevance_fill self target current l).
Proof.
  revert current. induction l as [|c l IH]; intros current; simpl.
  - now left.
  - destruct (PyFloat.leb _ _ && (current + token_count c <=? target))
      eqn:E.
    + apply andb_prop in E. destruct E as [_ E]. apply Z.leb_le in E.
      right. destruct (target <=? current + token_count c).
      * unfold total_tokens, Py.sum. simpl. lia.
      * rewrite total_cons.
        destruct (IH (current + token_count c)) as [H|H].
        -- rewrite H. unfold total_tokens, Py.sum. simpl. lia.
        -- lia.
    + destruct (target <=? current); [now left | apply IH].
Qed.

Lemma compress_content_fits (text : string) (n : Z) (r : string) :
  _compress_content self text n = Some r ->
  TokenCounter.count_tokens (token_counter self) r <= n.
Proof.
  unfold _compress_content. cbv zeta.
  destruct (_ <=? n) eqn:E1.
  - intros H. injection H as <-. now apply Z.leb_le.
  - match goal with
    | |- (if _ ?x <=? n then Some ?x else None) = _ -> _ =>
        generalize x
    end.
    intros x.
    destruct (TokenCounter.count_tokens (token_counter self) x <=? n)
      eqn:E2; [|discriminate].
    intros H. injection H as <-. now apply Z.leb_le.
Qed.

Lemma nonempty_some (o : option string) (r : string) :
  nonempty o = Some r -> o = Some r.
Proof.
  destruct o as [[|a s]|]; simpl; intros H; try discriminate.
  now injection H as <-.
Qed.

Lemma compression_fill_bounded (l : list ContextItem) (target current : Z) :
  bounded target current (compression_fill self target current l).
Proof.
  revert current. induction l as [|c l IH]; intros current; simpl.
  - now left.
  - destruct (current + token_count c <=? target) eqn:E.
    + right. rewrite total_cons. apply Z.leb_le in E.
      destruct (IH (current + token_count c)) as [H|H].
      * rewrite H. unfold total_tokens, Py.sum. simpl. lia.
      * lia.
    + destruct (100 <? target - current); [|now left].
      destruct (nonempty _) as [r|] eqn:En; [|now left].
      right. apply nonempty_some, compress_content_fits in En.
      unfold total_tokens, Py.sum. simpl. lia.
Qed.

Lemma try_compress_fits (c r : ContextItem) (n : Z) :
  _try_compress_context self c n = Some r -> token_count r <= n.
Proof.
  unfold _try_compress_context.
  destruct (n <? 50); [discriminate|].
  destruct (nonempty _) as [s|] eqn:En; [|discriminate].
  intros H. injection H as <-. simpl.
  now apply nonempty_some, compress_content_fits in En.
Qed.

Lemma hybrid_fill_bounded (l : list ContextItem) (remaining current : Z) :
  bounded remaining current (hybrid_fill self remaining current l).
Proof.
  revert current. induction l as [|c l IH]; intros current; simpl.
  - now left.
  - destruct (current + token_count c <=? remaining) eqn:E.
    + right. rewrite total_cons. apply Z.leb_le in E.
      destruct (IH (current + token_count c)) as [H|H].
      * rewrite H. unfold total_tokens, Py.sum. simpl. lia.
      * lia.
    + destruct (100 <? remaining - current).
      * destruct (_try_compress_context _ _ _) as [r|] eqn:Et;
          [|now left].
        right. apply try_compress_fits in Et.
        unfold total_tokens, Py.sum. simpl. lia.
      * apply IH.
Qed.

Lemma live_system_spec (contexts : list ContextItem) :
  live_system self now contexts =
  filter (fun c => is_system c && negb (is_expired now c)) contexts.
Proof.
  unfold live_system, _filter_active_contexts.
  rewrite filter_filter. apply filter_ext. intros c.
  unfold is_system. destruct (String.eqb (type c) "system");
    destruct (is_expired now c); simpl; try reflexivity.
  all: rewrite ?andb_false_r; reflexivity.
Qed.

Lemma live_system_fixed (contexts : list ContextItem) :
  live_system self now (live_system self now contexts) = live_system self now contexts.
Proof. rewrite !live_system_spec. apply filter_idem. Qed.

Lemma live_system_no_others (contexts : list ContextItem) :
  filter (fun c => negb (String.eqb (type c) "system"))
         (_filter_active_contexts self now (live_system self now contexts)) = [].
Proof.
  apply filter_none. intros c Hc.
  unfold _filter_active_contexts in Hc. apply filter_In in Hc.
  destruct Hc as [Hc _]. unfold live_system in Hc.
  apply filter_In in Hc. destruct Hc as [_ Hc].
  unfold is_system in Hc. now rewrite Hc.
Qed.

Lemma hybrid_unfold (contexts : list ContextItem) (target : Z) :
  _optimize_hybrid self now contexts target =
  if target - total_tokens (live_system self now contexts) <=? 0
  then live_system self now contexts
  else live_system self now contexts ++
       hybrid_fill self (target - total_tokens (live_system self now contexts))
         (total_tokens (live_system self now contexts))
         (_calculate_composite_scores self now
            (filter (fun c => negb (String.eqb (type c) "system"))
                    (_filter_active_contexts self now contexts))).
Proof. reflexivity. Qed.

Lemma live_system_nonneg (contexts : list ContextItem) :
  nonneg contexts -> 0 <= total_tokens (live_system self now contexts).
Proof.
  intros H. apply sum_nonneg. intros c Hc. apply H.
  rewrite live_system_spec in Hc. apply filter_In in Hc. tauto.
Qed.

Lemma live_system_le (contexts : list ContextItem) :
  nonneg contexts ->
  total_tokens (live_system self now contexts)
  <= total_tokens (filter is_system contexts).
Proof.
  intros H. rewrite live_system_spec.
  replace (filter (fun c => is_system c && negb (is_expired now c)) contexts)
    with (filter (fun c => negb (is_expired now c))
                 (filter is_system contexts))
    by apply filter_filter.
  apply sum_filter_le. intros c Hc. apply H.
  apply filter_In in Hc. tauto.
Qed.

(** Hybrid either stays within the target or returns exactly the
    live system items. *)
Lemma hybrid_cases (contexts : list ContextItem) (target : Z) :
  nonneg contexts ->
  total_tokens (_optimize_hybrid self now contexts target) <= target
  \/ (_optimize_hybrid self now contexts target = live_system self now contexts
      /\ target <= total_tokens (live_system self now contexts)).
Proof.
  intros Hn. rewrite hybrid_unfold.
  pose proof (live_system_nonneg contexts Hn) as Hs.
  destruct (_ <=? 0) eqn:E.
  - right. apply Z.leb_le in E. split; [reflexivity | lia].
  - left. apply Z.leb_gt in E. rewrite total_app.
    match goal with
    | |- _ + total_tokens (hybrid_fill ?s ?r ?c ?l) <= _ =>
        destruct (hybrid_fill_bounded l r c) as [H|H]
    end.
    + rewrite H. unfold total_tokens at 2, Py.sum. simpl. lia.
    + lia.
Qed.

Lemma hybrid_on_live_system (contexts : list ContextItem) (target : Z) :
  target <= total_tokens (live_system self now contexts) ->
  _optimize_hybrid self now (live_system self now contexts) target
  = live_system self now contexts.
Proof.
  intros H. rewrite hybrid_unfold, live_system_fixed.
  destruct (_ <=? 0) eqn:E; [reflexivity|].
  apply Z.leb_gt in E. lia.
Qed.

Lemma run_simple (strategy : string) (contexts : list ContextItem)
    (target : Z) :
  simple_strategy strategy = true ->
  bounded target 0 (run_strategy self now strategy contexts target)
  /\ run_strategy self now strategy [] target = [].
Proof.
  unfold simple_strategy, run_strategy. intros H.
  destruct (String.eqb strategy "priority_based");
    [split; [apply fill_until_bounded | reflexivity]|].
  destruct (String.eqb strategy "recency_based");
    [split; [apply fill_until_bounded | reflexivity]|].
  destruct (String.eqb strategy "relevance_based");
    [split; [apply relevance_fill_bounded | reflexivity]|].
  destruct (String.eqb strategy "compression");
    [split; [apply compression_fill_bounded | reflexivity]|].
  destruct (String.eqb strategy "semantic_grouping");
    [split; [apply fill_until_bounded | reflexivity]|].
  discriminate.
Qed.

Lemma run_hybrid (strategy : string) :
  simple_strategy strategy = false ->
  run_strategy self now strategy = _optimize_hybrid self now.
Proof.
  unfold simple_strategy, run_strategy.
  destruct (String.eqb strategy "priority_based"); [discriminate|].
  destruct (String.eqb strategy "recency_based"); [discriminate|].
  destruct (String.eqb strategy "relevance_based"); [discriminate|].
  destruct (String.eqb strategy "compression"); [discriminate|].
  destruct (String.eqb strategy "semantic_grouping"); [discriminate|].
  reflexivity.
Qed.

Lemma optimize_unfold (contexts : list ContextItem) (tgt : option Z)
    (strategy : string) :
  optimize self now contexts tgt strategy =
  if total_tokens contexts <=? effective_target self tgt
  then contexts
  else run_strategy self now strategy contexts (effective_target self tgt).
Proof.
  unfold optimize, optimize_contexts.
  destruct (_ <=? _); reflexivity.
Qed.

End WithOptimizer.

End OptimizerFacts.

(** ** Claims about the eviction optimizer *)

Module OptimizerClaims.
Import ContextOptimizer OptimizerSpec ListFacts OptimizerFacts.

Lemma effective_target_nonzero (self : t) (T : Z) :
  T <> 0 -> effective_target self (Some T) = T.
Proof. destruct T; simpl; congruence. Qed.

Lemma hybrid_is_not_simple : simple_strategy "hybrid" = false.
Proof. reflexivity. Qed.

(** C1 (as amended).  For items with non-negative token counts and a
    target other than 0 (a target of 0 is replaced by 90% of the
    optimizer's own [max_tokens]): when the system-typed tokens do not
    exceed the target, the items any strategy selects total at most
    the target; the hybrid strategy always keeps every system item
    that has not expired, and when those alone exceed the target it
    returns exactly them. *)
Theorem budget_invariant (self : t) (now : datetime)
    (contexts : list ContextItem) (T : Z) (strategy : string) :
  nonneg contexts ->
  T <> 0 ->
  (total_tokens (filter is_system contexts) <= T ->
   total_tokens (optimize self now contexts (Some T) strategy) <= T)
  /\ (forall c, In c contexts -> is_system c = true ->
                is_expired now c = false ->
                In c (optimize self now contexts (Some T) "hybrid"))
  /\ (T < total_tokens (live_system self now contexts) ->
      optimize self now contexts (Some T) "hybrid"
      = live_system self now contexts).
Proof.
  intros Hn HT.
  pose proof (live_system_le self now contexts Hn) as Hle.
  pose proof (live_system_nonneg self now contexts Hn) as Hpos.
  repeat split.
  - intros Hsys. rewrite optimize_unfold, effective_target_nonzero by assumption.
    destruct (total_tokens contexts <=? T) eqn:E; [now apply Z.leb_le|].
    destruct (simple_strategy strategy) eqn:Es.
    + destruct (run_simple self now strategy contexts T Es) as [[H|H] _].
      * rewrite H. unfold total_tokens, Py.sum. simpl. lia.
      * lia.
    + rewrite (run_hybrid self now _ Es).
      destruct (hybrid_cases self now contexts T Hn) as [H|[H1 H2]]; [assumption|].
      rewrite H1. lia.
  - intros c Hin Hs He.
    rewrite optimize_unfold. destruct (_ <=? _); [assumption|].
    rewrite (run_hybrid self now _ hybrid_is_not_simple), hybrid_unfold.
    assert (Hc : In c (live_system self now contexts)).
    { rewrite live_system_spec. apply filter_In. split; [assumption|].
      now rewrite Hs, He. }
    destruct (_ <=? 0); [assumption|]. apply in_or_app. now left.
  - intros Hdom.
    rewrite optimize_unfold, effective_target_nonzero by assumption.
    assert (Hall : total_tokens (live_system self now contexts)
                   <= total_tokens contexts).
    { rewrite live_system_spec. now apply sum_filter_le. }
    destruct (total_tokens contexts <=? T) eqn:E;
      [apply Z.leb_le in E; lia|].
    rewrite (run_hybrid self now _ hybrid_is_not_simple), hybrid_unfold.
    destruct (_ <=? 0) eqn:E0; [reflexivity|].
    apply Z.leb_gt in E0. lia.
Qed.

Lemma scenario_nonneg :
  nonneg [Examples.item_A; Examples.item_B; Examples.item_C].
Proof.
  intros c [<-|[<-|[<-|[]]]]; simpl; lia.
Qed.

Lemma budget_invariant_witness :
  total_tokens
    (optimize Examples.optimizer 10
       [Examples.item_A; Examples.item_B; Examples.item_C]
       (Some 1000) "priority_based") <= 1000.
Proof.
  apply (budget_invariant Examples.optimizer 10 _ 1000 "priority_based"
           scenario_nonneg).
  - discriminate.
  - vm_compute. discriminate.
Defined.

(** C1, as stated, fails.  With target 0 and no system item at all,
    one 500-token item is returned whole; and in a system-dominated
    input an expired system item is not kept. *)
Lemma budget_invariant_counterexample :
  (total_tokens (filter is_system [Examples.item_B]) <= 0
   /\ 0 < total_tokens
            (optimize Examples.optimizer 10 [Examples.item_B] (Some 0)
               "hybrid"))
  /\ (1000 < total_tokens
               (filter is_system
                  [Examples.item_expired_system; Examples.item_A])
      /\ ~ In Examples.item_expired_system
             (optimize Examples.optimizer 10
                [Examples.item_expired_system; Examples.item_A]
                (Some 1000) "hybrid")).
Proof.
  repeat split; try (vm_compute; (reflexivity || discriminate)).
  vm_compute. intros [H|[]]. discriminate H.
Qed.

(** C6.  Optimizing the selection of a first run again, with the same
    target, strategy and clock, returns that selection. *)
Theorem optimize_idempotent (self : t) (now : datetime)
    (contexts : list ContextItem) (tgt : option Z) (strategy : string) :
  nonneg contexts ->
  optimize self now (optimize self now contexts tgt strategy) tgt strategy
  = optimize self now contexts tgt strategy.
Proof.
  intros Hn. rewrite (optimize_unfold self now contexts).
  set (E := effective_target self tgt).
  destruct (total_tokens contexts <=? E) eqn:E1.
  - rewrite optimize_unfold. fold E. now rewrite E1.
  - rewrite optimize_unfold. fold E.
    destruct (total_tokens (run_strategy self now strategy contexts E) <=? E)
      eqn:E2; [reflexivity|].
    apply Z.leb_gt in E2.
    destruct (simple_strategy strategy) eqn:Es.
    + destruct (run_simple self now strategy contexts E Es) as [[H|H] _].
      * rewrite H. apply (run_simple self now strategy [] E Es).
      * lia.
    + rewrite (run_hybrid self now _ Es) in *.
      destruct (hybrid_cases self now contexts E Hn) as [H|[H1 H2]]; [lia|].
      rewrite H1. now apply hybrid_on_live_system.
Qed.

Lemma optimize_idempotent_witness :
  optimize Examples.optimizer 10
    (optimize Examples.optimizer 10
       [Examples.item_A; Examples.item_B; Examples.item_C]
       (Some 1000) "hybrid")
    (Some 1000) "hybrid"
  = optimize Examples.optimizer 10
      [Examples.item_A; Examples.item_B; Examples.item_C]
      (Some 1000) "hybrid".
Proof.
  apply (optimize_idempotent Examples.optimizer 10 _ (Some 1000) "hybrid"
           scenario_nonneg).
Defined.

(** A successful [_try_compress_context] returns a new item
    that keeps the identifier, type, timestamp, metadata and expiry of
    its argument, holds the compressed text with its measured size
    (within the limit), has priority [max(1, priority - 1)], relevance
    [relevance_score * 0.9] (the double product) and the tags of the
    argument followed by ["compressed"].  The argument is a value of
    the embedding and is not assigned to by the source function. *)
Theorem compression_penalty (self : t) (context r : ContextItem) (n : Z) :
  _try_compress_context self context n = Some r ->
  priority r = Z.max 1 (priority context - 1)
  /\ relevance_score r
     = PyFloat.mul (relevance_score context) PyFloat.f0_9
  /\ tags r = tags context ++ ["compressed"%string]
  /\ id r = id context /\ type r = type context
  /\ timestamp r = timestamp context /\ metadata r = metadata context
  /\ expiry r = expiry context
  /\ _compress_content self (content context) n = Some (content r)
  /\ token_count r
     = TokenCounter.count_tokens (token_counter self) (content r)
  /\ token_count r <= n.
Proof.
  intros H. pose proof (try_compress_fits self context r n H) as Hfit.
  unfold _try_compress_context in H.
  destruct (n <? 50); [discriminate|].
  destruct (nonempty _) as [s|] eqn:En; [|discriminate].
  apply nonempty_some in En.
  injection H as <-. simpl. repeat split; assumption.
Qed.

Lemma padded_compresses :
  _try_compress_context Examples.optimizer Examples.item_padded 50
  = Some Examples.padded_result.
Proof. vm_compute. reflexivity. Qed.

Lemma compression_penalty_witness :
  priority Examples.padded_result = 4
  /\ relevance_score Examples.padded_result
     = PyFloat.mul PyFloat.f0_5 PyFloat.f0_9
  /\ tags Examples.padded_result = ["draft"%string; "compressed"%string].
Proof.
  destruct (compression_penalty Examples.optimizer Examples.item_padded
              Examples.padded_result 50 padded_compresses)
    as [H1 [H2 [H3 _]]].
  repeat split; assumption.
Defined.


(** Helpers for C2 and X1. *)
Lemma hybrid_fill_starved (self : t) (l : list ContextItem)
    (remaining current : Z) :
  nonneg l -> remaining < current ->
  hybrid_fill self remaining current l = [].
Proof.
  intros Hn Hlt. induction l as [|c l IH]; simpl; [reflexivity|].
  assert (0 <= token_count c) by (apply Hn; now left).
  destruct (current + token_count c <=? remaining) eqn:E;
    [apply Z.leb_le in E; lia|].
  destruct (100 <? remaining - current) eqn:E2;
    [apply Z.ltb_lt in E2; lia|].
  apply IH. intros x Hx. apply Hn. now right.
Qed.

Lemma scored_nonneg (self : t) (now : datetime) (l : list ContextItem) :
  nonneg l -> nonneg (_calculate_composite_scores self now l).
Proof.
  intros Hn x Hx. unfold _calculate_composite_scores in Hx.
  apply sorted_desc_in, in_map_iff in Hx.
  destruct Hx as [c [<- Hc]]. simpl. now apply Hn.
Qed.

(** X1.  The loop of hybrid starts its running total at the system
    tokens and compares it with the target less those same tokens:
    once the live system items take more than half the target, hybrid
    returns them alone, and no other item is selected or compressed. *)
Lemma hybrid_double_count (self : t) (now : datetime)
    (contexts : list ContextItem) (T : Z) :
  nonneg contexts ->
  T < 2 * total_tokens (live_system self now contexts) ->
  _optimize_hybrid self now contexts T = live_system self now contexts.
Proof.
  intros Hn Hhalf. rewrite hybrid_unfold.
  destruct (_ <=? 0); [reflexivity|].
  rewrite hybrid_fill_starved; [apply app_nil_r| |lia].
  apply scored_nonneg. intros c Hc. apply Hn.
  apply filter_In in Hc. destruct Hc as [Hc _].
  unfold _filter_active_contexts in Hc. apply filter_In in Hc. tauto.
Qed.

(** C2 (the code departs from the scenario).  On the scenario's input
    the hybrid strategy returns A alone: B is neither kept nor
    compressed, because the 800 system tokens are counted twice
    (800 + 500 is compared with 1000 - 800, and the room left is
    taken to be 200 - 800). *)
Theorem hybrid_scenario_returns_A_only :
  optimize Examples.scenario_optimizer 10
    [Examples.item_A; Examples.item_B; Examples.item_C]
    (Some 1000) "hybrid"
  = [Examples.item_A].
Proof. vm_compute. reflexivity. Qed.

(** X3.  Under a limit of fewer than 50 tokens
    [_try_compress_context] gives no result. *)
Lemma try_compress_below_minimum (self : t) (c : ContextItem) (n : Z) :
  n < 50 -> _try_compress_context self c n = None.
Proof.
  intros H. unfold _try_compress_context.
  apply Z.ltb_lt in H. now rewrite H.
Qed.

(** Helper for C7: a text within the model limit is not truncated. *)
Lemma truncate_to_limit_keeps_short (tk : TokenCounter.t) (text : string)
    (m : option string) (buffer : Z) :
  TokenCounter.count_tokens tk text
  <= TokenCounter.get_model_limit tk m - buffer ->
  TokenCounter.truncate_to_limit tk text m buffer = text.
Proof.
  intros H. unfold TokenCounter.truncate_to_limit.
  apply Z.leb_le in H. now rewrite H.
Qed.

(** C7 (the code departs from the contract).  A text of 75 tokens
    under a limit of 50 is not cut down to 50 tokens: the truncation
    step cuts to the model limit less 500 (199500 tokens), which
    leaves the text as it is, the marker is appended, and the
    fallback gives no result. *)
Theorem compression_gives_up_above_minimum :
  TokenCounter.count_tokens Examples.tk Examples.long_text = 75
  /\ TokenCounter.truncate_to_limit Examples.tk
       (PyStr.collapse_ws (PyStr.strip Examples.long_text)) None 500
     = PyStr.collapse_ws (PyStr.strip Examples.long_text)
  /\ _compress_content Examples.optimizer Examples.long_text 50 = None
  /\ _try_compress_context Examples.optimizer Examples.item_long 50 = None.
Proof. repeat split; vm_compute; reflexivity. Qed.

End OptimizerClaims.

(** ** Hybrid on objects *)

Module HybridFacts.
Import HybridObjects ListFacts OptimizerFacts.

Lemma assign_length (h : heap) (r : ref) (x : PyFloat.float) :
  List.length (assign_relevance h r x) = List.length h.
Proof.
  revert r. induction h as [|c h IH]; intros [|r]; simpl; try reflexivity.
  now rewrite IH.
Qed.

Lemma deref_assign_same (h : heap) (r : ref) (x : PyFloat.float) :
  (r < List.length h)%nat ->
  deref (assign_relevance h r x) r = set_relevance (deref h r) x.
Proof.
  unfold deref. revert r. induction h as [|c h IH]; intros [|r] H; simpl in *;
    try lia; [reflexivity|].
  apply IH. lia.
Qed.

Lemma deref_assign_other (h : heap) (r r' : ref) (x : PyFloat.float) :
  r' <> r -> deref (assign_relevance h r x) r' = deref h r'.
Proof.
  unfold deref. revert r r'.
  induction h as [|c h IH]; intros [|r] [|r'] H; simpl; try reflexivity;
    try congruence.
  apply IH. congruence.
Qed.

Lemma deref_old (h : heap) (c : ContextItem) (r : ref) :
  (r < List.length h)%nat -> deref (h ++ [c]) r = deref h r.
Proof. intros H. unfold deref. now apply app_nth1. Qed.

Lemma deref_new (h : heap) (c : ContextItem) :
  deref (h ++ [c]) (List.length h) = c.
Proof. unfold deref. apply nth_middle. Qed.

Section WithOptimizer.
Variable self : ContextOptimizer.t.
Variable now : datetime.

Lemma score_all_spec (l : list ref) (h : heap) :
  NoDup l -> (forall r, In r l -> (r < List.length h)%nat) ->
  List.length (score_all self now h l) = List.length h
  /\ (forall r, In r l ->
        deref (score_all self now h l) r
        = set_relevance (deref h r)
            (ContextOptimizer.composite_score self now (deref h r)))
  /\ (forall r, ~ In r l -> deref (score_all self now h l) r = deref h r).
Proof.
  unfold score_all. revert h.
  induction l as [|a l IH]; intros h Hnd Hv; simpl.
  - split; [reflexivity|]. split; [intros r [] | reflexivity].
  - inversion Hnd as [|? ? Hnotin Hnd']; subst.
    set (h1 := assign_relevance h a
                 (ContextOptimizer.composite_score self now (deref h a))).
    assert (Hl1 : List.length h1 = List.length h) by apply assign_length.
    destruct (IH h1 Hnd') as [Hlen [Hin Hout]].
    { intros r Hr. rewrite Hl1. apply Hv. now right. }
    split; [congruence|]. split.
    + intros r [<-|Hr].
      * rewrite (Hout a Hnotin). apply deref_assign_same. apply Hv. now left.
      * rewrite (Hin r Hr).
        assert (Hne : r <> a) by (intros ->; contradiction).
        unfold h1. now rewrite deref_assign_other.
    + intros r Hr. rewrite Hout by (intros H; apply Hr; now right).
      unfold h1. apply deref_assign_other. intros ->. apply Hr. now left.
Qed.

(** The loop leaves the objects it was given as they are; an address
    it returns is one of the list, or that of the one object it made,
    the compressed copy of an object of the list. *)
Lemma hybrid_fill_spec (l : list ref) (h : heap) (remaining current : Z)
    (h' : heap) (out : list ref) :
  (forall r, In r l -> (r < List.length h)%nat) ->
  hybrid_fill self h remaining current l = (h', out) ->
  (forall r, (r < List.length h)%nat -> deref h' r = deref h r)
  /\ forall r', In r' out ->
       In r' l
       \/ (r' = List.length h
           /\ exists r n,
                In r l
                /\ ContextOptimizer._try_compress_context self (deref h r) n
                   = Some (deref h' r')).
Proof.
  revert current h' out. induction l as [|a l IH]; intros current h' out Hv;
    simpl.
  - intros E. injection E as <- <-. split; [reflexivity | intros r' []].
  - assert (Hv' : forall r, In r l -> (r < List.length h)%nat)
      by (intros r Hr; apply Hv; now right).
    destruct (current + token_count (deref h a) <=? remaining).
    + destruct (hybrid_fill self h remaining
                  (current + token_count (deref h a)) l) as [h2 out2] eqn:E2.
      intros E. injection E as <- <-.
      destruct (IH _ _ _ Hv' E2) as [Hold Hout]. split; [exact Hold|].
      intros r' [<-|Hr']; [left; now left|].
      destruct (Hout r' Hr') as [H|[H1 [r [n [H2 H3]]]]].
      * left. now right.
      * right. split; [exact H1|]. exists r, n. split; [now right | exact H3].
    + destruct (100 <? remaining - current).
      * destruct (ContextOptimizer._try_compress_context self (deref h a)
                    (remaining - current)) as [x|] eqn:Ex.
        -- intros E. injection E as <- <-. split.
           ++ intros r Hr. now apply deref_old.
           ++ intros r' [<-|[]]. right. split; [reflexivity|].
              exists a, (remaining - current). split; [now left|].
              now rewrite deref_new.
        -- intros E. injection E as <- <-.
           split; [reflexivity | intros r' []].
      * intros E. destruct (IH _ _ _ Hv' E) as [Hold Hout].
        split; [exact Hold|]. intros r' Hr'.
        destruct (Hout r' Hr') as [H|[H1 [r [n [H2 H3]]]]].
        -- left. now right.
        -- right. split; [exact H1|]. exists r, n.
           split; [now right | exact H3].
Qed.


Lemma filter_map_deref (p : ContextItem -> bool) (h : heap) (l : list ref) :
  filter p (map (deref h) l) = map (deref h) (filter (fun r => p (deref h r)) l).
Proof.
  induction l as [|a l IH]; simpl; [reflexivity|].
  destruct (p (deref h a)); simpl; now rewrite IH.
Qed.

Lemma sorted_map_deref (lt : ContextItem -> ContextItem -> bool) (h : heap)
    (l : list ref) :
  map (deref h) (Py.sorted_desc (fun a b => lt (deref h a) (deref h b)) l)
  = Py.sorted_desc lt (map (deref h) l).
Proof.
  induction l as [|a l IH]; simpl; [reflexivity|].
  rewrite <- IH.
  generalize (Py.sorted_desc (fun a b => lt (deref h a) (deref h b)) l).
  intros s. induction s as [|b s IHs]; simpl; [reflexivity|].
  destruct (lt (deref h a) (deref h b)); simpl; [now rewrite IHs | reflexivity].
Qed.

Lemma hybrid_fill_agrees (l : list ref) (h : heap) (remaining current : Z)
    (h' : heap) (out : list ref) :
  (forall r, In r l -> (r < List.length h)%nat) ->
  hybrid_fill self h remaining current l = (h', out) ->
  map (deref h') out
  = ContextOptimizer.hybrid_fill self remaining current (map (deref h) l).
Proof.
  revert current h' out. induction l as [|a l IH]; intros current h' out Hv;
    simpl.
  - intros E. injection E as <- <-. reflexivity.
  - assert (Hv' : forall r, In r l -> (r < List.length h)%nat)
      by (intros r Hr; apply Hv; now right).
    destruct (current + token_count (deref h a) <=? remaining).
    + destruct (hybrid_fill self h remaining
                  (current + token_count (deref h a)) l) as [h2 out2] eqn:E2.
      intros E. injection E as <- <-. simpl.
      rewrite (IH _ _ _ Hv' E2). f_equal.
      apply (hybrid_fill_spec l h _ _ h2 out2 Hv' E2). apply Hv. now left.
    + destruct (100 <? remaining - current).
      * destruct (ContextOptimizer._try_compress_context self (deref h a)
                    (remaining - current)) as [x|].
        -- intros E. injection E as <- <-. simpl. now rewrite deref_new.
        -- intros E. injection E as <- <-. reflexivity.
      * intros E. now apply IH.
Qed.

(** On distinct objects, the items behind the addresses the heap
    version returns are the items the version on values returns. *)
Lemma hybrid_objects_agree (h : heap) (contexts : list ref) (target : Z) :
  NoDup contexts ->
  (forall r, In r contexts -> (r < List.length h)%nat) ->
  map (deref (fst (_optimize_hybrid self now h contexts target)))
      (snd (_optimize_hybrid self now h contexts target))
  = ContextOptimizer._optimize_hybrid self now (map (deref h) contexts)
      target.
Proof.
  intros Hnd Hv.
  unfold _optimize_hybrid, ContextOptimizer._optimize_hybrid. cbv zeta.
  unfold ContextOptimizer._filter_active_contexts. cbv zeta.
  rewrite !filter_map_deref.
  fold (_filter_active_contexts self now h contexts).
  set (active := _filter_active_contexts self now h contexts).
  set (sys := filter (fun r => String.eqb (type (deref h r)) "system") active).
  set (non := filter (fun r => negb (String.eqb (type (deref h r)) "system"))
                     active).
  assert (Hact : forall r, In r active -> In r contexts).
  { intros r Hr. unfold active, _filter_active_contexts in Hr.
    apply filter_In in Hr. tauto. }
  assert (Hsys : forall r, In r sys -> In r contexts).
  { intros r Hr. apply filter_In in Hr. apply Hact. tauto. }
  assert (Hnon : forall r, In r non -> In r contexts).
  { intros r Hr. apply filter_In in Hr. apply Hact. tauto. }
  assert (Htot : total_tokens (map (deref h) sys)
                 = Py.sum (fun r => token_count (deref h r)) sys).
  { unfold total_tokens, Py.sum. clear. induction sys as [|a l IH]; simpl;
      [reflexivity | now rewrite IH]. }
  rewrite Htot.
  destruct (_ <=? 0); [reflexivity|].
  unfold _calculate_composite_scores,
    ContextOptimizer._calculate_composite_scores. cbv zeta.
  assert (Hndn : NoDup non).
  { unfold non, active, _filter_active_contexts.
    apply NoDup_filter, NoDup_filter, Hnd. }
  destruct (score_all_spec non h Hndn) as [Hlen [Hin Hout]].
  { intros r Hr. apply Hv. now apply Hnon. }
  set (h1 := score_all self now h non) in *.
  set (scored := Py.sorted_desc _ non).
  assert (Hsc : forall r, In r scored -> In r non).
  { intros r Hr. unfold scored in Hr. now apply sorted_desc_in in Hr. }
  destruct (hybrid_fill self h1 _ _ scored) as [h2 out2] eqn:E2.
  cbn [fst snd].
  match type of E2 with
  | hybrid_fill _ _ ?rem ?cur _ = _ =>
      assert (Hvs : forall r, In r scored -> (r < List.length h1)%nat)
        by (intros r Hr; rewrite Hlen; apply Hv; now apply Hnon, Hsc);
      pose proof (hybrid_fill_spec scored h1 rem cur h2 out2 Hvs E2)
        as [Hold _];
      pose proof (hybrid_fill_agrees scored h1 rem cur h2 out2 Hvs E2)
        as Hag
  end.
  rewrite map_app, Hag. f_equal.
  - apply map_ext_in. intros r Hr.
    rewrite Hold by (rewrite Hlen; apply Hv; now apply Hsys).
    apply Hout. intros Hn. apply filter_In in Hr, Hn.
    destruct Hr as [_ Hr], Hn as [_ Hn]. rewrite Hr in Hn. discriminate.
  - f_equal. unfold scored. rewrite sorted_map_deref. f_equal.
    rewrite map_map. apply map_ext_in. intros r Hr. now apply Hin.
Qed.

End WithOptimizer.
End HybridFacts.

Module HybridClaims.
Import HybridObjects HybridFacts ListFacts OptimizerFacts.

(** C10 (as amended).  Hybrid on distinct objects.  Of the caller's
    objects the call changes nothing but the [relevance_score], which
    for the items it scored now holds the composite score.  An object
    the call returns that the caller did not hold is the compressed
    copy of one of the caller's items: it has that item's identifier,
    type, timestamp, metadata and expiry, the compressed text with its
    measured size, priority [max(1, priority - 1)], the tags followed
    by ["compressed"], and as relevance 0.9 times the composite score
    of the item, which is what the item's own [relevance_score] holds
    by then, not 0.9 times the relevance the caller had set. *)
Theorem hybrid_compression_penalty (self : ContextOptimizer.t)
    (now : datetime) (h : heap) (contexts : list ref) (target : Z)
    (h' : heap) (out : list ref) :
  NoDup contexts ->
  (forall r, In r contexts -> (r < List.length h)%nat) ->
  _optimize_hybrid self now h contexts target = (h', out) ->
  (forall r, (r < List.length h)%nat ->
     deref h' r = deref h r
     \/ deref h' r
        = set_relevance (deref h r)
            (ContextOptimizer.composite_score self now (deref h r)))
  /\ forall r', In r' out -> (List.length h <= r')%nat ->
       exists r n text,
         In r contexts
         /\ ContextOptimizer._compress_content self (content (deref h r)) n
            = Some text
         /\ deref h' r
            = set_relevance (deref h r)
                (ContextOptimizer.composite_score self now (deref h r))
         /\ deref h' r'
            = mkItem (id (deref h r)) text (type (deref h r))
                (Z.max 1 (priority (deref h r) - 1))
                (timestamp (deref h r)) (metadata (deref h r))
                (TokenCounter.count_tokens
                   (ContextOptimizer.token_counter self) text)
                (PyFloat.mul
                   (ContextOptimizer.composite_score self now (deref h r))
                   PyFloat.f0_9)
                (expiry (deref h r))
                (tags (deref h r) ++ ["compressed"%string]).
Proof.
  intros Hnd Hv. unfold _optimize_hybrid. cbv zeta.
  set (active := _filter_active_contexts self now h contexts).
  set (sys := filter (fun r => String.eqb (type (deref h r)) "system") active).
  set (non := filter (fun r => negb (String.eqb (type (deref h r)) "system"))
                     active).
  assert (Hact : forall r, In r active -> In r contexts).
  { intros r Hr. unfold active, _filter_active_contexts in Hr.
    apply filter_In in Hr. tauto. }
  assert (Hsys : forall r, In r sys -> In r contexts).
  { intros r Hr. apply filter_In in Hr. apply Hact. tauto. }
  assert (Hnon : forall r, In r non -> In r contexts).
  { intros r Hr. apply filter_In in Hr. apply Hact. tauto. }
  destruct (_ <=? 0).
  - intros E. injection E as <- <-. split; [now left|].
    intros r' Hr' Hfresh. apply Hsys, Hv in Hr'. lia.
  - unfold _calculate_composite_scores. cbv zeta.
    assert (Hndn : NoDup non).
    { unfold non, active, _filter_active_contexts.
      apply NoDup_filter, NoDup_filter, Hnd. }
    destruct (score_all_spec self now non h Hndn) as [Hlen [Hin Hout]].
    { intros r Hr. apply Hv. now apply Hnon. }
    set (h1 := score_all self now h non) in *.
    set (scored := Py.sorted_desc _ non).
    assert (Hsc : forall r, In r scored -> In r non).
    { intros r Hr. unfold scored in Hr. now apply sorted_desc_in in Hr. }
    destruct (hybrid_fill self h1 _ _ scored) as [h2 out2] eqn:E2.
    intros E. injection E as <- <-.
    match type of E2 with
    | hybrid_fill _ _ ?rem ?cur _ = _ =>
        destruct (hybrid_fill_spec self scored h1 rem cur h2 out2)
          as [Hold Hnew];
          [intros r Hr; rewrite Hlen; apply Hv; now apply Hnon, Hsc
          | exact E2 |]
    end.
    split.
    + intros r Hr. rewrite Hold by (rewrite Hlen; exact Hr).
      destruct (in_dec Nat.eq_dec r non) as [Hi|Hi].
      * right. now apply Hin.
      * left. now apply Hout.
    + intros r' Hr' Hfresh. apply in_app_or in Hr'.
      destruct Hr' as [Hr'|Hr'].
      { apply Hsys, Hv in Hr'. lia. }
      destruct (Hnew r' Hr') as [H|[H1 [r [n [H2 H3]]]]].
      { apply Hsc, Hnon, Hv in H. lia. }
      apply Hsc in H2.
      assert (Hr : deref h2 r
                   = set_relevance (deref h r)
                       (ContextOptimizer.composite_score self now
                          (deref h r))).
      { rewrite Hold by (rewrite Hlen; apply Hv; now apply Hnon).
        now apply Hin. }
      rewrite (Hin r H2) in H3.
      unfold ContextOptimizer._try_compress_context in H3.
      destruct (n <? 50); [discriminate|].
      destruct (ContextOptimizer.nonempty _) as [text|] eqn:En;
        [|discriminate].
      apply nonempty_some in En. simpl in En.
      injection H3 as H3. exists r, n, text.
      split; [now apply Hnon|]. split; [exact En|]. split; [exact Hr|].
      rewrite <- H3. reflexivity.
Qed.

Lemma hybrid_W_run :
  _optimize_hybrid Examples.scenario_optimizer 10 [MoreExamples.item_W]
    [0%nat] 150
  = (fst MoreExamples.hybrid_W, snd MoreExamples.hybrid_W).
Proof. vm_compute. reflexivity. Qed.

Lemma one_object : NoDup [0%nat].
Proof. constructor; [intros [] | constructor]. Qed.

Lemma one_object_valid (r : ref) :
  In r [0%nat] -> (r < List.length [MoreExamples.item_W])%nat.
Proof. intros [<-|[]]. simpl. lia. Qed.

Lemma hybrid_compression_penalty_witness :
  (forall r, (r < List.length [MoreExamples.item_W])%nat ->
     deref (fst MoreExamples.hybrid_W) r = deref [MoreExamples.item_W] r
     \/ deref (fst MoreExamples.hybrid_W) r
        = set_relevance (deref [MoreExamples.item_W] r)
            (ContextOptimizer.composite_score Examples.scenario_optimizer 10
               (deref [MoreExamples.item_W] r)))
  /\ forall r', In r' (snd MoreExamples.hybrid_W) ->
       (List.length [MoreExamples.item_W] <= r')%nat ->
       exists r n text,
         In r [0%nat]
         /\ ContextOptimizer._compress_content Examples.scenario_optimizer
              (content (deref [MoreExamples.item_W] r)) n
            = Some text
         /\ deref (fst MoreExamples.hybrid_W) r
            = set_relevance (deref [MoreExamples.item_W] r)
                (ContextOptimizer.composite_score Examples.scenario_optimizer
                   10 (deref [MoreExamples.item_W] r))
         /\ deref (fst MoreExamples.hybrid_W) r'
            = mkItem (id (deref [MoreExamples.item_W] r)) text
                (type (deref [MoreExamples.item_W] r))
                (Z.max 1 (priority (deref [MoreExamples.item_W] r) - 1))
                (timestamp (deref [MoreExamples.item_W] r))
                (metadata (deref [MoreExamples.item_W] r))
                (TokenCounter.count_tokens
                   (ContextOptimizer.token_counter
                      Examples.scenario_optimizer) text)
                (PyFloat.mul
                   (ContextOptimizer.composite_score
                      Examples.scenario_optimizer 10
                      (deref [MoreExamples.item_W] r))
                   PyFloat.f0_9)
                (expiry (deref [MoreExamples.item_W] r))
                (tags (deref [MoreExamples.item_W] r)
                 ++ ["compressed"%string]).
Proof.
  exact (hybrid_compression_penalty Examples.scenario_optimizer 10
           [MoreExamples.item_W] [0%nat] 150
           (fst MoreExamples.hybrid_W) (snd MoreExamples.hybrid_W)
           one_object one_object_valid hybrid_W_run).
Defined.

(** C10, as stated, fails.  Hybrid, at time 10 and with a target of
    150 tokens, on the one item [item_W] of 202 tokens and relevance
    1.0: the item is compressed, and the copy returned (the object at
    address 1) has priority 4 and the tag "compressed", but its
    relevance is not 0.9 times 1.0, and the caller's item (the object
    at address 0) no longer has the relevance 1.0 it came with. *)
Lemma hybrid_compression_penalty_counterexample :
  _optimize_hybrid Examples.scenario_optimizer 10 [MoreExamples.item_W]
    [0%nat] 150
  = (fst MoreExamples.hybrid_W, [1%nat])
  /\ relevance_score MoreExamples.item_W = PyFloat.f1
  /\ content (deref (fst MoreExamples.hybrid_W) 1%nat) = "word word"%string
  /\ priority (deref (fst MoreExamples.hybrid_W) 1%nat) = 4
  /\ tags (deref (fst MoreExamples.hybrid_W) 1%nat) = ["compressed"%string]
  /\ relevance_score (deref (fst MoreExamples.hybrid_W) 1%nat)
     <> PyFloat.mul (relevance_score MoreExamples.item_W) PyFloat.f0_9
  /\ relevance_score (deref (fst MoreExamples.hybrid_W) 0%nat)
     <> relevance_score MoreExamples.item_W.
Proof.
  split; [vm_compute; reflexivity|].
  repeat split; try (vm_compute; reflexivity);
    vm_compute; intros H; discriminate H.
Qed.

End HybridClaims.


(** ** The store *)

Module StoreFacts.
Import ContextManager StoreSpec ListFacts.

Lemma mem_in (x : string) (l : list string) :
  Py.mem x l = true <-> In x l.
Proof.
  unfold Py.mem. rewrite existsb_exists. split.
  - intros [y [Hy E]]. apply String.eqb_eq in E. now subst.
  - intros H. exists x. split; [assumption | apply String.eqb_refl].
Qed.

Lemma del_filter (V : Type) (k : string) (d : Py.dict V) :
  NoDup (Py.keys d) ->
  Py.del k d = filter (fun kv => negb (String.eqb k (fst kv))) d.
Proof.
  induction d as [|[k' v] d IH]; simpl; intros Hnd; [reflexivity|].
  inversion Hnd as [|? ? Hnotin Hnd']; subst.
  destruct (String.eqb k k') eqn:E; simpl.
  - apply String.eqb_eq in E. subst k'. symmetry. apply filter_all.
    intros [k2 v2] Hin. simpl.
    destruct (String.eqb k k2) eqn:E2; [|reflexivity].
    apply String.eqb_eq in E2. subst k2. exfalso. apply Hnotin.
    unfold Py.keys. apply in_map_iff. now exists (k, v2).
  - f_equal. now apply IH.
Qed.

Lemma keys_filter_nodup (V : Type) (p : string * V -> bool) (d : Py.dict V) :
  NoDup (Py.keys d) -> NoDup (Py.keys (filter p d)).
Proof.
  unfold Py.keys. induction d as [|kv d IH]; simpl; intros Hnd;
    [constructor|].
  inversion Hnd as [|? ? Hnotin Hnd']; subst.
  destruct (p kv); simpl; [|now apply IH].
  constructor; [|now apply IH].
  intros Hin. apply Hnotin. apply in_map_iff in Hin.
  destruct Hin as [x [Hx Hin]]. apply filter_In in Hin.
  apply in_map_iff. exists x. tauto.
Qed.

Lemma has_false_filter (V : Type) (k : string) (d : Py.dict V) :
  Py.has k d = false ->
  filter (fun kv => negb (String.eqb k (fst kv))) d = d.
Proof.
  unfold Py.has. induction d as [|[k' v] d IH]; simpl; [reflexivity|].
  destruct (String.eqb k k'); simpl; [discriminate|].
  intros H. f_equal. now apply IH.
Qed.

Lemma remove_context_contexts (s : t) (k : string) :
  NoDup (Py.keys (contexts s)) ->
  contexts (snd (remove_context s k))
  = filter (fun kv => negb (String.eqb k (fst kv))) (contexts s).
Proof.
  intros Hnd. unfold remove_context.
  destruct (Py.has k (contexts s)) eqn:E; simpl.
  - now apply del_filter.
  - symmetry. now apply has_false_filter.
Qed.

Lemma remove_context_max_tokens (s : t) (k : string) :
  max_tokens (snd (remove_context s k)) = max_tokens s.
Proof. unfold remove_context. destruct (Py.has _ _); reflexivity. Qed.

Lemma remove_all_max_tokens (ids : list string) (s : t) :
  max_tokens (remove_all s ids) = max_tokens s.
Proof.
  unfold remove_all. revert s. induction ids as [|i ids IH]; intros s; simpl;
    [reflexivity|].
  rewrite IH. apply remove_context_max_tokens.
Qed.

Lemma remove_all_contexts (ids : list string) (s : t) :
  NoDup (Py.keys (contexts s)) ->
  contexts (remove_all s ids)
  = filter (fun kv => negb (key_in ids kv)) (contexts s).
Proof.
  unfold remove_all. revert s.
  induction ids as [|i ids IH]; intros s Hnd; simpl.
  - symmetry. apply filter_all. reflexivity.
  - rewrite IH.
    + rewrite remove_context_contexts by assumption.
      rewrite filter_filter. apply filter_ext. intros [k v].
      unfold key_in. simpl. rewrite String.eqb_sym.
      destruct (String.eqb k i); reflexivity.
    + rewrite remove_context_contexts by assumption.
      now apply keys_filter_nodup.
Qed.

Lemma store_ok_filter (s s' : t) (p : string * ContextItem -> bool) :
  store_ok s -> contexts s' = filter p (contexts s) -> store_ok s'.
Proof.
  intros [Hnd Hok] E. unfold store_ok. rewrite E. split.
  - now apply keys_filter_nodup.
  - intros k c Hin. apply filter_In in Hin. apply Hok. tauto.
Qed.

Lemma values_filter (p : string -> bool) (d : Py.dict ContextItem) :
  (forall k c, In (k, c) d -> id c = k) ->
  Py.values (filter (fun kv => p (fst kv)) d)
  = filter (fun c => p (id c)) (Py.values d).
Proof.
  unfold Py.values. induction d as [|[k c] d IH]; simpl; intros Hid;
    [reflexivity|].
  rewrite (Hid k c (or_introl eq_refl)).
  assert (IH' := IH (fun k' c' H => Hid k' c' (or_intror H))).
  destruct (p k); simpl; now rewrite IH'.
Qed.

Lemma live_le_total (now : datetime) (s : t) :
  store_ok s -> live_tokens now s <= get_total_tokens s.
Proof.
  intros [_ Hok]. unfold live_tokens, get_total_tokens, total_tokens.
  apply sum_filter_le. intros c Hc. unfold Py.values in Hc.
  apply in_map_iff in Hc. destruct Hc as [[k c'] [<- Hin]].
  now apply (Hok k c').
Qed.

Lemma keep_ids_fill (l : list ContextItem) (target total : Z) :
  keep_ids target total l
  = map id (ContextOptimizer.fill_until target total l).
Proof.
  revert total. induction l as [|c l IH]; intros total; simpl;
    [reflexivity|].
  destruct (_ <=? _); simpl; [now rewrite IH | reflexivity].
Qed.

Lemma fill_until_prefix (l : list ContextItem) (target total : Z) :
  exists rest, l = ContextOptimizer.fill_until target total l ++ rest.
Proof.
  revert total. induction l as [|c l IH]; intros total; simpl.
  - now exists [].
  - destruct (_ <=? _).
    + destruct (IH (total + token_count c)) as [rest Hr].
      exists rest. simpl. now rewrite <- Hr.
    + now exists (c :: l).
Qed.

Lemma ids_nodup (s : t) :
  store_ok s -> NoDup (map id (Py.values (contexts s))).
Proof.
  intros [Hnd Hok]. unfold Py.keys, Py.values in *.
  replace (map id (map snd (contexts s))) with (map fst (contexts s));
    [assumption|].
  rewrite map_map. apply map_ext_in. intros [k c] Hin. simpl.
  symmetry. now apply (Hok k c).
Qed.

(** Keeping the items whose identifier belongs to a prefix of a
    duplicate-free list keeps exactly that prefix. *)
Lemma filter_prefix_ids (pre rest : list ContextItem) :
  NoDup (map id (pre ++ rest)) ->
  filter (fun c => Py.mem (id c) (map id pre)) (pre ++ rest) = pre.
Proof.
  intros Hnd. rewrite filter_app.
  rewrite (filter_all _ _ pre), (filter_none _ _ rest); [apply app_nil_r| |].
  - intros c Hc. destruct (Py.mem (id c) (map id pre)) eqn:E;
      [|reflexivity].
    apply mem_in in E. exfalso. rewrite map_app in Hnd.
    apply in_map_iff in E. destruct E as [c' [Hid Hc']].
    revert Hnd Hid Hc' Hc. clear. induction pre as [|x pre IH]; simpl;
      intros Hnd Hid Hc' Hc; [contradiction|].
    inversion Hnd as [|? ? Hnotin Hnd']; subst.
    destruct Hc' as [->|Hc'].
    + apply Hnotin. apply in_or_app. right. rewrite Hid.
      now apply in_map.
    + now apply IH.
  - intros c Hc. apply mem_in. now apply in_map.
Qed.

Lemma to_remove_spec (d : Py.dict ContextItem) (keep : list string) :
  filter (fun kv =>
            negb (key_in (filter (fun k => negb (Py.mem k keep)) (Py.keys d))
                         kv)) d
  = filter (fun kv => Py.mem (fst kv) keep) d.
Proof.
  apply filter_ext_in. intros [k c] Hin. unfold key_in. simpl.
  destruct (Py.mem k keep) eqn:E.
  - destruct (Py.mem k (filter _ _)) eqn:E2; [|reflexivity].
    apply mem_in, filter_In in E2. destruct E2 as [_ E2].
    now rewrite E in E2.
  - assert (H : Py.mem k (filter (fun k0 => negb (Py.mem k0 keep))
                            (Py.keys d)) = true).
    { apply mem_in, filter_In. split.
      - unfold Py.keys. apply in_map_iff. now exists (k, c).
      - now rewrite E. }
    now rewrite H.
Qed.

(** What [optimize_context] leaves: a sub-dictionary of the store it
    was given, whose total is within the target in force or zero. *)
Lemma optimize_context_spec (now : datetime) (s : t) (tgt : option Z) :
  store_ok s ->
  max_tokens (optimize_context now s tgt) = max_tokens s
  /\ (exists q, contexts (optimize_context now s tgt)
                = filter q (contexts s))
  /\ (get_total_tokens (optimize_context now s tgt)
      <= effective_target s tgt
      \/ get_total_tokens (optimize_context now s tgt) = 0).
Proof.
  intros Hok. unfold optimize_context.
  set (target := effective_target s tgt).
  destruct (get_total_tokens s <=? target) eqn:E.
  - split; [reflexivity|]. split.
    + exists (fun _ => true). symmetry. now apply filter_all.
    + left. now apply Z.leb_le.
  - set (s1 := _remove_expired_contexts now s).
    assert (Hc1 : contexts s1
                  = filter (fun kv =>
                              negb (key_in
                                      (map fst
                                         (filter (fun kv0 =>
                                                    is_expired now (snd kv0))
                                                 (contexts s))) kv))
                           (contexts s)).
    { apply remove_all_contexts. apply Hok. }
    assert (Hok1 : store_ok s1) by (eapply store_ok_filter; eassumption).
    set (sorted := Py.sorted_desc key_priority_time_lt
                     (Py.values (contexts s1))).
    set (keep := keep_ids target 0 sorted).
    set (s2 := remove_all s1 _).
    change (contexts (with_last_optimization s2 now)) with (contexts s2).
    change (max_tokens (with_last_optimization s2 now))
      with (max_tokens s2).
    change (get_total_tokens (with_last_optimization s2 now))
      with (get_total_tokens s2).
    assert (Hc2 : contexts s2
                  = filter (fun kv => Py.mem (fst kv) keep) (contexts s1)).
    { unfold s2. rewrite remove_all_contexts by apply Hok1.
      apply to_remove_spec. }
    split; [|split].
    + unfold s2, s1, _remove_expired_contexts.
      now rewrite !remove_all_max_tokens.
    + eexists. rewrite Hc2, Hc1, filter_filter. reflexivity.
    + unfold get_total_tokens. rewrite Hc2.
      rewrite (values_filter (fun k => Py.mem k keep)) by
        (intros k c Hin; now apply (proj2 Hok1 k c)).
      assert (Hperm : Permutation (Py.values (contexts s1)) sorted)
        by apply sorted_desc_perm.
      unfold total_tokens.
      rewrite (sum_perm _ _ _ _
                 (filter_perm _ (fun c => Py.mem (id c) keep) _ _ Hperm)).
      unfold keep. rewrite keep_ids_fill.
      assert (Hnd : NoDup (map id sorted)).
      { eapply Permutation_NoDup;
          [apply Permutation_map; exact Hperm | now apply ids_nodup]. }
      destruct (fill_until_prefix sorted target 0) as [rest Hsplit].
      pose proof (OptimizerFacts.fill_until_bounded sorted target 0) as Hb.
      remember (ContextOptimizer.fill_until target 0 sorted) as pre eqn:Hpre.
      clear Hpre Hperm Hc2 s2 keep. clearbody sorted. subst sorted.
      rewrite filter_prefix_ids by exact Hnd.
      destruct Hb as [H|H].
      * right. now rewrite H.
      * left. exact H.
Qed.

Lemma count_tokens_nonneg (tk : TokenCounter.t) (text : string) :
  0 <= TokenCounter.count_tokens tk text.
Proof.
  unfold TokenCounter.count_tokens, TokenCounter.estimate.
  destruct text; [lia|].
  destruct (TokenCounter.tokenizer tk) as [enc|]; [|lia].
  destruct (enc _); lia.
Qed.

Lemma set_keys_nodup (V : Type) (k : string) (v : V) (d : Py.dict V) :
  NoDup (Py.keys d) -> NoDup (Py.keys (Py.set k v d)).
Proof.
  unfold Py.keys. induction d as [|[k' v'] d IH]; simpl; intros Hnd.
  - constructor; [intros [] | constructor].
  - inversion Hnd as [|? ? Hnotin Hnd']; subst.
    destruct (String.eqb k k') eqn:E; simpl.
    + apply String.eqb_eq in E. subst. now constructor.
    + constructor; [|now apply IH].
      intros Hin. apply in_map_iff in Hin.
      destruct Hin as [[k2 v2] [Hk Hin]]. simpl in Hk. subst k2.
      clear IH Hnd Hnd'. induction d as [|[k3 v3] d IH]; simpl in *.
      * destruct Hin as [H|[]]. injection H as -> _.
        now rewrite String.eqb_refl in E.
      * destruct (String.eqb k k3) eqn:E3; simpl in Hin.
        -- destruct Hin as [H|Hin].
           ++ injection H as -> _. now rewrite String.eqb_refl in E.
           ++ apply Hnotin. right. apply in_map_iff. now exists (k', v2).
        -- destruct Hin as [H|Hin].
           ++ injection H as -> _. apply Hnotin. now left.
           ++ apply IH; [|assumption].
              intros H. apply Hnotin. now right.
Qed.

Lemma set_in (V : Type) (k : string) (v : V) (d : Py.dict V)
    (k' : string) (v' : V) :
  In (k', v') (Py.set k v d) -> (k', v') = (k, v) \/ In (k', v') d.
Proof.
  induction d as [|[k2 v2] d IH]; simpl.
  - intros [H|[]]. now left.
  - destruct (String.eqb k k2); simpl.
    + intros [H|H]; [now left | right; now right].
    + intros [H|H]; [right; now left|].
      destruct (IH H); [now left | right; now right].
Qed.

End StoreFacts.

(** ** Claims about the store *)

Module StoreClaims.
Import ContextManager StoreSpec ListFacts StoreFacts.

Lemma categorize_contexts (s : t) (c : ContextItem) :
  contexts (_categorize_context s c) = contexts s
  /\ max_tokens (_categorize_context s c) = max_tokens s
  /\ token_counter (_categorize_context s c) = token_counter s.
Proof.
  unfold _categorize_context.
  destruct (String.eqb (type c) "system"); [now repeat split|].
  destruct (String.eqb (type c) "user" || String.eqb (type c) "assistant");
    [now repeat split|].
  destruct (String.eqb (type c) "memory"); [now repeat split|].
  destruct (String.eqb (type c) "tool_result"); now repeat split.
Qed.

Lemma add_context_unfold (now : datetime) (new_id : string) (s : t)
    (text ty : string) (prio : Z) (meta : option json)
    (tgs : option (list string)) (exp : option datetime) :
  snd (add_context now new_id s text ty prio meta tgs exp)
  = if max_tokens (inserted now new_id s text ty prio meta tgs exp)
       <? get_total_tokens (inserted now new_id s text ty prio meta tgs exp)
    then optimize_context now
           (inserted now new_id s text ty prio meta tgs exp) None
    else inserted now new_id s text ty prio meta tgs exp.
Proof. reflexivity. Qed.

Lemma live_filter_le (now : datetime) (q : string * ContextItem -> bool)
    (d : Py.dict ContextItem) :
  (forall k c, In (k, c) d -> 0 <= token_count c) ->
  total_tokens (filter (fun c => negb (is_expired now c))
                       (Py.values (filter q d)))
  <= total_tokens (filter (fun c => negb (is_expired now c))
                          (Py.values d)).
Proof.
  unfold Py.values, total_tokens, Py.sum.
  induction d as [|[k c] d IH]; simpl; intros Hn; [lia|].
  assert (0 <= token_count c) by (apply (Hn k c); now left).
  assert (IH' := IH (fun k' c' H => Hn k' c' (or_intror H))).
  assert (0 <= fold_right (fun x acc => token_count x + acc) 0
                 (filter (fun c0 => negb (is_expired now c0)) (map snd d))).
  { apply (sum_nonneg _ token_count). intros x Hx.
    apply filter_In in Hx. destruct Hx as [Hx _].
    apply in_map_iff in Hx. destruct Hx as [[k' c'] [<- Hin]].
    apply (Hn k' c'). now right. }
  destruct (q (k, c)); simpl; destruct (negb (is_expired now c)); simpl; lia.
Qed.

Lemma inserted_spec (now : datetime) (new_id : string) (s : t)
    (text ty : string) (prio : Z) (meta : option json)
    (tgs : option (list string)) (exp : option datetime) :
  store_ok s ->
  store_ok (inserted now new_id s text ty prio meta tgs exp)
  /\ max_tokens (inserted now new_id s text ty prio meta tgs exp)
     = max_tokens s.
Proof.
  intros [Hnd Hok]. unfold inserted.
  match goal with
  | |- context [_categorize_context ?s0 ?c0] =>
      destruct (categorize_contexts s0 c0) as [Hc [Hm _]]
  end.
  split; [|exact Hm].
  unfold store_ok.
  change (contexts (_update_stats ?x)) with (contexts x).
  rewrite Hc. simpl. split.
  - now apply set_keys_nodup.
  - intros k c Hin. apply set_in in Hin. destruct Hin as [H|H].
    + injection H as -> ->. simpl. split; [reflexivity|].
      apply count_tokens_nonneg.
    + now apply Hok.
Qed.

(** C4 (as amended).  In a store of the shape [add_context] builds,
    with [max_tokens] between 0 and [2^53], the tokens of the items
    that have not expired are at most [max_tokens] after every
    [add_context], after every [optimize_context] whose target in force
    is at most [max_tokens] (the default target
    [int(max_tokens * 0.9)] is), and after any [optimize_context] on a
    store that was within [max_tokens] already. *)
Theorem store_budget (now : datetime) (s : t) :
  store_ok s ->
  0 <= max_tokens s < 2 ^ 53 ->
  (forall new_id text ty prio meta tgs exp,
      live_tokens now
        (snd (add_context now new_id s text ty prio meta tgs exp))
      <= max_tokens s)
  /\ (forall tgt,
         effective_target s tgt <= max_tokens s ->
         live_tokens now (optimize_context now s tgt) <= max_tokens s)
  /\ (forall tgt,
         live_tokens now s <= max_tokens s ->
         live_tokens now (optimize_context now s tgt) <= max_tokens s).
Proof.
  intros Hok Hrange.
  assert (Hmax : 0 <= max_tokens s) by lia.
  assert (Hdef : default_target s <= max_tokens s)
    by (apply FloatFacts.mul_0_9_le; lia).
  assert (Hopt : forall s0 tgt,
             store_ok s0 -> 0 <= max_tokens s0 ->
             effective_target s0 tgt <= max_tokens s0 ->
             live_tokens now (optimize_context now s0 tgt)
             <= max_tokens s0).
  { intros s0 tgt Hok0 Hmax0 Htgt.
    destruct (optimize_context_spec now s0 tgt Hok0)
      as [_ [[q Hq] Htot]].
    assert (Hok' : store_ok (optimize_context now s0 tgt))
      by (eapply store_ok_filter; eassumption).
    pose proof (live_le_total now _ Hok'). lia. }
  split; [|split].
  - intros new_id text ty prio meta tgs exp.
    rewrite add_context_unfold.
    destruct (inserted_spec now new_id s text ty prio meta tgs exp Hok)
      as [Hok4 Hm4].
    set (s4 := inserted now new_id s text ty prio meta tgs exp) in *.
    destruct (max_tokens s4 <? get_total_tokens s4) eqn:E.
    + rewrite <- Hm4. apply Hopt; [assumption | lia |].
      unfold effective_target, default_target in *. rewrite Hm4. lia.
    + apply Z.ltb_ge in E. pose proof (live_le_total now s4 Hok4). lia.
  - intros tgt Htgt. now apply Hopt.
  - intros tgt Hlive.
    destruct (optimize_context_spec now s tgt Hok) as [_ [[q Hq] _]].
    eapply Z.le_trans; [|exact Hlive].
    unfold live_tokens. rewrite Hq. apply live_filter_le.
    intros k c Hin. now apply (proj2 Hok k c).
Qed.

Lemma store0_ok : store_ok Examples.store0.
Proof. split; [constructor | intros k c []]. Qed.

Lemma store0_bounds : 0 <= max_tokens Examples.store0 < 2 ^ 53.
Proof. split; vm_compute; [discriminate | reflexivity]. Qed.

Lemma store_budget_witness :
  live_tokens 0
    (snd (add_context 0 "id-1" Examples.store0 (PyStr.replicate 600 "b")
            "user" 1 None None None))
  <= max_tokens Examples.store0.
Proof.
  exact (proj1 (store_budget 0 Examples.store0 store0_ok store0_bounds)
           "id-1"%string (PyStr.replicate 600 "b") "user"%string 1
           None None None).
Defined.

(** C4, as stated, fails for an explicit target above [max_tokens]: a
    store of 100 tokens that an update brought to 150 tokens is left
    at 150 by [optimize_context(200)]. *)
Lemma store_budget_counterexample :
  max_tokens Examples.store2 = 100
  /\ live_tokens 2 (optimize_context 2 Examples.store2 (Some 200)) = 150.
Proof. split; vm_compute; reflexivity. Qed.

(** [add_context] returns the new identifier whatever the text
    is; the empty string of the [except] branch is never the result of
    a rejected text. *)
Lemma add_context_returns_id (now : datetime) (new_id : string) (s : t)
    (text ty : string) (prio : Z) (meta : option json)
    (tgs : option (list string)) (exp : option datetime) :
  fst (add_context now new_id s text ty prio meta tgs exp) = new_id.
Proof. reflexivity. Qed.

(** C3 (the code departs from the claim).  A text the checker rejects
    is stored all the same: [add_context] returns the new identifier,
    the item is in the map, in the conversation index and in the
    token total. *)
Theorem unsafe_content_is_stored :
  Validator.is_safe_string Examples.unsafe_text = false
  /\ fst (add_context 0 "id-1" Examples.store0 Examples.unsafe_text
            "user" 1 None None None) = "id-1"%string
  /\ contexts Examples.store0 = []
  /\ option_map content (get_context Examples.store_unsafe "id-1")
     = Some Examples.unsafe_text
  /\ conversation_contexts Examples.store_unsafe = ["id-1"%string]
  /\ get_total_tokens Examples.store_unsafe = 6.
Proof. repeat split; vm_compute; reflexivity. Qed.

(** Helper for X4 and X5. *)
Lemma window_fill_in (c : ContextItem) (l : list ContextItem)
    (limit current : Z) :
  In c (window_fill limit current l) -> In c l.
Proof.
  revert current. induction l as [|x l IH]; intros current; simpl;
    [tauto|].
  destruct (_ <=? _); simpl; [|tauto].
  intros [H|H]; [now left | right; eapply IH; eassumption].
Qed.

(** X4.  [search_contexts] returns no expired item. *)
Lemma search_skips_expired (now : datetime) (s : t) (query : string)
    (ty : option string) (tgs : option (list string)) (c : ContextItem) :
  In c (search_contexts now s query ty tgs) -> is_expired now c = false.
Proof.
  unfold search_contexts. intros H.
  apply sorted_desc_in, filter_In in H. destruct H as [_ H].
  destruct (is_expired now c); [discriminate | reflexivity].
Qed.

(** X5.  The items rendered by [get_context_window] include no expired
    item. *)
Lemma window_skips_expired (now : datetime) (s : t) (mt : option Z)
    (c : ContextItem) :
  In c (window_items now s mt) -> is_expired now c = false.
Proof.
  unfold window_items. intros H.
  apply window_fill_in, sorted_desc_in, filter_In in H.
  destruct H as [_ H].
  destruct (is_expired now c); [discriminate | reflexivity].
Qed.

(** C5 (the code departs from the claim).  At time 10 the one item of
    the store, due to expire at time 5, is expired; [search_contexts]
    and the window leave it out, but [get_contexts_by_type],
    [get_contexts_by_priority] and [get_recent_contexts] return it. *)
Theorem expired_item_is_served :
  map (is_expired 10) (Py.values (contexts Examples.store_expiring))
  = [true]
  /\ map id (get_contexts_by_type Examples.store_expiring "user")
     = ["id-1"%string]
  /\ map id (get_contexts_by_priority Examples.store_expiring 1)
     = ["id-1"%string]
  /\ map id (get_recent_contexts 10 Examples.store_expiring 24 None)
     = ["id-1"%string]
  /\ search_contexts 10 Examples.store_expiring "meeting" None None = []
  /\ window_items 10 Examples.store_expiring None = [].
Proof. repeat split; vm_compute; reflexivity. Qed.

End StoreClaims.

(** ** Claims about loading a snapshot *)

Module LoadClaims.
Import ContextManager Persistence.

(** A document that is not a non-empty object changes nothing
    either. *)
Lemma load_falsy_document (fromisoformat : string -> option datetime)
    (now : datetime) (fresh : nat -> string) (self : t) (data : json) :
  json_truthy data = false ->
  _load_context fromisoformat now fresh self true (Some data)
  = Load false self.
Proof. intros H. unfold _load_context. simpl. now rewrite H. Qed.

Lemma load_missing_or_unreadable
    (fromisoformat : string -> option datetime) (now : datetime)
    (fresh : nat -> string) (self : t) (file_exists : bool)
    (loaded : option json) :
  file_exists = false \/ loaded = None ->
  _load_context fromisoformat now fresh self file_exists loaded
  = Load (negb file_exists) self.
Proof.
  intros [H|H]; subst; unfold _load_context; simpl; [reflexivity|].
  now destruct file_exists.
Qed.

(** When the snapshot file is missing, or [load_json] could not read
    or parse it, constructing the store ends with the default empty
    store; the flag of [_load_context] is true for a missing file and
    false otherwise. *)
Lemma load_without_document
    (fromisoformat : string -> option datetime) (now : datetime)
    (fresh : nat -> string) (tk : TokenCounter.t) (agent : string)
    (mt : Z) (file_exists : bool) (loaded : option json) :
  file_exists = false \/ loaded = None ->
  init fromisoformat now fresh tk agent mt file_exists loaded
  = Load (negb file_exists) (empty tk agent mt).
Proof. apply load_missing_or_unreadable. Qed.

(** C9 (the code departs from the claim).  A snapshot that parses but
    whose second entry is malformed: constructing the store ends
    without an exception and [_load_context] reports failure, as it
    does for an unreadable file; but where the unreadable file leaves
    the default empty store, this load leaves the first entry in the
    item map, and in nothing else: the order list, the category lists
    and the statistics are those of the empty store. *)
Theorem corrupt_snapshot_is_half_loaded :
  init Examples.no_dates 0 Examples.fresh_ids Examples.tk "agent" 100
       true None
  = Load false (empty Examples.tk "agent" 100)
  /\ exists s,
       init Examples.no_dates 0 Examples.fresh_ids Examples.tk "agent" 100
            true (Some Examples.snapshot_bad_entry)
       = Load false s
       /\ s <> empty Examples.tk "agent" 100
       /\ map (fun kv => (fst kv, content (snd kv), type (snd kv)))
              (contexts s)
          = [("a"%string, "kept"%string, "user"%string)]
       /\ context_order s = []
       /\ conversation_contexts s = []
       /\ total_items (stats s) = 0.
Proof.
  split; [reflexivity|]. eexists. split; [reflexivity|].
  split; [discriminate|]. repeat split.
Qed.

End LoadClaims.

(** ** Prefixes of texts *)

Module PrefixFacts.
Import MoreSpec.

Lemma str_chars (s : string) : PyStr.str (PyStr.chars s) = s.
Proof. apply string_of_list_ascii_of_string. Qed.

Lemma str_app (a b : list ascii) :
  PyStr.str (a ++ b) = String.append (PyStr.str a) (PyStr.str b).
Proof.
  unfold PyStr.str. induction a as [|c a IH]; simpl; [reflexivity|].
  now rewrite IH.
Qed.

Lemma prefix_refl (s : string) : is_prefix s s.
Proof.
  exists EmptyString. induction s as [|c s IH]; simpl; [reflexivity|].
  now rewrite <- IH.
Qed.

Lemma append_assoc (a b c : string) :
  String.append (String.append a b) c = String.append a (String.append b c).
Proof. induction a as [|x a IH]; simpl; [reflexivity | now rewrite IH]. Qed.

Lemma prefix_trans (a b c : string) :
  is_prefix a b -> is_prefix b c -> is_prefix a c.
Proof.
  intros [r1 ->] [r2 ->]. exists (String.append r1 r2). apply append_assoc.
Qed.

Lemma slice_prefix (k : Z) (s : string) : is_prefix (PyStr.slice_to k s) s.
Proof.
  unfold PyStr.slice_to. cbv zeta.
  match goal with
  | |- is_prefix (PyStr.str (firstn ?n _)) _ =>
      exists (PyStr.str (skipn n (PyStr.chars s)));
      rewrite <- str_app, firstn_skipn
  end.
  symmetry. apply str_chars.
Qed.

(** [_truncate_at_boundary] returns its text or a slice of it. *)
Lemma boundary_is_slice (text : string) :
  TokenCounter._truncate_at_boundary text = text
  \/ exists k, TokenCounter._truncate_at_boundary text
               = PyStr.slice_to k text.
Proof.
  unfold TokenCounter._truncate_at_boundary.
  assert (H : forall ends r,
             TokenCounter.first_sentence_end text ends = Some r ->
             exists k, r = PyStr.slice_to k text).
  { induction ends as [|e ends IH]; simpl; intros r; [discriminate|].
    destruct (TokenCounter.above_share _ _ _).
    - intros E. injection E as <-. eexists. reflexivity.
    - apply IH. }
  destruct (TokenCounter.first_sentence_end text TokenCounter.sentence_ends)
    as [r|] eqn:E.
  - right. destruct (H _ r E) as [k Hk]. exists k. exact Hk.
  - destruct (TokenCounter.above_share _ _ _); [|now left].
    right. eexists. reflexivity.
Qed.

Lemma truncate_to_limit_prefix (tk : TokenCounter.t) (text : string)
    (m : option string) (buffer : Z) :
  is_prefix (TokenCounter.truncate_to_limit tk text m buffer) text.
Proof.
  unfold TokenCounter.truncate_to_limit. cbv zeta.
  destruct (_ <=? _); [apply prefix_refl|].
  match goal with
  | |- is_prefix (TokenCounter._truncate_at_boundary ?t) _ =>
      destruct (boundary_is_slice t) as [E|[k E]]; rewrite E
  end.
  - apply slice_prefix.
  - eapply prefix_trans; apply slice_prefix.
Qed.

End PrefixFacts.

(** ** The window builder *)

Module WindowFacts.
Import ContextWindow WindowSpec MoreSpec PrefixFacts.

Lemma str_length (l : list ascii) :
  String.length (PyStr.str l) = List.length l.
Proof.
  unfold PyStr.str. induction l as [|c l IH]; simpl; [reflexivity|].
  now rewrite IH.
Qed.

Lemma chars_length (s : string) :
  List.length (PyStr.chars s) = String.length s.
Proof.
  unfold PyStr.chars. induction s as [|c s IH]; simpl; [reflexivity|].
  now rewrite IH.
Qed.

Lemma slice_to_length (k : Z) (s : string) :
  (String.length (PyStr.slice_to k s) <= String.length s)%nat.
Proof.
  unfold PyStr.slice_to. rewrite str_length, length_firstn, chars_length.
  apply Nat.le_min_r.
Qed.

Lemma slice_to_shorter (k : Z) (s : string) :
  1 <= PyStr.len s -> k < PyStr.len s ->
  (String.length (PyStr.slice_to k s) < String.length s)%nat.
Proof.
  unfold PyStr.slice_to, PyStr.len. intros H1 H.
  rewrite str_length, length_firstn, chars_length.
  destruct (k <? 0) eqn:E.
  - apply Z.ltb_lt in E. lia.
  - apply Z.ltb_ge in E. lia.
Qed.

Lemma boundary_length (text : string) :
  (String.length (TokenCounter._truncate_at_boundary text)
   <= String.length text)%nat.
Proof.
  unfold TokenCounter._truncate_at_boundary.
  assert (H : forall ends r,
             TokenCounter.first_sentence_end text ends = Some r ->
             (String.length r <= String.length text)%nat).
  { induction ends as [|e ends IH]; simpl; intros r; [discriminate|].
    destruct (TokenCounter.above_share _ _ _).
    - intros E. injection E as <-. apply slice_to_length.
    - apply IH. }
  destruct (TokenCounter.first_sentence_end _ _) as [r|] eqn:E.
  - eapply H. eassumption.
  - destruct (TokenCounter.above_share _ _ _);
      [apply slice_to_length | apply Nat.le_refl].
Qed.

Lemma truncate_to_limit_length (tk : TokenCounter.t) (text : string)
    (m : option string) (buffer : Z) :
  (String.length (TokenCounter.truncate_to_limit tk text m buffer)
   <= String.length text)%nat.
Proof.
  unfold TokenCounter.truncate_to_limit.
  destruct (_ <=? _); [apply Nat.le_refl|].
  eapply Nat.le_trans; [apply boundary_length | apply slice_to_length].
Qed.

(** The binary search of [truncate_to_limit] is over once [left] has
    met [right]: fuel beyond [right - left] rounds changes nothing. *)
Lemma bsearch_fuel (tk : TokenCounter.t) (text : string) (limit : Z)
    (fuel fuel' : nat) (left right : Z) :
  right - left <= Z.of_nat fuel -> right - left <= Z.of_nat fuel' ->
  TokenCounter.bsearch tk text limit fuel left right
  = TokenCounter.bsearch tk text limit fuel' left right.
Proof.
  revert fuel' left right.
  induction fuel as [|fuel IH]; intros [|fuel'] left right H H'; simpl;
    try reflexivity.
  - destruct (left <? right) eqn:E; [apply Z.ltb_lt in E; lia | reflexivity].
  - destruct (left <? right) eqn:E; [apply Z.ltb_lt in E; lia | reflexivity].
  - destruct (left <? right) eqn:E; [|reflexivity].
    apply Z.ltb_lt in E.
    assert (Hmid : left + 1 <= (left + right + 1) / 2 <= right).
    { split.
      - apply Z.div_le_lower_bound; lia.
      - apply Z.div_le_upper_bound; lia. }
    destruct (_ <=? limit); apply IH; lia.
Qed.

Lemma shrink_point_lt (text : string) :
  1 <= PyStr.len text < 2 ^ 53 -> shrink_point text < PyStr.len text.
Proof. apply FloatFacts.mul_0_9_lt. Qed.

Section WithWindow.
Variable self : t.

(** The shrinking loop ends, within the quota, on every text shorter
    than [2^53] characters. *)
Lemma shrink_loop_returns (fuel : nat) (max_tokens : Z) (text : string) :
  0 <= max_tokens ->
  (String.length text < fuel)%nat ->
  PyStr.len text < 2 ^ 53 ->
  exists r,
    shrink_loop self fuel max_tokens text = Some r
    /\ TokenCounter.count_tokens (token_counter self) r <= max_tokens
    /\ is_prefix r text.
Proof.
  intros Hmax. revert text.
  induction fuel as [|fuel IH]; intros text Hfuel Hs; [lia|].
  simpl.
  destruct (max_tokens <? TokenCounter.count_tokens (token_counter self) text)
    eqn:E.
  - apply Z.ltb_lt in E.
    assert (Hne : (1 <= String.length text)%nat).
    { destruct text; [simpl in E; lia | simpl; lia]. }
    assert (Hlt : shrink_point text < PyStr.len text)
      by (apply shrink_point_lt; unfold PyStr.len in *; lia).
    apply slice_to_shorter in Hlt; [|unfold PyStr.len; lia].
    destruct (IH (PyStr.slice_to (shrink_point text) text))
      as [r [Hr [Hfit Hpre]]];
      [lia | unfold PyStr.len in *; lia |].
    exists r. split; [exact Hr|]. split; [exact Hfit|].
    eapply prefix_trans; [exact Hpre | apply slice_prefix].
  - apply Z.ltb_ge in E. exists text.
    split; [reflexivity|]. split; [assumption | apply prefix_refl].
Qed.

Lemma truncate_section_returns (section : WindowSection) (q : Z) :
  PyStr.len (sec_content section) < 2 ^ 53 ->
  q < sec_token_count section ->
  exists out,
    _truncate_section self section q
    = Returns match out with o :: _ => Some o | [] => None end
    /\ shrunk_to_quota self q section out.
Proof.
  intros Hs Hq. unfold _truncate_section, shrunk_to_quota.
  apply Z.ltb_lt in Hq. rewrite Hq.
  destruct (q <? 50) eqn:E50.
  - exists []. split; reflexivity.
  - apply Z.ltb_ge in E50.
    set (t0 := TokenCounter.truncate_to_limit (token_counter self)
                 (sec_content section) None 0).
    assert (Hlen : (String.length t0 <= String.length (sec_content section))%nat)
      by apply truncate_to_limit_length.
    destruct (shrink_loop_returns (S (String.length t0)) q t0)
      as [r [Hr [Hfit Hpre]]];
      [lia | lia | unfold PyStr.len in *; lia |].
    rewrite Hr. exists [truncated_section self section r].
    split; [reflexivity|].
    exists r. split; [|split; [exact Hfit | reflexivity]].
    eapply prefix_trans; [exact Hpre | apply truncate_to_limit_prefix].
Qed.

Lemma truncate_each_returns (max_tokens total_priority : Z)
    (sections : list WindowSection) :
  total_priority <> 0 ->
  (forall s, In s sections -> PyStr.len (sec_content s) < 2 ^ 53) ->
  exists parts,
    truncate_each self max_tokens total_priority sections
    = Returns (List.concat parts)
    /\ Forall2 (fun s out =>
                  shrunk_to_quota self
                    (allocation max_tokens total_priority s) s out)
               sections parts.
Proof.
  intros Hp. apply Z.eqb_neq in Hp.
  induction sections as [|s sections IH]; intros Hs; simpl.
  - exists []. split; [reflexivity | constructor].
  - rewrite Hp.
    destruct IH as [parts [Hrest Hall]];
      [intros x Hx; apply Hs; now right|].
    rewrite Hrest.
    destruct (allocation max_tokens total_priority s <? sec_token_count s)
      eqn:E.
    + apply Z.ltb_lt in E.
      destruct (truncate_section_returns s
                  (allocation max_tokens total_priority s))
        as [out [Hout Hspec]]; [apply Hs; now left | assumption |].
      rewrite Hout. simpl.
      assert (Hshape : out = match out with o :: _ => [o] | [] => [] end).
      { unfold shrunk_to_quota in Hspec.
        apply Z.ltb_lt in E. rewrite E in Hspec.
        destruct (_ <? 50).
        - now subst out.
        - destruct Hspec as [text [_ [_ ->]]]. reflexivity. }
      exists (out :: parts). split.
      * simpl. rewrite Hshape at 2. now destruct out.
      * now constructor.
    + exists ([s] :: parts). split; [reflexivity|].
      constructor; [|assumption].
      unfold shrunk_to_quota. now rewrite E.
Qed.


End WithWindow.

End WindowFacts.

(** ** Claims about the window builder *)

Module WindowClaims.
Import ContextWindow WindowSpec WindowFacts MoreSpec.





Lemma section_900_length (n : string) (p : Z) (r : bool) :
  PyStr.len (sec_content (Examples.section_900 n p r)) = 3600.
Proof. vm_compute. reflexivity. Qed.




(** The example of C8 run on the fallback estimator: two required
    sections of 900 tokens and priority 5, one optional section,
    budget 1000.  Each required section comes back truncated to 477
    tokens; the optional one is absent. *)
Lemma equal_priority_example :
  _optimize_sections Examples.window
    [Examples.section_900 "rules" 5 true;
     Examples.section_900 "facts" 5 true;
     Examples.section_optional] 1000
  = Returns [Examples.section_900_truncated "rules" 5;
             Examples.section_900_truncated "facts" 5].
Proof. vm_compute. reflexivity. Qed.


End WindowClaims.

(** ** Further properties of the same code *)

Module MoreProperties.
Import OptimizerSpec ListFacts OptimizerFacts.

(** X2.  Whatever [_compress_content] returns measures at most the
    limit it was given. *)
Theorem compressed_content_fits (self : ContextOptimizer.t) (text : string)
    (n : Z) (r : string) :
  ContextOptimizer._compress_content self text n = Some r ->
  TokenCounter.count_tokens (ContextOptimizer.token_counter self) r <= n.
Proof. apply compress_content_fits. Qed.

Lemma compressed_content_fits_witness :
  TokenCounter.count_tokens
    (ContextOptimizer.token_counter Examples.optimizer)
    (content Examples.padded_result) <= 50.
Proof.
  apply (compressed_content_fits Examples.optimizer Examples.padded_text 50).
  vm_compute. reflexivity.
Defined.

Lemma below_minimum_witness :
  ContextOptimizer._try_compress_context Examples.optimizer
    Examples.item_padded 49 = None.
Proof.
  apply (OptimizerClaims.try_compress_below_minimum Examples.optimizer
           Examples.item_padded 49).
  reflexivity.
Defined.

Lemma scenario_system_heavy :
  1000 < 2 * total_tokens
             (live_system Examples.scenario_optimizer 10
                [Examples.item_A; Examples.item_B; Examples.item_C]).
Proof. vm_compute. reflexivity. Qed.

Lemma hybrid_double_count_witness :
  ContextOptimizer._optimize_hybrid Examples.scenario_optimizer 10
    [Examples.item_A; Examples.item_B; Examples.item_C] 1000
  = live_system Examples.scenario_optimizer 10
      [Examples.item_A; Examples.item_B; Examples.item_C].
Proof.
  exact (OptimizerClaims.hybrid_double_count Examples.scenario_optimizer 10
           [Examples.item_A; Examples.item_B; Examples.item_C] 1000
           OptimizerClaims.scenario_nonneg scenario_system_heavy).
Defined.

(** At time 10 the first note of [store_dated] has expired and the
    second has not: a search that both match (query and tag) finds the
    second only, and so does the window. *)
Lemma dated_search :
  ContextManager.search_contexts 10 MoreExamples.store_dated "AT" None
    (Some ["plan"%string])
  = [MoreExamples.item_dated]
  /\ map (is_expired 10)
       (Py.values (ContextManager.contexts MoreExamples.store_dated))
     = [true; false].
Proof. split; vm_compute; reflexivity. Qed.

Lemma item_dated_found :
  In MoreExamples.item_dated
     (ContextManager.search_contexts 10 MoreExamples.store_dated "AT" None
        (Some ["plan"%string])).
Proof. rewrite (proj1 dated_search). left. reflexivity. Qed.

Lemma search_skips_expired_witness :
  is_expired 10 MoreExamples.item_dated = false.
Proof.
  exact (StoreClaims.search_skips_expired 10 MoreExamples.store_dated "AT"
           None (Some ["plan"%string]) MoreExamples.item_dated
           item_dated_found).
Defined.

Lemma dated_window :
  ContextManager.window_items 10 MoreExamples.store_dated None
  = [MoreExamples.item_dated].
Proof. vm_compute. reflexivity. Qed.

Lemma item_dated_in_window :
  In MoreExamples.item_dated
     (ContextManager.window_items 10 MoreExamples.store_dated None).
Proof. rewrite dated_window. left. reflexivity. Qed.

Lemma window_skips_expired_witness :
  is_expired 10 MoreExamples.item_dated = false.
Proof.
  exact (StoreClaims.window_skips_expired 10 MoreExamples.store_dated None
           MoreExamples.item_dated item_dated_in_window).
Defined.

End MoreProperties.

(* ================================================================== *)
(** ** Further properties of the store *)

Module DictFacts.

Section WithValues.
Variable V : Type.

Lemma get_set_same (k : string) (v : V) (d : Py.dict V) :
  Py.get k (Py.set k v d) = Some v.
Proof.
  induction d as [|[k' v'] d IH]; simpl.
  - now rewrite String.eqb_refl.
  - destruct (String.eqb k k') eqn:E; simpl.
    + now rewrite String.eqb_refl.
    + now rewrite E.
Qed.

Lemma get_set_other (k k' : string) (v : V) (d : Py.dict V) :
  k' <> k -> Py.get k' (Py.set k v d) = Py.get k' d.
Proof.
  intros Hne. apply String.eqb_neq in Hne.
  induction d as [|[k2 v2] d IH]; simpl.
  - now rewrite Hne.
  - destruct (String.eqb k k2) eqn:E; simpl.
    + apply String.eqb_eq in E. subst k2. now rewrite Hne.
    + destruct (String.eqb k' k2); [reflexivity | exact IH].
Qed.

Lemma get_filter_key (p : string -> bool) (k : string) (d : Py.dict V) :
  Py.get k (filter (fun kv => p (fst kv)) d)
  = if p k then Py.get k d else None.
Proof.
  induction d as [|[k2 v2] d IH]; simpl.
  - now destruct (p k).
  - destruct (p k2) eqn:Ep; simpl.
    + destruct (String.eqb k k2) eqn:E; [|exact IH].
      apply String.eqb_eq in E. subst. now rewrite Ep.
    + destruct (String.eqb k k2) eqn:E; [|exact IH].
      apply String.eqb_eq in E. subst. rewrite Ep in *. exact IH.
Qed.

Lemma get_some_in (k : string) (v : V) (d : Py.dict V) :
  Py.get k d = Some v -> In (k, v) d.
Proof.
  induction d as [|[k2 v2] d IH]; simpl; [discriminate|].
  destruct (String.eqb k k2) eqn:E.
  - apply String.eqb_eq in E. subst. intros H. injection H as ->. now left.
  - intros H. right. now apply IH.
Qed.

Lemma get_none_keys (k : string) (d : Py.dict V) :
  Py.get k d = None <-> ~ In k (Py.keys d).
Proof.
  unfold Py.keys. induction d as [|[k2 v2] d IH]; simpl; [tauto|].
  destruct (String.eqb k k2) eqn:E.
  - apply String.eqb_eq in E. subst. split; [discriminate | tauto].
  - apply String.eqb_neq in E. rewrite IH. split.
    + intros H [H1|H1]; [now apply E | now apply H].
    + tauto.
Qed.

Lemma has_keys (k : string) (d : Py.dict V) :
  Py.has k d = true <-> In k (Py.keys d).
Proof.
  unfold Py.has. destruct (Py.get k d) eqn:E.
  - split; [intros _ | reflexivity].
    apply get_some_in in E. unfold Py.keys. apply in_map_iff.
    now exists (k, v).
  - apply get_none_keys in E. split; [discriminate | tauto].
Qed.

Lemma in_get (k : string) (v : V) (d : Py.dict V) :
  NoDup (Py.keys d) -> In (k, v) d -> Py.get k d = Some v.
Proof.
  unfold Py.keys. induction d as [|[k2 v2] d IH]; simpl; intros Hnd;
    [tauto|].
  inversion Hnd as [|? ? Hnotin Hnd']; subst.
  intros [H|H].
  - injection H as -> ->. now rewrite String.eqb_refl.
  - destruct (String.eqb k k2) eqn:E; [|now apply IH].
    apply String.eqb_eq in E. subst. exfalso. apply Hnotin.
    apply in_map_iff. now exists (k2, v).
Qed.

Lemma set_fresh (k : string) (v : V) (d : Py.dict V) :
  Py.has k d = false -> Py.set k v d = d ++ [(k, v)].
Proof.
  unfold Py.has. induction d as [|[k2 v2] d IH]; simpl; [reflexivity|].
  destruct (String.eqb k k2); [discriminate|].
  intros H. f_equal. now apply IH.
Qed.

(** In a dictionary with unique keys, an entry has one of the keys
    selected by a predicate on entries exactly when the predicate holds
    of it. *)
Lemma key_in_selected (q : string * V -> bool) (d : Py.dict V)
    (kv : string * V) :
  NoDup (Py.keys d) -> In kv d ->
  Py.mem (fst kv) (map fst (filter q d)) = q kv.
Proof.
  intros Hnd Hin. destruct kv as [k v]. simpl.
  destruct (q (k, v)) eqn:E.
  - apply StoreFacts.mem_in. apply in_map_iff. exists (k, v).
    split; [reflexivity|]. apply filter_In. now split.
  - destruct (Py.mem k (map fst (filter q d))) eqn:E2; [|reflexivity].
    apply StoreFacts.mem_in in E2. apply in_map_iff in E2.
    destruct E2 as [[k' v'] [Hk Hin']]. simpl in Hk. subst k'.
    apply filter_In in Hin'. destruct Hin' as [Hin' Hq].
    apply (in_get _ _ _ Hnd) in Hin. apply (in_get _ _ _ Hnd) in Hin'.
    rewrite Hin in Hin'. injection Hin' as ->. congruence.
Qed.

End WithValues.

End DictFacts.

Module StoreProperties.
Import ContextManager StoreSpec MoreSpec ListFacts StoreFacts DictFacts.

Lemma update_stats_ok (s : t) : stats_ok (_update_stats s).
Proof. repeat split. Qed.

Lemma remove_context_stats_ok (s : t) (k : string) :
  stats_ok s -> stats_ok (snd (remove_context s k)).
Proof.
  intros H. unfold remove_context.
  destruct (Py.has k (contexts s)); [apply update_stats_ok | exact H].
Qed.

Lemma remove_all_stats_ok (ids : list string) (s : t) :
  stats_ok s -> stats_ok (remove_all s ids).
Proof.
  unfold remove_all. revert s.
  induction ids as [|i ids IH]; intros s H; simpl; [exact H|].
  apply IH. now apply remove_context_stats_ok.
Qed.

Lemma optimize_context_stats_ok (now : datetime) (s : t) (tgt : option Z) :
  stats_ok s -> stats_ok (optimize_context now s tgt).
Proof.
  intros H. unfold optimize_context.
  destruct (_ <=? _); [exact H|].
  match goal with
  | |- stats_ok (with_last_optimization ?x _) =>
      assert (Hx : stats_ok x)
        by (apply remove_all_stats_ok; unfold _remove_expired_contexts;
            now apply remove_all_stats_ok);
      exact Hx
  end.
Qed.

Lemma categorize_order (s : t) (c : ContextItem) :
  context_order (_categorize_context s c) = context_order s.
Proof.
  unfold _categorize_context.
  destruct (String.eqb (type c) "system"); [reflexivity|].
  destruct (String.eqb (type c) "user" || String.eqb (type c) "assistant");
    [reflexivity|].
  destruct (String.eqb (type c) "memory"); [reflexivity|].
  destruct (String.eqb (type c) "tool_result"); reflexivity.
Qed.

Lemma store_mixed_keys :
  NoDup (Py.keys (contexts MoreExamples.store_mixed)).
Proof.
  vm_compute. constructor.
  - intros [H|[]]. discriminate H.
  - constructor; [intros [] | constructor].
Qed.

Lemma store1_keys : NoDup (Py.keys (contexts Examples.store1)).
Proof. vm_compute. constructor; [intros [] | constructor]. Qed.

Lemma store0_stats_ok : stats_ok Examples.store0.
Proof. repeat split. Qed.

Lemma store0_fresh : Py.has "id-1" (contexts Examples.store0) = false.
Proof. reflexivity. Qed.

Lemma store0_room :
  get_total_tokens Examples.store0
  + TokenCounter.count_tokens (token_counter Examples.store0)
      (PyStr.replicate 200 "a")
  <= max_tokens Examples.store0.
Proof. vm_compute. discriminate. Qed.

(** X6.  An item added under a fresh identifier to a store with room
    for it is found under that identifier, with the text given, the
    token count the counter measures and the clock as its time; every
    other identifier finds what it found before, and the identifier is
    the last of the insertion order. *)
Theorem add_then_get (now : datetime) (new_id : string) (s : t)
    (text ty : string) (prio : Z) (meta : option json)
    (tgs : option (list string)) (exp : option datetime) :
  Py.has new_id (contexts s) = false ->
  get_total_tokens s + TokenCounter.count_tokens (token_counter s) text
  <= max_tokens s ->
  fst (add_context now new_id s text ty prio meta tgs exp) = new_id
  /\ get_context (snd (add_context now new_id s text ty prio meta tgs exp))
       new_id
     = Some (mkItem new_id text ty prio now (or_empty_object meta)
               (TokenCounter.count_tokens (token_counter s) text)
               PyFloat.f1 exp (match tgs with Some l => l | None => [] end))
  /\ (forall k, k <> new_id ->
        get_context (snd (add_context now new_id s text ty prio meta tgs exp))
          k
        = get_context s k)
  /\ context_order (snd (add_context now new_id s text ty prio meta tgs exp))
     = context_order s ++ [new_id].
Proof.
  intros Hfresh Hroom.
  assert (Hc : contexts (inserted now new_id s text ty prio meta tgs exp)
               = Py.set new_id
                   (mkItem new_id text ty prio now (or_empty_object meta)
                      (TokenCounter.count_tokens (token_counter s) text)
                      PyFloat.f1 exp
                      (match tgs with Some l => l | None => [] end))
                   (contexts s)).
  { unfold inserted. change (contexts (_update_stats ?x)) with (contexts x).
    now rewrite (proj1 (StoreClaims.categorize_contexts _ _)). }
  assert (Hm : max_tokens (inserted now new_id s text ty prio meta tgs exp)
               = max_tokens s).
  { unfold inserted.
    change (max_tokens (_update_stats ?x)) with (max_tokens x).
    now rewrite (proj1 (proj2 (StoreClaims.categorize_contexts _ _))). }
  assert (Ho : context_order
                 (inserted now new_id s text ty prio meta tgs exp)
               = context_order s ++ [new_id]).
  { unfold inserted.
    change (context_order (_update_stats ?x)) with (context_order x).
    now rewrite categorize_order. }
  assert (Ht : get_total_tokens
                 (inserted now new_id s text ty prio meta tgs exp)
               = get_total_tokens s
                 + TokenCounter.count_tokens (token_counter s) text).
  { unfold get_total_tokens. rewrite Hc, (set_fresh _ _ _ _ Hfresh).
    unfold Py.values, total_tokens. rewrite map_app, sum_app.
    unfold Py.sum. simpl. lia. }
  assert (E : snd (add_context now new_id s text ty prio meta tgs exp)
              = inserted now new_id s text ty prio meta tgs exp).
  { rewrite StoreClaims.add_context_unfold, Hm, Ht.
    destruct (max_tokens s <? _) eqn:El; [|reflexivity].
    apply Z.ltb_lt in El. lia. }
  split; [reflexivity|]. rewrite E. unfold get_context. rewrite Hc.
  split; [apply get_set_same|]. split; [|exact Ho].
  intros k Hk. now apply get_set_other.
Qed.

Lemma store0_room_note :
  get_total_tokens Examples.store0
  + TokenCounter.count_tokens (token_counter Examples.store0) "lunch at one"
  <= max_tokens Examples.store0.
Proof. vm_compute. discriminate. Qed.

Lemma add_then_get_witness :
  get_context
    (snd (add_context 1 "id-1" Examples.store0 "lunch at one" "user" 5
            (Some (JObj [("room"%string, JInt 4)])) (Some ["plan"%string])
            (Some 20)))
    "id-1"
  = Some (mkItem "id-1" "lunch at one" "user" 5 1
            (JObj [("room"%string, JInt 4)]) 3 PyFloat.f1 (Some 20)
            ["plan"%string]).
Proof.
  exact (proj1 (proj2 (add_then_get 1 "id-1" Examples.store0
                         "lunch at one" "user" 5
                         (Some (JObj [("room"%string, JInt 4)]))
                         (Some ["plan"%string]) (Some 20)
                         store0_fresh store0_room_note))).
Defined.

(** X7.  [remove_context] answers whether the identifier was stored;
    afterwards the identifier finds nothing and every other identifier
    finds what it found before. *)
Theorem remove_then_get (s : t) (k : string) :
  NoDup (Py.keys (contexts s)) ->
  fst (remove_context s k) = Py.has k (contexts s)
  /\ get_context (snd (remove_context s k)) k = None
  /\ forall k', k' <> k ->
       get_context (snd (remove_context s k)) k' = get_context s k'.
Proof.
  intros Hnd. split.
  - unfold remove_context. now destruct (Py.has k (contexts s)).
  - unfold get_context. rewrite remove_context_contexts by exact Hnd.
    split.
    + rewrite (get_filter_key _ (fun k0 => negb (String.eqb k k0))).
      now rewrite String.eqb_refl.
    + intros k' Hk.
      rewrite (get_filter_key _ (fun k0 => negb (String.eqb k k0))).
      assert (E : String.eqb k k' = false)
        by (apply String.eqb_neq; congruence).
      now rewrite E.
Qed.

Lemma remove_then_get_witness :
  get_context (snd (remove_context MoreExamples.store_mixed "id-1")) "id-1"
  = None.
Proof.
  exact (proj1 (proj2 (remove_then_get MoreExamples.store_mixed "id-1"
                         store_mixed_keys))).
Defined.

(** X8.  The statistics follow the contents: on a store whose
    statistics agree with its item map, they still agree after
    [add_context], [remove_context], [update_context],
    [optimize_context] and [clear_context]. *)
Theorem stats_follow_contents (s : t) :
  stats_ok s ->
  (forall now new_id text ty prio meta tgs exp,
     stats_ok (snd (add_context now new_id s text ty prio meta tgs exp)))
  /\ (forall k, stats_ok (snd (remove_context s k)))
  /\ (forall now k u, stats_ok (snd (update_context now s k u)))
  /\ (forall now tgt, stats_ok (optimize_context now s tgt))
  /\ (forall ty, stats_ok (StoreOps.clear_context s ty)).
Proof.
  intros H. split; [|split; [|split; [|split]]].
  - intros now new_id text ty prio meta tgs exp.
    rewrite StoreClaims.add_context_unfold.
    destruct (_ <? _).
    + apply optimize_context_stats_ok, update_stats_ok.
    + apply update_stats_ok.
  - intros k. now apply remove_context_stats_ok.
  - intros now k u. unfold update_context.
    destruct (Py.get k (contexts s)); simpl;
      [apply update_stats_ok | exact H].
  - intros now tgt. now apply optimize_context_stats_ok.
  - intros ty. unfold StoreOps.clear_context. destruct ty as [[|a ty]|];
      try apply update_stats_ok.
    now apply remove_all_stats_ok.
Qed.

Lemma store_mixed_stats_ok : stats_ok MoreExamples.store_mixed.
Proof. repeat split. Qed.

(** Removing the stored note from [store_mixed] leaves one item of 2
    tokens, and the statistics say so. *)
Lemma store_mixed_removed :
  fst (remove_context MoreExamples.store_mixed "id-1") = true
  /\ total_items (stats (snd (remove_context MoreExamples.store_mixed "id-1")))
     = 1
  /\ stats_total_tokens
       (stats (snd (remove_context MoreExamples.store_mixed "id-1"))) = 2
  /\ total_items (stats MoreExamples.store_mixed) = 2.
Proof. repeat split. Qed.

Lemma stats_follow_contents_witness :
  stats_ok (snd (remove_context MoreExamples.store_mixed "id-1")).
Proof.
  exact (proj1 (proj2 (stats_follow_contents MoreExamples.store_mixed
                         store_mixed_stats_ok))
           "id-1"%string).
Defined.

(** X9.  [_remove_expired_contexts] leaves exactly the entries that
    have not expired, in their order; a second purge at the same
    instant changes nothing. *)
Theorem purge_removes_exactly_expired (now : datetime) (s : t) :
  NoDup (Py.keys (contexts s)) ->
  contexts (_remove_expired_contexts now s)
  = filter (fun kv => negb (is_expired now (snd kv))) (contexts s)
  /\ _remove_expired_contexts now (_remove_expired_contexts now s)
     = _remove_expired_contexts now s.
Proof.
  intros Hnd.
  assert (E : contexts (_remove_expired_contexts now s)
              = filter (fun kv => negb (is_expired now (snd kv)))
                       (contexts s)).
  { unfold _remove_expired_contexts.
    rewrite remove_all_contexts by exact Hnd.
    apply filter_ext_in. intros kv Hin. unfold key_in.
    now rewrite (key_in_selected _ (fun kv0 => is_expired now (snd kv0))
                   _ kv Hnd Hin). }
  split; [exact E|].
  unfold _remove_expired_contexts at 1. rewrite E, filter_filter.
  rewrite filter_none; [reflexivity|].
  intros kv _. now destruct (is_expired now (snd kv)).
Qed.

Lemma purge_removes_exactly_expired_witness :
  contexts (_remove_expired_contexts 10 MoreExamples.store_mixed)
  = filter (fun kv => negb (is_expired 10 (snd kv)))
           (contexts MoreExamples.store_mixed).
Proof.
  exact (proj1 (purge_removes_exactly_expired 10 MoreExamples.store_mixed
                  store_mixed_keys)).
Defined.

(** X10.  [clear_context] with a type leaves exactly the entries of
    the other types, so that [get_contexts_by_type] finds none of that
    type; with the empty string as the type it empties the whole
    store, as it does without a type. *)
Theorem clear_context_by_type (s : t) (a : ascii) (ty : string) :
  NoDup (Py.keys (contexts s)) ->
  contexts (StoreOps.clear_context s (Some (String a ty)))
  = filter (fun kv => negb (String.eqb (type (snd kv)) (String a ty)))
           (contexts s)
  /\ get_contexts_by_type
       (StoreOps.clear_context s (Some (String a ty))) (String a ty) = []
  /\ contexts (StoreOps.clear_context s (Some EmptyString)) = []
  /\ contexts (StoreOps.clear_context s None) = [].
Proof.
  intros Hnd.
  assert (E : contexts (StoreOps.clear_context s (Some (String a ty)))
              = filter (fun kv =>
                          negb (String.eqb (type (snd kv)) (String a ty)))
                       (contexts s)).
  { unfold StoreOps.clear_context.
    rewrite remove_all_contexts by exact Hnd.
    apply filter_ext_in. intros kv Hin. unfold key_in.
    now rewrite (key_in_selected _
                   (fun kv0 => String.eqb (type (snd kv0)) (String a ty))
                   _ kv Hnd Hin). }
  split; [exact E|]. split; [|split; reflexivity].
  unfold get_contexts_by_type. rewrite E. apply filter_none.
  intros c Hc. unfold Py.values in Hc. apply in_map_iff in Hc.
  destruct Hc as [kv [<- Hin]]. apply filter_In in Hin.
  destruct Hin as [_ Hin].
  now destruct (String.eqb (type (snd kv)) (String a ty)).
Qed.

Lemma clear_context_by_type_witness :
  get_contexts_by_type
    (StoreOps.clear_context MoreExamples.store_mixed (Some "system"%string))
    "system" = [].
Proof.
  exact (proj1 (proj2 (clear_context_by_type MoreExamples.store_mixed
                         "s"%char "ystem" store_mixed_keys))).
Defined.

Lemma effective_target_same (s s' : t) (tgt : option Z) :
  max_tokens s' = max_tokens s ->
  effective_target s' tgt = effective_target s tgt.
Proof.
  intros H. unfold effective_target, default_target. now rewrite H.
Qed.

(** X11.  [optimize_context] is idempotent: on a well-formed store and
    for a target in force that is not negative, a second call with the
    same target, at any time, changes nothing. *)
Theorem optimize_context_idempotent (now now' : datetime) (s : t)
    (tgt : option Z) :
  store_ok s ->
  0 <= effective_target s tgt ->
  optimize_context now' (optimize_context now s tgt) tgt
  = optimize_context now s tgt.
Proof.
  intros Hok Ht.
  destruct (optimize_context_spec now s tgt Hok) as [Hm [_ Hb]].
  set (s' := optimize_context now s tgt) in *.
  unfold optimize_context. cbv zeta.
  rewrite (effective_target_same s s' tgt Hm).
  destruct (get_total_tokens s' <=? effective_target s tgt) eqn:E;
    [reflexivity|].
  apply Z.leb_gt in E. lia.
Qed.

Lemma store2_target : 0 <= effective_target Examples.store2 None.
Proof. vm_compute. discriminate. Qed.

Lemma store2_ok : store_ok Examples.store2.
Proof.
  split.
  - vm_compute. constructor; [intros [] | constructor].
  - intros k c Hin. vm_compute in Hin. destruct Hin as [H|[]].
    injection H as <- <-. split; [reflexivity | vm_compute; discriminate].
Qed.

Lemma optimize_context_idempotent_witness :
  optimize_context 3 (optimize_context 2 Examples.store2 None) None
  = optimize_context 2 Examples.store2 None.
Proof.
  exact (optimize_context_idempotent 2 3 Examples.store2 None store2_ok
           store2_target).
Defined.

Lemma window_fill_bounded (l : list ContextItem) (limit current : Z) :
  current <= limit ->
  current + total_tokens (window_fill limit current l) <= limit.
Proof.
  revert current. induction l as [|c l IH]; intros current H; simpl.
  - unfold total_tokens, Py.sum. simpl. lia.
  - destruct (current + token_count c <=? limit) eqn:E.
    + apply Z.leb_le in E. apply IH in E.
      unfold total_tokens, Py.sum in *. simpl. lia.
    + unfold total_tokens, Py.sum. simpl. lia.
Qed.

(** X12.  The items [get_context_window] renders stay within the bound
    in force ([max_tokens] of the call, or of the store when the call
    gives none or gives 0), provided that bound is not negative. *)
Theorem window_within_limit (now : datetime) (s : t) (mt : option Z) :
  0 <= window_limit s mt ->
  total_tokens (window_items now s mt) <= window_limit s mt.
Proof.
  intros H. unfold window_items. cbv zeta.
  fold (window_limit s mt).
  pose proof (window_fill_bounded
                (Py.sorted_desc key_priority_time_lt
                   (filter (fun c => negb (is_expired now c))
                           (Py.values (contexts s))))
                (window_limit s mt) 0 H) as Hb.
  lia.
Qed.

Lemma store1_limit : 0 <= window_limit Examples.store1 (Some 40).
Proof. vm_compute. discriminate. Qed.

Lemma window_within_limit_witness :
  total_tokens (window_items 10 Examples.store1 (Some 40))
  <= window_limit Examples.store1 (Some 40).
Proof.
  exact (window_within_limit 10 Examples.store1 (Some 40) store1_limit).
Defined.

End StoreProperties.

(** ** Indices, measured token counts, orders *)

Module IndexProperties.
Import ContextManager StoreSpec MoreSpec ListFacts StoreFacts DictFacts.

Lemma remove_first_in (k x : string) (l : list string) :
  In x (Py.remove_first k l) -> In x l.
Proof.
  induction l as [|y l IH]; simpl; [tauto|].
  destruct (String.eqb k y); simpl; [now right|].
  intros [H|H]; [now left | right; now apply IH].
Qed.

Lemma remove_first_nodup (k : string) (l : list string) :
  NoDup l -> NoDup (Py.remove_first k l) /\ ~ In k (Py.remove_first k l).
Proof.
  induction l as [|y l IH]; simpl; intros Hnd; [split; [constructor|tauto]|].
  inversion Hnd as [|? ? Hnotin Hnd']; subst.
  destruct (String.eqb k y) eqn:E.
  - apply String.eqb_eq in E. subst. now split.
  - apply String.eqb_neq in E. destruct (IH Hnd') as [H1 H2]. split.
    + constructor; [|exact H1]. intros H. apply Hnotin.
      now apply (remove_first_in k).
    + intros [H|H]; [now apply E | now apply H2].
Qed.

Lemma get_del_other (V : Type) (k i : string) (d : Py.dict V) :
  i <> k -> Py.get i (Py.del k d) = Py.get i d.
Proof.
  intros Hne. apply String.eqb_neq in Hne.
  induction d as [|[k2 v2] d IH]; simpl; [reflexivity|].
  destruct (String.eqb k k2) eqn:E; simpl.
  - apply String.eqb_eq in E. subst. now rewrite Hne.
  - destruct (String.eqb i k2); [reflexivity | exact IH].
Qed.

Lemma del_in (V : Type) (k : string) (d : Py.dict V) (kv : string * V) :
  In kv (Py.del k d) -> In kv d.
Proof.
  induction d as [|[k2 v2] d IH]; simpl; [tauto|].
  destruct (String.eqb k k2); simpl; [now right|].
  intros [H|H]; [now left | right; now apply IH].
Qed.

Lemma index_list_ok_remove (d : Py.dict ContextItem) (l : list string)
    (k : string) :
  index_list_ok d l -> index_list_ok (Py.del k d) (Py.remove_first k l).
Proof.
  intros [Hnd Hin]. destruct (remove_first_nodup k l Hnd) as [H1 H2].
  split; [exact H1|]. intros i Hi.
  assert (Hne : i <> k) by (intros ->; now apply H2).
  unfold Py.has. rewrite get_del_other by exact Hne.
  apply Hin. now apply (remove_first_in k).
Qed.

Lemma has_set (V : Type) (k i : string) (v : V) (d : Py.dict V) :
  Py.has i d = true -> Py.has i (Py.set k v d) = true.
Proof.
  unfold Py.has. intros H. destruct (String.eqb i k) eqn:E.
  - apply String.eqb_eq in E. subst. now rewrite get_set_same.
  - apply String.eqb_neq in E. now rewrite get_set_other.
Qed.

Lemma index_list_ok_set (d : Py.dict ContextItem) (l : list string)
    (k : string) (v : ContextItem) :
  index_list_ok d l -> index_list_ok (Py.set k v d) l.
Proof.
  intros [Hnd Hin]. split; [exact Hnd|].
  intros i Hi. apply has_set. now apply Hin.
Qed.

Lemma index_list_ok_append (d : Py.dict ContextItem) (l : list string)
    (k : string) (v : ContextItem) :
  Py.has k d = false ->
  index_list_ok d l -> index_list_ok (Py.set k v d) (l ++ [k]).
Proof.
  intros Hfresh [Hnd Hin]. split.
  - apply (Permutation_NoDup (Permutation_cons_append l k)).
    constructor; [|exact Hnd].
    intros H. apply Hin in H. congruence.
  - intros i Hi. apply in_app_or in Hi. destruct Hi as [Hi|[<-|[]]].
    + apply has_set. now apply Hin.
    + unfold Py.has. now rewrite get_set_same.
Qed.

Lemma remove_context_indices (s : t) (k : string) :
  indices_ok s -> indices_ok (snd (remove_context s k)).
Proof.
  intros H. unfold remove_context.
  destruct (Py.has k (contexts s)) eqn:E; [|exact H].
  destruct H as (Hk & Ho & H1 & H2 & H3 & H4).
  unfold indices_ok. simpl.
  split; [|split; [|split; [|split; [|split]]]];
    try now apply index_list_ok_remove.
  rewrite del_filter by exact Hk. now apply keys_filter_nodup.
Qed.

Lemma remove_all_indices (ids : list string) (s : t) :
  indices_ok s -> indices_ok (remove_all s ids).
Proof.
  unfold remove_all. revert s.
  induction ids as [|i ids IH]; intros s H; simpl; [exact H|].
  apply IH. now apply remove_context_indices.
Qed.

Lemma optimize_context_indices (now : datetime) (s : t) (tgt : option Z) :
  indices_ok s -> indices_ok (optimize_context now s tgt).
Proof.
  intros H. unfold optimize_context.
  destruct (_ <=? _); [exact H|].
  match goal with
  | |- indices_ok (with_last_optimization ?x _) =>
      assert (Hx : indices_ok x)
        by (apply remove_all_indices; unfold _remove_expired_contexts;
            now apply remove_all_indices);
      exact Hx
  end.
Qed.

Lemma inserted_indices (now : datetime) (new_id : string) (s : t)
    (text ty : string) (prio : Z) (meta : option json)
    (tgs : option (list string)) (exp : option datetime) :
  Py.has new_id (contexts s) = false ->
  indices_ok s ->
  indices_ok (inserted now new_id s text ty prio meta tgs exp).
Proof.
  intros Hfresh (Hk & Ho & H1 & H2 & H3 & H4).
  unfold inserted, _categorize_context. cbv zeta. simpl type. simpl id.
  match goal with
  | |- context [Py.set new_id ?c0 (contexts s)] => set (c := c0)
  end.
  assert (Hs : forall l, index_list_ok (contexts s) l ->
                 index_list_ok (Py.set new_id c (contexts s)) l)
    by (intros l Hl; now apply index_list_ok_set).
  assert (Ha : forall l, index_list_ok (contexts s) l ->
                 index_list_ok (Py.set new_id c (contexts s))
                   (l ++ [new_id]))
    by (intros l Hl; now apply index_list_ok_append).
  assert (Hn : NoDup (Py.keys (Py.set new_id c (contexts s))))
    by now apply set_keys_nodup.
  destruct (String.eqb ty "system");
    [|destruct (String.eqb ty "user" || String.eqb ty "assistant");
      [|destruct (String.eqb ty "memory");
        [|destruct (String.eqb ty "tool_result")]]];
    unfold indices_ok; simpl;
    (split; [exact Hn|]);
    (split; [|split; [|split; [|split]]]); auto.
Qed.

Lemma store0_indices : indices_ok Examples.store0.
Proof.
  unfold indices_ok, index_list_ok. simpl.
  repeat split; try constructor; intros i [].
Qed.

(** X13.  The order list and the four category lists name stored
    items only, each at most once, over a map with unique keys; this
    holds of the empty store and is kept by [add_context] under a
    fresh identifier, by [remove_context], [update_context],
    [optimize_context] and [clear_context]: no operation leaves a
    dangling or repeated identifier behind. *)
Theorem indices_kept (s : t) :
  indices_ok s ->
  (forall now new_id text ty prio meta tgs exp,
     Py.has new_id (contexts s) = false ->
     indices_ok (snd (add_context now new_id s text ty prio meta tgs exp)))
  /\ (forall k, indices_ok (snd (remove_context s k)))
  /\ (forall now k u, indices_ok (snd (update_context now s k u)))
  /\ (forall now tgt, indices_ok (optimize_context now s tgt))
  /\ (forall ty, indices_ok (StoreOps.clear_context s ty)).
Proof.
  intros H. split; [|split; [|split; [|split]]].
  - intros now new_id text ty prio meta tgs exp Hfresh.
    rewrite StoreClaims.add_context_unfold.
    destruct (_ <? _); [apply optimize_context_indices|];
      now apply inserted_indices.
  - intros k. now apply remove_context_indices.
  - intros now k u. unfold update_context.
    destruct (Py.get k (contexts s)); [|exact H].
    destruct H as (Hk & Ho & H1 & H2 & H3 & H4).
    unfold indices_ok. simpl.
    split; [now apply set_keys_nodup|].
    repeat split; try assumption;
      try (apply index_list_ok_set; assumption);
      try (apply (proj1 Ho)); try (apply (proj1 H1));
      try (apply (proj1 H2)); try (apply (proj1 H3));
      try (apply (proj1 H4));
      intros i Hi; apply has_set;
      first [ now apply (proj2 Ho) | now apply (proj2 H1)
            | now apply (proj2 H2) | now apply (proj2 H3)
            | now apply (proj2 H4) ].
  - intros now tgt. now apply optimize_context_indices.
  - intros ty. unfold StoreOps.clear_context.
    destruct ty as [[|a ty]|];
      try (unfold indices_ok, index_list_ok; simpl;
           repeat split; try constructor; intros i []).
    now apply remove_all_indices.
Qed.

Lemma indices_kept_witness : indices_ok Examples.store1.
Proof.
  exact (proj1 (indices_kept Examples.store0 store0_indices)
           0 "id-1"%string (PyStr.replicate 200 "a") "user"%string 1
           None None None StoreProperties.store0_fresh).
Defined.

Lemma remove_context_sub (s : t) (k : string) :
  token_counter (snd (remove_context s k)) = token_counter s
  /\ forall kv, In kv (contexts (snd (remove_context s k))) ->
                In kv (contexts s).
Proof.
  unfold remove_context. destruct (Py.has k (contexts s)); simpl.
  - split; [reflexivity|]. intros kv. apply del_in.
  - tauto.
Qed.

Lemma remove_all_sub (ids : list string) (s : t) :
  token_counter (remove_all s ids) = token_counter s
  /\ forall kv, In kv (contexts (remove_all s ids)) -> In kv (contexts s).
Proof.
  unfold remove_all. revert s.
  induction ids as [|i ids IH]; intros s; simpl; [tauto|].
  destruct (IH (snd (remove_context s i))) as [H1 H2].
  destruct (remove_context_sub s i) as [H3 H4].
  split; [congruence|]. intros kv Hin. apply H4, H2, Hin.
Qed.

Lemma optimize_context_sub (now : datetime) (s : t) (tgt : option Z) :
  token_counter (optimize_context now s tgt) = token_counter s
  /\ forall kv, In kv (contexts (optimize_context now s tgt)) ->
                In kv (contexts s).
Proof.
  unfold optimize_context. destruct (_ <=? _); [tauto|]. cbv zeta.
  match goal with
  | |- context [with_last_optimization (remove_all ?x ?ids) _] =>
      destruct (remove_all_sub ids x) as [H1 H2]
  end.
  unfold _remove_expired_contexts in *.
  match type of H1 with
  | _ = token_counter (remove_all s ?ids) =>
      destruct (remove_all_sub ids s) as [H3 H4]
  end.
  split.
  - change (token_counter (with_last_optimization ?x _))
      with (token_counter x). congruence.
  - intros kv Hin.
    change (contexts (with_last_optimization ?x _)) with (contexts x) in Hin.
    apply H4, H2, Hin.
Qed.

Lemma measured_sub (s s' : t) :
  token_counter s' = token_counter s ->
  (forall kv, In kv (contexts s') -> In kv (contexts s)) ->
  measured s -> measured s'.
Proof.
  intros Ht Hsub Hm k c Hin. rewrite Ht. apply (Hm k). now apply Hsub.
Qed.

Lemma store0_measured : measured Examples.store0.
Proof. intros k c []. Qed.

(** X14.  Every stored item carries the token count the counter
    measures on its content: this holds of the empty store and is kept
    by [add_context], [remove_context], [optimize_context] and
    [clear_context], and by [update_context] when the update gives a
    content or gives no token count.  (An update that gives a token
    count and no content stores that count as it is.) *)
Theorem token_counts_measured (s : t) :
  measured s ->
  (forall now new_id text ty prio meta tgs exp,
     measured (snd (add_context now new_id s text ty prio meta tgs exp)))
  /\ (forall k, measured (snd (remove_context s k)))
  /\ (forall now k u,
        u_content u <> None \/ u_token_count u = None ->
        measured (snd (update_context now s k u)))
  /\ (forall now tgt, measured (optimize_context now s tgt))
  /\ (forall ty, measured (StoreOps.clear_context s ty)).
Proof.
  intros H. split; [|split; [|split; [|split]]].
  - intros now new_id text ty prio meta tgs exp.
    assert (Hi : measured (inserted now new_id s text ty prio meta tgs exp)).
    { intros k c Hin. unfold inserted in *.
      change (contexts (_update_stats ?x)) with (contexts x) in Hin.
      change (token_counter (_update_stats ?x)) with (token_counter x).
      rewrite (proj1 (StoreClaims.categorize_contexts _ _)) in Hin.
      rewrite (proj2 (proj2 (StoreClaims.categorize_contexts _ _))).
      simpl in Hin. simpl token_counter.
      apply set_in in Hin. destruct Hin as [E|Hin].
      - injection E as -> ->. reflexivity.
      - now apply (H k). }
    rewrite StoreClaims.add_context_unfold.
    destruct (_ <? _); [|exact Hi].
    destruct (optimize_context_sub now
                (inserted now new_id s text ty prio meta tgs exp) None)
      as [H1 H2].
    exact (measured_sub _ _ H1 H2 Hi).
  - intros k. destruct (remove_context_sub s k) as [H1 H2].
    exact (measured_sub _ _ H1 H2 H).
  - intros now k u Hu. unfold update_context.
    destruct (Py.get k (contexts s)) as [c|] eqn:E; [|exact H].
    intros k0 c0 Hin. simpl in Hin. simpl token_counter.
    apply set_in in Hin. destruct Hin as [E0|Hin]; [|now apply (H k0)].
    injection E0 as -> ->. simpl.
    destruct (u_content u) as [text|]; [reflexivity|].
    destruct Hu as [Hu|Hu]; [congruence|]. rewrite Hu. simpl.
    apply (H k). now apply get_some_in.
  - intros now tgt. destruct (optimize_context_sub now s tgt) as [H1 H2].
    exact (measured_sub _ _ H1 H2 H).
  - intros ty. unfold StoreOps.clear_context.
    destruct ty as [[|a ty]|]; try (intros k c []).
    match goal with
    | |- measured (remove_all s ?ids) =>
        destruct (remove_all_sub ids s) as [H1 H2]
    end.
    exact (measured_sub _ _ H1 H2 H).
Qed.

Lemma token_counts_measured_witness : measured Examples.store1.
Proof.
  exact (proj1 (token_counts_measured Examples.store0 store0_measured)
           0 "id-1"%string (PyStr.replicate 200 "a") "user"%string 1
           None None None).
Defined.

Section Descending.
Variable A : Type.
Variable lt : A -> A -> bool.
Hypothesis lt_trans :
  forall a b c, lt a b = false -> lt b c = false -> lt a c = false.
Hypothesis lt_asym : forall a b, lt a b = true -> lt b a = false.

Lemma insert_desc_in (x z : A) (l : list A) :
  In z (Py.insert_desc lt x l) -> z = x \/ In z l.
Proof.
  intros H.
  apply (Permutation_in z (Permutation_sym (insert_desc_perm A lt x l))) in H.
  destruct H as [H|H]; [now left | now right].
Qed.

Lemma insert_desc_descending (x : A) (l : list A) :
  descending lt l -> descending lt (Py.insert_desc lt x l).
Proof.
  unfold descending. induction l as [|y l IH]; simpl; intros H.
  - repeat constructor.
  - apply StronglySorted_inv in H. destruct H as [Hs Hf].
    destruct (lt x y) eqn:E.
    + constructor; [now apply IH|].
      apply Forall_forall. intros z Hz. apply insert_desc_in in Hz.
      destruct Hz as [->|Hz]; [now apply lt_asym|].
      rewrite Forall_forall in Hf. now apply Hf.
    + constructor; [now constructor|].
      constructor; [exact E|].
      apply Forall_forall. intros z Hz. rewrite Forall_forall in Hf.
      apply (lt_trans x y z E). now apply Hf.
Qed.

Lemma sorted_desc_descending (l : list A) :
  descending lt (Py.sorted_desc lt l).
Proof.
  induction l as [|x l IH]; simpl; [constructor|].
  now apply insert_desc_descending.
Qed.

Lemma firstn_in (n : nat) (l : list A) (z : A) :
  In z (firstn n l) -> In z l.
Proof.
  revert n. induction l as [|y l IH]; intros n; [now rewrite firstn_nil|].
  destruct n as [|n]; simpl; [tauto|].
  intros [H|H]; [now left | right; now apply (IH n)].
Qed.

Lemma firstn_descending (n : nat) (l : list A) :
  descending lt l -> descending lt (firstn n l).
Proof.
  unfold descending. revert n. induction l as [|x l IH]; intros n H.
  - now rewrite firstn_nil.
  - destruct n as [|n]; simpl; [constructor|].
    apply StronglySorted_inv in H. destruct H as [Hs Hf].
    constructor; [now apply IH|].
    apply Forall_forall. intros z Hz. rewrite Forall_forall in Hf.
    apply Hf. now apply (firstn_in n).
Qed.

End Descending.

Lemma priority_time_trans (a b c : ContextItem) :
  key_priority_time_lt a b = false -> key_priority_time_lt b c = false ->
  key_priority_time_lt a c = false.
Proof.
  unfold key_priority_time_lt. intros H1 H2.
  apply orb_false_iff in H1, H2.
  destruct H1 as [P1 T1], H2 as [P2 T2]. apply Z.ltb_ge in P1, P2.
  apply orb_false_iff. split; [apply Z.ltb_ge; lia|].
  destruct (Z.eqb_spec (priority a) (priority c)) as [E|E]; [|reflexivity].
  simpl. apply Z.ltb_ge.
  apply andb_false_iff in T1, T2.
  destruct T1 as [T1|T1], T2 as [T2|T2];
    try (apply Z.eqb_neq in T1); try (apply Z.eqb_neq in T2);
    try (apply Z.ltb_ge in T1); try (apply Z.ltb_ge in T2); lia.
Qed.

Lemma priority_time_asym (a b : ContextItem) :
  key_priority_time_lt a b = true -> key_priority_time_lt b a = false.
Proof.
  unfold key_priority_time_lt. intros H.
  apply orb_false_iff. apply orb_true_iff in H.
  destruct H as [H|H].
  - apply Z.ltb_lt in H. split; [apply Z.ltb_ge; lia|].
    apply andb_false_iff. left. apply Z.eqb_neq. lia.
  - apply andb_true_iff in H. destruct H as [H1 H2].
    apply Z.eqb_eq in H1. apply Z.ltb_lt in H2.
    split; [apply Z.ltb_ge; lia|].
    apply andb_false_iff. right. apply Z.ltb_ge. lia.
Qed.

Lemma time_trans (a b c : ContextItem) :
  key_time_lt a b = false -> key_time_lt b c = false ->
  key_time_lt a c = false.
Proof.
  unfold key_time_lt. intros H1 H2. apply Z.ltb_ge in H1, H2.
  apply Z.ltb_ge. lia.
Qed.

Lemma time_asym (a b : ContextItem) :
  key_time_lt a b = true -> key_time_lt b a = false.
Proof.
  unfold key_time_lt. intros H. apply Z.ltb_lt in H. apply Z.ltb_ge. lia.
Qed.

(** X15.  [get_contexts_by_priority] returns exactly the stored items
    of at least the given priority, and [search_contexts] only stored
    items; both lists are in descending order of priority, the later
    item first among equal priorities. *)
Theorem priority_queries_sorted (now : datetime) (s : t) (m : Z)
    (query : string) (ty : option string) (tgs : option (list string)) :
  descending key_priority_time_lt (get_contexts_by_priority s m)
  /\ (forall c, In c (get_contexts_by_priority s m)
                <-> In c (Py.values (contexts s)) /\ m <= priority c)
  /\ descending key_priority_time_lt
       (search_contexts now s query ty tgs)
  /\ (forall c, In c (search_contexts now s query ty tgs) ->
                In c (Py.values (contexts s))).
Proof.
  split; [|split; [|split]].
  - apply sorted_desc_descending;
      [exact priority_time_trans | exact priority_time_asym].
  - intros c. unfold get_contexts_by_priority.
    rewrite sorted_desc_in, filter_In, Z.leb_le. reflexivity.
  - apply sorted_desc_descending;
      [exact priority_time_trans | exact priority_time_asym].
  - intros c. unfold search_contexts. cbv zeta.
    rewrite sorted_desc_in, filter_In. tauto.
Qed.

(** X16.  [get_recent_contexts] returns stored items whose time lies
    after the cutoff, the latest first; a positive limit caps the
    number of items, and a limit of 0 caps nothing. *)
Theorem recent_contexts_spec (now : datetime) (s : t) (hrs : Z)
    (limit : option Z) :
  (forall c, In c (get_recent_contexts now s hrs limit) ->
             In c (Py.values (contexts s))
             /\ now - hours hrs < timestamp c)
  /\ descending key_time_lt
       (get_recent_contexts now s hrs limit)
  /\ (forall k, limit = Some k -> 0 < k ->
        Z.of_nat (List.length (get_recent_contexts now s hrs limit)) <= k)
  /\ get_recent_contexts now s hrs (Some 0)
     = get_recent_contexts now s hrs None.
Proof.
  assert (Hd : descending key_time_lt
                 (Py.sorted_desc key_time_lt
                    (filter (fun c => now - hours hrs <? timestamp c)
                            (Py.values (contexts s)))))
    by (apply sorted_desc_descending; [exact time_trans | exact time_asym]).
  assert (Hin : forall c,
             In c (Py.sorted_desc key_time_lt
                     (filter (fun c => now - hours hrs <? timestamp c)
                             (Py.values (contexts s)))) ->
             In c (Py.values (contexts s)) /\ now - hours hrs < timestamp c).
  { intros c. rewrite sorted_desc_in, filter_In, Z.ltb_lt. tauto. }
  split; [|split; [|split; [|reflexivity]]].
  - intros c. unfold get_recent_contexts. cbv zeta.
    destruct limit as [[|k|k]|]; try apply Hin;
      unfold PyStr.list_slice_to; cbv zeta; intros H;
      apply Hin; eapply firstn_in; exact H.
  - unfold get_recent_contexts. cbv zeta.
    destruct limit as [[|k|k]|]; try exact Hd;
      unfold PyStr.list_slice_to; cbv zeta; now apply firstn_descending.
  - intros k -> Hk. unfold get_recent_contexts. cbv zeta.
    destruct k as [|k|k]; try lia.
    unfold PyStr.list_slice_to. cbv zeta.
    rewrite length_firstn.
    change (Z.pos k <? 0) with false. cbv iota. lia.
Qed.

Lemma window_fill_prefix (l : list ContextItem) (limit current : Z) :
  exists rest,
    l = window_fill limit current l ++ rest
    /\ match rest with
       | [] => True
       | c :: _ =>
           limit < current + total_tokens (window_fill limit current l)
                   + token_count c
       end.
Proof.
  revert current. induction l as [|c l IH]; intros current; simpl.
  - exists []. split; [reflexivity | exact I].
  - destruct (current + token_count c <=? limit) eqn:E.
    + destruct (IH (current + token_count c)) as [rest [Hr Hm]].
      exists rest. split; [simpl; now rewrite <- Hr|].
      destruct rest as [|c' rest]; [exact I|].
      unfold total_tokens, Py.sum in *. simpl. lia.
    + exists (c :: l). split; [reflexivity|].
      apply Z.leb_gt in E. unfold total_tokens, Py.sum. simpl. lia.
Qed.

(** X17.  [estimate_context_items_fit] selects a beginning of the
    items in descending order of priority and time, and stops at the
    first item that does not fit: that item, if there is one, would
    take the total above the tokens available; when the tokens
    available are not negative, the total reported is within them. *)
Theorem estimate_fit_is_greedy_prefix (self : ContextWindow.t)
    (items : list ContextItem) (reserved : Z) :
  let available :=
    ContextWindow.max_tokens self - ContextWindow.response_buffer self
    - reserved in
  let selected :=
    fst (ContextWindow.estimate_context_items_fit self items reserved) in
  let used :=
    snd (ContextWindow.estimate_context_items_fit self items reserved) in
  (exists rest,
     Py.sorted_desc key_priority_time_lt items = selected ++ rest
     /\ match rest with
        | [] => True
        | c :: _ => available < used + token_count c
        end)
  /\ (0 <= available -> used <= available)
  /\ descending key_priority_time_lt selected.
Proof.
  cbv zeta. unfold ContextWindow.estimate_context_items_fit. simpl.
  set (available :=
         ContextWindow.max_tokens self - ContextWindow.response_buffer self
         - reserved).
  set (sorted := Py.sorted_desc key_priority_time_lt items).
  destruct (window_fill_prefix sorted available 0) as [rest [Hr Hm]].
  split; [|split].
  - exists rest. split; [exact Hr|].
    destruct rest as [|c rest]; [exact I | lia].
  - intros H.
    pose proof (StoreProperties.window_fill_bounded sorted available 0 H).
    lia.
  - assert (Hd : descending key_priority_time_lt sorted)
      by (apply sorted_desc_descending;
          [exact priority_time_trans | exact priority_time_asym]).
    rewrite Hr in Hd. unfold descending in *.
    revert Hd. generalize (window_fill available 0 sorted). clear.
    intros l. induction l as [|x l IH]; simpl; intros H; [constructor|].
    apply StronglySorted_inv in H. destruct H as [Hs Hf].
    constructor; [now apply IH|].
    apply Forall_forall. intros z Hz. rewrite Forall_forall in Hf.
    apply Hf. apply in_or_app. now left.
Qed.

End IndexProperties.

(* ================================================================== *)
(** ** Further properties of the optimizer *)

Module OptimizerProperties.
Import ContextOptimizer OptimizerSpec MoreSpec ListFacts OptimizerFacts.

Lemma derived_refl (c : ContextItem) : derived_from c c.
Proof. now repeat split. Qed.

Lemma derived_trans (x y z : ContextItem) :
  derived_from x y -> derived_from y z -> derived_from x z.
Proof.
  unfold derived_from. intros (A1 & A2 & A3 & A4 & A5) (B1 & B2 & B3 & B4 & B5).
  repeat split; congruence.
Qed.

Lemma fill_until_in (l : list ContextItem) (target current : Z)
    (x : ContextItem) :
  In x (fill_until target current l) -> In x l.
Proof.
  intros H. destruct (StoreFacts.fill_until_prefix l target current) as [r E].
  rewrite E. apply in_or_app. now left.
Qed.

Lemma descending_app (A : Type) (lt : A -> A -> bool) (l1 l2 : list A) :
  descending lt (l1 ++ l2) ->
  forall x y, In x l1 -> In y l2 -> lt x y = false.
Proof.
  unfold descending. induction l1 as [|a l1 IH]; simpl; intros H x y Hx Hy;
    [contradiction|].
  apply StronglySorted_inv in H. destruct H as [Hs Hf].
  destruct Hx as [<-|Hx].
  - rewrite Forall_forall in Hf. apply Hf. apply in_or_app. now right.
  - now apply IH.
Qed.

Lemma max_by_in (A : Type) (lt : A -> A -> bool) (l : list A) (x : A) :
  In (Py.max_by lt x l) (x :: l).
Proof.
  unfold Py.max_by. revert x. induction l as [|y l IH]; intros x; simpl.
  - now left.
  - destruct (lt x y).
    + right. apply IH.
    + destruct (IH x) as [H|H]; [now left | right; now right].
Qed.

Section Groups.
(** The items the groups are drawn from. *)
Variable universe : list ContextItem.

Lemma group_add_keys (k : string) (c : ContextItem)
    (groups : list (string * list ContextItem)) (k' : string) :
  In k' (map fst (group_add k c groups)) ->
  k' = k \/ In k' (map fst groups).
Proof.
  induction groups as [|[k2 g2] groups IH]; simpl.
  - intros [H|[]]. now left.
  - destruct (String.eqb k k2); simpl.
    + tauto.
    + intros [H|H]; [tauto|]. destruct (IH H); tauto.
Qed.

Lemma group_add_ok (c : ContextItem)
    (groups : list (string * list ContextItem)) :
  In c universe -> groups_ok universe groups ->
  groups_ok universe (group_add (group_key c) c groups).
Proof.
  intros Hc. induction groups as [|[k2 g2] groups IH]; intros [Hnd Hg].
  - simpl. split.
    + constructor; [intros [] | constructor].
    + intros k g [H|[]]. injection H as <- <-. split; [discriminate|].
      intros c' [<-|[]]. now split.
  - simpl in Hnd. inversion Hnd as [|? ? Hnotin Hnd']; subst.
    assert (Hrest : groups_ok universe groups).
    { split; [exact Hnd'|]. intros k g Hin. apply Hg. now right. }
    simpl. destruct (String.eqb (group_key c) k2) eqn:E.
    + apply String.eqb_eq in E. split; [exact Hnd|].
      intros k g [H|H].
      * injection H as <- <-. split; [now destruct g2|].
        intros c' Hc'. apply in_app_or in Hc'.
        destruct Hc' as [Hc'|[<-|[]]]; [|now split].
        apply (Hg k2 g2); [now left | exact Hc'].
      * apply Hg. now right.
    + apply String.eqb_neq in E. destruct (IH Hrest) as [Hnd2 Hg2]. split.
      * simpl. constructor; [|exact Hnd2].
        intros H. apply group_add_keys in H. destruct H as [H|H];
          [now apply E | now apply Hnotin].
      * intros k g [H|H]; [apply Hg; now left | now apply Hg2].
Qed.

Lemma fold_groups_ok (l : list ContextItem)
    (groups : list (string * list ContextItem)) :
  (forall c, In c l -> In c universe) -> groups_ok universe groups ->
  groups_ok universe
    (fold_left (fun groups c => group_add (group_key c) c groups) l groups).
Proof.
  revert groups. induction l as [|c l IH]; intros groups Hl Hg; simpl;
    [exact Hg|].
  apply IH; [intros c' Hc'; apply Hl; now right|].
  apply group_add_ok; [apply Hl; now left | exact Hg].
Qed.

Lemma best_keys (groups : list (string * list ContextItem)) :
  groups_ok universe groups ->
  map group_key (flat_map best_of (map snd groups)) = map fst groups
  /\ forall x, In x (flat_map best_of (map snd groups)) -> In x universe.
Proof.
  induction groups as [|[k g] groups IH]; intros [Hnd Hg]; simpl;
    [split; [reflexivity | tauto]|].
  simpl in Hnd. inversion Hnd as [|? ? Hnotin Hnd']; subst.
  destruct IH as [IH1 IH2].
  { split; [exact Hnd'|]. intros k' g' Hin. apply Hg. now right. }
  destruct (Hg k g (or_introl eq_refl)) as [Hne Hmem].
  destruct g as [|c rest]; [congruence|]. simpl.
  destruct (Hmem _ (max_by_in _ key_best_lt rest c)) as [Hk Hu].
  split.
  - now rewrite Hk, IH1.
  - intros x [<-|Hx]; [exact Hu | now apply IH2].
Qed.

End Groups.

Section WithOptimizer.
Variable self : t.
Variable now : datetime.

Lemma relevance_fill_in (l : list ContextItem) (target current : Z)
    (x : ContextItem) :
  In x (relevance_fill self target current l) -> In x l.
Proof.
  revert current. induction l as [|c l IH]; intros current; simpl; [tauto|].
  destruct (PyFloat.leb _ _ && (current + token_count c <=? target)).
  - destruct (target <=? current + token_count c); simpl.
    + intros [H|[]]. now left.
    + intros [H|H]; [now left | right; now apply IH in H].
  - destruct (target <=? current); simpl; [tauto|].
    intros H. right. now apply IH in H.
Qed.

Lemma compression_fill_origin (l : list ContextItem) (target current : Z)
    (x : ContextItem) :
  In x (compression_fill self target current l) ->
  exists c, In c l /\ derived_from x c.
Proof.
  revert current. induction l as [|c l IH]; intros current; simpl; [tauto|].
  destruct (current + token_count c <=? target).
  - intros [<-|H].
    + exists c. split; [now left | apply derived_refl].
    + apply IH in H. destruct H as [c' [Hc' Hd]]. exists c'.
      split; [now right | exact Hd].
  - destruct (100 <? target - current); [|intros []].
    destruct (nonempty _); [|intros []].
    intros [<-|[]]. exists c. split; [now left | now repeat split].
Qed.

Lemma try_compress_derived (c r : ContextItem) (n : Z) :
  _try_compress_context self c n = Some r -> derived_from r c.
Proof.
  unfold _try_compress_context.
  destruct (n <? 50); [discriminate|].
  destruct (nonempty _); [|discriminate].
  intros H. injection H as <-. now repeat split.
Qed.

Lemma hybrid_fill_origin (l : list ContextItem) (remaining current : Z)
    (x : ContextItem) :
  In x (hybrid_fill self remaining current l) ->
  exists c, In c l /\ derived_from x c /\ priority c - 1 <= priority x.
Proof.
  revert current. induction l as [|c l IH]; intros current; simpl; [tauto|].
  destruct (current + token_count c <=? remaining).
  - intros [<-|H].
    + exists c. split; [now left|]. split; [apply derived_refl | lia].
    + apply IH in H. destruct H as [c' [Hc' Hd]]. exists c'.
      split; [now right | exact Hd].
  - destruct (100 <? remaining - current).
    + destruct (_try_compress_context self c (remaining - current))
        as [r|] eqn:E; [|intros []].
      intros [<-|[]]. exists c. split; [now left|].
      split; [now apply try_compress_derived in E|].
      unfold _try_compress_context in E.
      destruct (remaining - current <? 50); [discriminate|].
      destruct (nonempty _); [|discriminate].
      injection E as <-. simpl. lia.
    + intros H. apply IH in H. destruct H as [c' [Hc' Hd]]. exists c'.
      split; [now right | exact Hd].
Qed.

Lemma hybrid_origin (contexts : list ContextItem) (target : Z)
    (x : ContextItem) :
  In x (_optimize_hybrid self now contexts target) ->
  exists c, In c (_filter_active_contexts self now contexts)
            /\ derived_from x c /\ priority c - 1 <= priority x.
Proof.
  unfold _optimize_hybrid. cbv zeta.
  set (active := _filter_active_contexts self now contexts).
  assert (Hsys : In x (filter (fun c => String.eqb (type c) "system") active)
                 -> exists c, In c active /\ derived_from x c
                              /\ priority c - 1 <= priority x).
  { intros H. apply filter_In in H. exists x.
    split; [tauto|]. split; [apply derived_refl | lia]. }
  destruct (_ <=? 0); [exact Hsys|].
  intros H. apply in_app_or in H. destruct H as [H|H]; [now apply Hsys|].
  apply hybrid_fill_origin in H. destruct H as [c [Hc [Hd Hp]]].
  unfold _calculate_composite_scores in Hc.
  apply sorted_desc_in, in_map_iff in Hc. destruct Hc as [c0 [<- Hc0]].
  apply filter_In in Hc0. exists c0. split; [tauto|]. split.
  - apply (derived_trans _ _ _ Hd). now repeat split.
  - exact Hp.
Qed.

Lemma semantic_in (contexts : list ContextItem) (target : Z) :
  NoDup (map group_key (_optimize_by_semantic_grouping contexts target))
  /\ forall x, In x (_optimize_by_semantic_grouping contexts target) ->
               In x contexts.
Proof.
  unfold _optimize_by_semantic_grouping, _group_contexts_semantically.
  cbv zeta.
  set (groups := fold_left _ contexts []).
  assert (Hok : groups_ok contexts groups).
  { apply fold_groups_ok; [tauto|]. split; [constructor | intros k g []]. }
  destruct (best_keys contexts groups Hok) as [Hk Hu].
  set (ordered := Py.sorted_desc _ (map snd groups)).
  assert (Hp : Permutation (flat_map best_of (map snd groups))
                           (flat_map best_of ordered))
    by (apply Permutation_flat_map, sorted_desc_perm).
  destruct (StoreFacts.fill_until_prefix (flat_map best_of ordered) target 0)
    as [rest E].
  split.
  - assert (Hnd : NoDup (map group_key (flat_map best_of ordered))).
    { apply (Permutation_NoDup (Permutation_map group_key Hp)).
      rewrite Hk. apply Hok. }
    rewrite E, map_app in Hnd. now apply NoDup_app_remove_r in Hnd.
  - intros x Hx. apply fill_until_in in Hx.
    apply Hu. apply (Permutation_in x (Permutation_sym Hp)). exact Hx.
Qed.

End WithOptimizer.

(** X18.  [_optimize_by_priority] and [_optimize_by_recency] keep the
    best and drop the rest: the items split into the kept ones and the
    dropped ones, and no kept item is below a dropped one in the key of
    the strategy (priority, then time; time alone). *)
Theorem single_key_strategies_keep_the_best (contexts : list ContextItem)
    (target : Z) :
  (exists dropped,
     Permutation contexts (_optimize_by_priority contexts target ++ dropped)
     /\ forall x y, In x (_optimize_by_priority contexts target) ->
                    In y dropped -> key_priority_time_lt x y = false)
  /\ (exists dropped,
        Permutation contexts (_optimize_by_recency contexts target ++ dropped)
        /\ forall x y, In x (_optimize_by_recency contexts target) ->
                       In y dropped -> key_time_lt x y = false).
Proof.
  split.
  - unfold _optimize_by_priority.
    destruct (StoreFacts.fill_until_prefix
                (Py.sorted_desc key_priority_time_lt contexts) target 0)
      as [rest E].
    exists rest. split.
    + rewrite <- E. apply sorted_desc_perm.
    + apply descending_app. rewrite <- E.
      apply IndexProperties.sorted_desc_descending;
        [exact IndexProperties.priority_time_trans
        | exact IndexProperties.priority_time_asym].
  - unfold _optimize_by_recency.
    destruct (StoreFacts.fill_until_prefix
                (Py.sorted_desc key_time_lt contexts) target 0)
      as [rest E].
    exists rest. split.
    + rewrite <- E. apply sorted_desc_perm.
    + apply descending_app. rewrite <- E.
      apply IndexProperties.sorted_desc_descending;
        [exact IndexProperties.time_trans | exact IndexProperties.time_asym].
Qed.

(** X19.  Whatever the strategy, [optimize_contexts] invents no item:
    every item it returns has the identifier, type, time, expiry and
    metadata of one of the items it was given. *)
Theorem optimize_invents_nothing (self : t) (now : datetime)
    (contexts : list ContextItem) (tgt : option Z) (strategy : string)
    (x : ContextItem) :
  In x (optimize self now contexts tgt strategy) ->
  exists c, In c contexts /\ derived_from x c.
Proof.
  rewrite optimize_unfold.
  destruct (_ <=? _).
  { intros H. exists x. split; [exact H | apply derived_refl]. }
  unfold run_strategy.
  destruct (String.eqb strategy "priority_based").
  { intros H. apply fill_until_in, sorted_desc_in in H.
    exists x. split; [exact H | apply derived_refl]. }
  destruct (String.eqb strategy "recency_based").
  { intros H. apply fill_until_in, sorted_desc_in in H.
    exists x. split; [exact H | apply derived_refl]. }
  destruct (String.eqb strategy "relevance_based").
  { intros H. apply relevance_fill_in, sorted_desc_in in H.
    unfold _update_relevance_scores in H. apply in_map_iff in H.
    destruct H as [c [<- Hc]]. exists c. split; [exact Hc|].
    now repeat split. }
  destruct (String.eqb strategy "compression").
  { intros H. apply compression_fill_origin in H.
    destruct H as [c [Hc Hd]]. apply sorted_desc_in in Hc. now exists c. }
  destruct (String.eqb strategy "semantic_grouping").
  { intros H. apply (semantic_in contexts) in H.
    exists x. split; [exact H | apply derived_refl]. }
  intros H. apply hybrid_origin in H. destruct H as [c [Hc [Hd _]]].
  apply filter_In in Hc. exists c. tauto.
Qed.

Lemma item_A_selected :
  In Examples.item_A
     (optimize Examples.scenario_optimizer 10
        [Examples.item_A; Examples.item_B; Examples.item_C] (Some 1000)
        "hybrid").
Proof. vm_compute. left. reflexivity. Qed.

Lemma optimize_invents_nothing_witness :
  exists c, In c [Examples.item_A; Examples.item_B; Examples.item_C]
            /\ derived_from Examples.item_A c.
Proof.
  exact (optimize_invents_nothing Examples.scenario_optimizer 10
           [Examples.item_A; Examples.item_B; Examples.item_C] (Some 1000)
           "hybrid" Examples.item_A item_A_selected).
Defined.

(** X20.  [_optimize_hybrid] returns no expired item, and no item
    that is older than [max_age_hours] unless it is a system item or
    stands for an item of priority 8 or more. *)
Theorem hybrid_returns_live_items (self : t) (now : datetime)
    (contexts : list ContextItem) (target : Z) (x : ContextItem) :
  In x (_optimize_hybrid self now contexts target) ->
  is_expired now x = false
  /\ (hours (max_age_hours (config self)) < now - timestamp x ->
      type x = "system"%string \/ 7 <= priority x).
Proof.
  intros H.
  destruct (hybrid_origin self now contexts target x H)
    as [c [Hc [(_ & Hty & Hts & Hex & _) Hp]]].
  apply filter_In in Hc. destruct Hc as [_ Hc].
  apply andb_prop in Hc. destruct Hc as [Hlive Hold].
  split.
  - unfold is_expired in *. rewrite Hex.
    now apply negb_true_iff in Hlive.
  - intros Hage. rewrite Hts in Hage.
    destruct (String.eqb (type c) "system") eqn:Es.
    + left. apply String.eqb_eq in Es. congruence.
    + right. simpl in Hold.
      destruct (priority c <? 8) eqn:Ep.
      * simpl in Hold. apply negb_true_iff, Z.ltb_ge in Hold. lia.
      * apply Z.ltb_ge in Ep. lia.
Qed.

(** Read at [late], of three items written at time 0 hybrid drops
    the expired one and the old one of priority 3, and returns the old
    one of priority 9, whose expiry is still to come. *)
Lemma old_items_filtered :
  _optimize_hybrid Examples.scenario_optimizer MoreExamples.late
    [MoreExamples.item_gone; MoreExamples.item_old_minor;
     MoreExamples.item_old_key] 1000
  = [MoreExamples.item_old_key_scored]
  /\ is_expired MoreExamples.late MoreExamples.item_gone = true
  /\ hours (max_age_hours (config Examples.scenario_optimizer))
     < MoreExamples.late - timestamp MoreExamples.item_old_key_scored.
Proof. repeat split; vm_compute; reflexivity. Qed.

Lemma old_key_returned :
  In MoreExamples.item_old_key_scored
     (_optimize_hybrid Examples.scenario_optimizer MoreExamples.late
        [MoreExamples.item_gone; MoreExamples.item_old_minor;
         MoreExamples.item_old_key] 1000).
Proof. rewrite (proj1 old_items_filtered). left. reflexivity. Qed.

Lemma hybrid_returns_live_items_witness :
  is_expired MoreExamples.late MoreExamples.item_old_key_scored = false
  /\ (hours (max_age_hours (config Examples.scenario_optimizer))
      < MoreExamples.late - timestamp MoreExamples.item_old_key_scored ->
      type MoreExamples.item_old_key_scored = "system"%string
      \/ 7 <= priority MoreExamples.item_old_key_scored).
Proof.
  exact (hybrid_returns_live_items Examples.scenario_optimizer
           MoreExamples.late
           [MoreExamples.item_gone; MoreExamples.item_old_minor;
            MoreExamples.item_old_key] 1000
           MoreExamples.item_old_key_scored old_key_returned).
Defined.

(** X21.  [_optimize_by_semantic_grouping] returns items it was given,
    at most one for each group of type and tags. *)
Theorem semantic_grouping_one_per_group
    (contexts : list ContextItem) (target : Z) :
  NoDup (map group_key (_optimize_by_semantic_grouping contexts target))
  /\ forall x, In x (_optimize_by_semantic_grouping contexts target) ->
               In x contexts.
Proof. apply semantic_in. Qed.

End OptimizerProperties.

(* ================================================================== *)
(** ** Further properties of the validator and the token counter *)

Module TextProperties.
Import MoreSpec PrefixFacts.

Lemma chars_str (l : list ascii) : PyStr.chars (PyStr.str l) = l.
Proof. apply list_ascii_of_string_of_list_ascii. Qed.

Lemma chars_app (a b : string) :
  PyStr.chars (String.append a b) = PyStr.chars a ++ PyStr.chars b.
Proof.
  unfold PyStr.chars. induction a as [|c a IH]; simpl; [reflexivity|].
  now rewrite IH.
Qed.

Lemma lower_upper_char (c : ascii) :
  PyStr.lower_char (PyStr.upper_char c) = PyStr.lower_char c.
Proof. destruct c as [[] [] [] [] [] [] [] []]; reflexivity. Qed.

Lemma lower_lower_char (c : ascii) :
  PyStr.lower_char (PyStr.lower_char c) = PyStr.lower_char c.
Proof. destruct c as [[] [] [] [] [] [] [] []]; reflexivity. Qed.

Section Folding.
(** A change of characters that case folding does not see. *)
Variable f : ascii -> ascii.
Hypothesis f_folds : forall c, PyStr.lower_char (f c) = PyStr.lower_char c.

Lemma prefix_of_fold (p l : list ascii) :
  PyStr.prefix_of true p (map f l) = PyStr.prefix_of true p l.
Proof.
  revert l. induction p as [|a p IH]; intros [|b l]; simpl; try reflexivity.
  unfold PyStr.ascii_eqb_ci. now rewrite f_folds, IH.
Qed.

Lemma contains_aux_fold (p l : list ascii) :
  PyStr.contains_aux true p (map f l) = PyStr.contains_aux true p l.
Proof.
  induction l as [|b l IH].
  - reflexivity.
  - change (map f (b :: l)) with (f b :: map f l).
    change (PyStr.contains_aux true p (f b :: map f l))
      with (PyStr.prefix_of true p (f b :: map f l)
            || PyStr.contains_aux true p (map f l)).
    change (PyStr.contains_aux true p (b :: l))
      with (PyStr.prefix_of true p (b :: l)
            || PyStr.contains_aux true p l).
    rewrite <- IH. f_equal.
    change (f b :: map f l) with (map f (b :: l)). apply prefix_of_fold.
Qed.

Lemma is_safe_fold (s : string) :
  Validator.is_safe_string (PyStr.str (map f (PyStr.chars s)))
  = Validator.is_safe_string s.
Proof.
  unfold Validator.is_safe_string. f_equal.
  induction Validator.dangerous_patterns as [|p ps IH]; [reflexivity|].
  simpl. rewrite IH. f_equal.
  unfold PyStr.search_ci. rewrite chars_str. apply contains_aux_fold.
Qed.

End Folding.

(** X22.  The safety check does not depend on the case of the text:
    a text, its upper-case form and its lower-case form are all safe
    or all unsafe. *)
Theorem is_safe_string_ignores_case (s : string) :
  Validator.is_safe_string (PyStr.upper s) = Validator.is_safe_string s
  /\ Validator.is_safe_string (PyStr.lower s) = Validator.is_safe_string s.
Proof.
  split.
  - apply (is_safe_fold PyStr.upper_char lower_upper_char).
  - apply (is_safe_fold PyStr.lower_char lower_lower_char).
Qed.

Lemma prefix_of_app (ci : bool) (p l b : list ascii) :
  PyStr.prefix_of ci p l = true -> PyStr.prefix_of ci p (l ++ b) = true.
Proof.
  revert l. induction p as [|a p IH]; intros [|c l]; simpl; try reflexivity;
    try discriminate.
  intros H. apply andb_prop in H. destruct H as [H1 H2].
  rewrite H1. now apply IH.
Qed.

Lemma contains_aux_app_r (ci : bool) (p l b : list ascii) :
  PyStr.contains_aux ci p l = true ->
  PyStr.contains_aux ci p (l ++ b) = true.
Proof.
  induction l as [|c l IH].
  - simpl. rewrite orb_false_r. intros H.
    destruct p; [|discriminate]. now destruct b.
  - change (PyStr.contains_aux ci p (c :: l))
      with (PyStr.prefix_of ci p (c :: l) || PyStr.contains_aux ci p l).
    change (PyStr.contains_aux ci p ((c :: l) ++ b))
      with (PyStr.prefix_of ci p ((c :: l) ++ b)
            || PyStr.contains_aux ci p (l ++ b)).
    intros H. apply orb_prop in H. destruct H as [H|H].
    + now rewrite (prefix_of_app ci p (c :: l) b H).
    + rewrite (IH H). apply orb_true_r.
Qed.

Lemma contains_aux_app_l (ci : bool) (p a l : list ascii) :
  PyStr.contains_aux ci p l = true ->
  PyStr.contains_aux ci p (a ++ l) = true.
Proof.
  intros H. induction a as [|c a IH]; [exact H|].
  change (PyStr.contains_aux ci p ((c :: a) ++ l))
    with (PyStr.prefix_of ci p ((c :: a) ++ l)
          || PyStr.contains_aux ci p (a ++ l)).
  rewrite IH. apply orb_true_r.
Qed.

(** X23.  A text the safety check rejects is rejected wherever it is
    embedded: no text before it or after it makes the whole safe. *)
Theorem unsafe_text_stays_unsafe (before s after : string) :
  Validator.is_safe_string s = false ->
  Validator.is_safe_string
    (String.append before (String.append s after)) = false.
Proof.
  unfold Validator.is_safe_string. intros H.
  apply negb_false_iff in H. apply negb_false_iff.
  apply existsb_exists in H. destruct H as [p [Hp H]].
  apply existsb_exists. exists p. split; [exact Hp|].
  unfold PyStr.search_ci in *. rewrite !chars_app.
  now apply contains_aux_app_l, contains_aux_app_r.
Qed.

Lemma unsafe_text_rejected :
  Validator.is_safe_string Examples.unsafe_text = false.
Proof. vm_compute. reflexivity. Qed.

Lemma unsafe_text_stays_unsafe_witness :
  Validator.is_safe_string
    (String.append "Please run: "
       (String.append Examples.unsafe_text " and reply.")) = false.
Proof.
  exact (unsafe_text_stays_unsafe "Please run: " Examples.unsafe_text
           " and reply." unsafe_text_rejected).
Defined.

(** X24.  [truncate_to_limit] cuts at the end only: its result is a
    beginning of the text, and it is the text itself whenever
    [check_within_limit] accepts the text. *)
Theorem truncate_to_limit_is_prefix (tk : TokenCounter.t) (text : string)
    (m : option string) (buffer : Z) :
  is_prefix (TokenCounter.truncate_to_limit tk text m buffer) text
  /\ (TokenCounterOps.check_within_limit tk text m buffer = true ->
      TokenCounter.truncate_to_limit tk text m buffer = text).
Proof.
  split; [apply truncate_to_limit_prefix|].
  unfold TokenCounter.truncate_to_limit, TokenCounterOps.check_within_limit.
  cbv zeta. intros H. now rewrite H.
Qed.

Lemma bsearch_within (tk : TokenCounter.t) (text : string) (limit : Z)
    (fuel : nat) (left right : Z) :
  TokenCounter.count_tokens tk (PyStr.slice_to left text) <= limit ->
  TokenCounter.count_tokens tk
    (PyStr.slice_to (TokenCounter.bsearch tk text limit fuel left right) text)
  <= limit.
Proof.
  revert left right. induction fuel as [|fuel IH]; intros left right H;
    simpl; [exact H|].
  destruct (left <? right); [|exact H].
  destruct (TokenCounter.count_tokens tk
              (PyStr.slice_to ((left + right + 1) / 2) text) <=? limit)
    eqn:E.
  - apply IH. now apply Z.leb_le.
  - now apply IH.
Qed.

(** X25.  With a counter that never counts more tokens in a beginning
    of a text than in the text, and a limit that is not negative, what
    [truncate_to_limit] returns passes [check_within_limit] for the
    same model and buffer. *)
Theorem truncate_then_check (tk : TokenCounter.t) (text : string)
    (m : option string) (buffer : Z) :
  prefix_monotone tk ->
  0 <= TokenCounter.get_model_limit tk m - buffer ->
  TokenCounterOps.check_within_limit tk
    (TokenCounter.truncate_to_limit tk text m buffer) m buffer = true.
Proof.
  intros Hmono Hlimit.
  unfold TokenCounterOps.check_within_limit. cbv zeta. apply Z.leb_le.
  unfold TokenCounter.truncate_to_limit. cbv zeta.
  set (limit := TokenCounter.get_model_limit tk m - buffer) in *.
  destruct (TokenCounter.count_tokens tk text <=? limit) eqn:E;
    [now apply Z.leb_le|].
  set (left := TokenCounter.bsearch tk text limit (String.length text) 0
                 (PyStr.len text)).
  assert (Hleft : TokenCounter.count_tokens tk (PyStr.slice_to left text)
                  <= limit).
  { apply bsearch_within.
    assert (E0 : PyStr.slice_to 0 text = EmptyString)
      by (unfold PyStr.slice_to; cbv zeta;
          change (0 <? 0) with false; cbv iota;
          replace (Z.to_nat (Z.min 0 (PyStr.len text))) with 0%nat
            by (unfold PyStr.len; lia);
          reflexivity).
    rewrite E0. exact Hlimit. }
  destruct (boundary_is_slice (PyStr.slice_to left text)) as [E1|[k E1]];
    rewrite E1; [exact Hleft|].
  pose proof (Hmono (PyStr.slice_to left text) k). lia.
Qed.

Lemma fallback_prefix_monotone : prefix_monotone TokenCounter.fallback.
Proof.
  intros text k.
  pose proof (WindowFacts.slice_to_length k text) as Hl.
  unfold TokenCounter.count_tokens. simpl TokenCounter.tokenizer.
  destruct (PyStr.slice_to k text) as [|c r] eqn:E.
  - destruct text; [lia|]. unfold TokenCounter.estimate. lia.
  - destruct text as [|c' text']; [simpl in Hl; lia|].
    unfold TokenCounter.estimate, PyStr.len.
    assert (Z.of_nat (String.length (String c r)) / 4
            <= Z.of_nat (String.length (String c' text')) / 4)
      by (apply Z.div_le_mono; lia).
    lia.
Qed.

Lemma fallback_limit :
  0 <= TokenCounter.get_model_limit TokenCounter.fallback None - 199990.
Proof. vm_compute. discriminate. Qed.

Lemma truncate_then_check_witness :
  TokenCounterOps.check_within_limit TokenCounter.fallback
    (TokenCounter.truncate_to_limit TokenCounter.fallback
       Examples.long_text None 199990) None 199990 = true.
Proof.
  exact (truncate_then_check TokenCounter.fallback Examples.long_text None
           199990 fallback_prefix_monotone fallback_limit).
Defined.

End TextProperties.

(* ================================================================== *)
(** ** Further properties of the window and of saving *)

Module WindowProperties.
Import ContextWindow WindowSpec WindowFacts ListFacts.

Lemma optional_fill_fits (self : t) (max_tokens : Z)
    (l : list WindowSection) (current : Z) :
  (forall s, In s l ->
     PyStr.len (sec_content s) < 2 ^ 53 /\ required s = false) ->
  current <= max_tokens ->
  exists extra,
    optional_fill self max_tokens current l = Returns extra
    /\ current + Py.sum sec_token_count extra <= max_tokens
    /\ Forall (fun o => required o = false) extra.
Proof.
  revert current. induction l as [|s l IH]; intros current Hl Hc.
  - exists []. simpl. split; [reflexivity|]. split; [|constructor].
    unfold Py.sum. simpl. lia.
  - cbn [optional_fill].
    destruct (current + sec_token_count s <=? max_tokens) eqn:E.
    + apply Z.leb_le in E.
      destruct (IH (current + sec_token_count s)) as [extra [Hr [Hs Hf]]];
        [intros s' Hs'; apply Hl; now right | exact E |].
      rewrite Hr. exists (s :: extra). split; [reflexivity|]. split.
      * unfold Py.sum in *. simpl. lia.
      * constructor; [apply Hl; now left | exact Hf].
    + apply Z.leb_gt in E. cbv zeta.
      destruct (100 <? max_tokens - current) eqn:E2.
      * apply Z.ltb_lt in E2.
        destruct (truncate_section_returns self s (max_tokens - current))
          as [out [Hr Hq]]; [apply Hl; now left | lia |].
        rewrite Hr. unfold shrunk_to_quota in Hq.
        assert (H1 : (max_tokens - current <? sec_token_count s) = true)
          by (apply Z.ltb_lt; lia).
        assert (H2 : (max_tokens - current <? 50) = false)
          by (apply Z.ltb_ge; lia).
        rewrite H1, H2 in Hq.
        destruct Hq as [text [_ [Hle ->]]].
        exists [truncated_section self s text]. split; [reflexivity|]. split.
        -- unfold Py.sum. simpl. lia.
        -- constructor; [|constructor]. simpl. apply Hl. now left.
      * exists []. split; [reflexivity|]. split; [|constructor].
        unfold Py.sum. simpl. lia.
Qed.

(** X26.  When the required sections fit, [_optimize_sections]
    returns: all required sections, as they are and in their order,
    followed by optional sections only; the recorded sizes of what it
    returns add up to at most the limit.  (Contents are shorter than
    [2^53] characters.) *)
Theorem optional_sections_fit (self : t) (sections : list WindowSection)
    (max_tokens : Z) :
  (forall s, In s sections -> PyStr.len (sec_content s) < 2 ^ 53) ->
  Py.sum sec_token_count (filter required sections) <= max_tokens ->
  exists extra,
    _optimize_sections self sections max_tokens
    = Returns (filter required sections ++ extra)
    /\ Py.sum sec_token_count (filter required sections ++ extra)
       <= max_tokens
    /\ Forall (fun o => required o = false) extra.
Proof.
  intros Hlen Hfit. unfold _optimize_sections. cbv zeta.
  destruct (max_tokens <? _) eqn:E; [apply Z.ltb_lt in E; lia|].
  destruct (optional_fill_fits self max_tokens
              (Py.sorted_desc (fun a b => sec_priority a <? sec_priority b)
                 (filter (fun s => negb (required s)) sections))
              (Py.sum sec_token_count (filter required sections)))
    as [extra [Hr [Hs Hf]]].
  - intros s Hs. apply sorted_desc_in, filter_In in Hs.
    destruct Hs as [Hin Hreq]. split; [now apply Hlen|].
    now apply negb_true_iff in Hreq.
  - exact Hfit.
  - rewrite Hr. exists extra. split; [reflexivity|].
    split; [|exact Hf]. rewrite sum_app. exact Hs.
Qed.

Lemma fitting_sections_short (s : WindowSection) :
  In s [Examples.section_900 "system" 10 true; Examples.section_optional] ->
  PyStr.len (sec_content s) < 2 ^ 53.
Proof.
  intros [<-|[<-|[]]];
    [rewrite WindowClaims.section_900_length | vm_compute]; reflexivity.
Qed.

Lemma fitting_sections_fit :
  Py.sum sec_token_count
    (filter required
       [Examples.section_900 "system" 10 true; Examples.section_optional])
  <= 1000.
Proof. vm_compute. discriminate. Qed.

Lemma optional_sections_fit_witness :
  exists extra,
    _optimize_sections Examples.window
      [Examples.section_900 "system" 10 true; Examples.section_optional]
      1000
    = Returns
        (filter required
           [Examples.section_900 "system" 10 true; Examples.section_optional]
         ++ extra)
    /\ Py.sum sec_token_count
         (filter required
            [Examples.section_900 "system" 10 true;
             Examples.section_optional]
          ++ extra)
       <= 1000
    /\ Forall (fun o => required o = false) extra.
Proof.
  exact (optional_sections_fit Examples.window
           [Examples.section_900 "system" 10 true; Examples.section_optional]
           1000 fitting_sections_short fitting_sections_fit).
Defined.

Lemma section_priority_bounds (k : string) (p : Z) :
  Py.get k section_priorities = Some p -> 1 <= p <= 10.
Proof.
  unfold section_priorities. simpl.
  repeat match goal with
         | |- context [String.eqb k ?x] => destruct (String.eqb k x)
         end;
    intros H; try discriminate H; injection H as <-; lia.
Qed.

Lemma window_sections_spec (self : t) (sections : Py.dict string)
    (req : option (list string)) (s : WindowSection) :
  In s (window_sections self sections req) ->
  1 <= sec_priority s
  /\ exists kv, In kv sections /\ sec_content s = snd kv.
Proof.
  unfold window_sections. cbv zeta. intros H. apply in_map_iff in H.
  destruct H as [kv [<- Hin]]. cbn [sec_priority sec_content]. split.
  - destruct (Py.get (fst kv) section_priorities) as [p|] eqn:E; [|lia].
    now apply section_priority_bounds in E.
  - now exists kv.
Qed.

Lemma priority_sum_positive (l : list WindowSection) :
  l <> [] -> (forall s, In s l -> 1 <= sec_priority s) ->
  0 < Py.sum sec_priority l.
Proof.
  intros Hne H. destruct l as [|x l]; [congruence|].
  assert (0 <= Py.sum sec_priority l).
  { apply sum_nonneg. intros y Hy.
    assert (1 <= sec_priority y) by (apply H; now right). lia. }
  assert (1 <= sec_priority x) by (apply H; now left).
  unfold Py.sum in *. simpl. lia.
Qed.

(** X29.  [build_window] always returns a window when the contents
    are shorter than [2^53] characters: the priorities it assigns are
    at least 1, so the proportional split never divides by zero, and
    every truncation loop it starts ends. *)
Theorem build_window_returns (self : t) (sections : Py.dict string)
    (req : option (list string)) :
  (forall kv, In kv sections -> PyStr.len (snd kv) < 2 ^ 53) ->
  exists text, build_window self sections req = Returns text.
Proof.
  intros Hlen. unfold build_window. cbv zeta.
  set (ws := window_sections self sections req).
  assert (Hws : forall s, In s ws ->
                  1 <= sec_priority s /\ PyStr.len (sec_content s) < 2 ^ 53).
  { intros s Hs. apply window_sections_spec in Hs.
    destruct Hs as [Hp [kv [Hin ->]]]. split; [exact Hp | now apply Hlen]. }
  unfold _optimize_sections. cbv zeta.
  destruct (_ <? _) eqn:E.
  - unfold _truncate_sections.
    destruct (filter required ws) as [|w l] eqn:Ef.
    + simpl. eexists. reflexivity.
    + destruct (truncate_each_returns self
                  (max_tokens self - response_buffer self)
                  (Py.sum sec_priority (w :: l)) (w :: l))
        as [parts [Hr _]].
      * assert (0 < Py.sum sec_priority (w :: l)); [|lia].
        apply priority_sum_positive; [discriminate|].
        intros s Hs. rewrite <- Ef in Hs. apply filter_In in Hs.
        now apply Hws.
      * intros s Hs. rewrite <- Ef in Hs. apply filter_In in Hs.
        now apply Hws.
      * rewrite Hr. simpl. eexists. reflexivity.
  - apply Z.ltb_ge in E.
    destruct (optional_fill_fits self
                (max_tokens self - response_buffer self)
                (Py.sorted_desc (fun a b => sec_priority a <? sec_priority b)
                   (filter (fun s => negb (required s)) ws))
                (Py.sum sec_token_count (filter required ws)))
      as [extra [Hr _]].
    + intros s Hs. apply sorted_desc_in, filter_In in Hs.
      destruct Hs as [Hin Hreq]. split; [now apply Hws|].
      now apply negb_true_iff in Hreq.
    + exact E.
    + rewrite Hr. simpl. eexists. reflexivity.
Qed.

Lemma short_sections (kv : string * string) :
  In kv [("system"%string, "Be brief."%string);
         ("notes"%string, "Nothing yet."%string)] ->
  PyStr.len (snd kv) < 2 ^ 53.
Proof. intros [<-|[<-|[]]]; vm_compute; reflexivity. Qed.

(** With [notes] named as the one required section, it is the
    section marked required. *)
Lemma notes_required :
  map (fun s => (name s, required s))
      (window_sections Examples.window
         [("system"%string, "Be brief."%string);
          ("notes"%string, "Nothing yet."%string)]
         (Some ["notes"%string]))
  = [("system"%string, false); ("notes"%string, true)].
Proof. vm_compute. reflexivity. Qed.

Lemma build_window_returns_witness :
  exists text,
    build_window Examples.window
      [("system"%string, "Be brief."%string);
       ("notes"%string, "Nothing yet."%string)] (Some ["notes"%string])
    = Returns text.
Proof.
  exact (build_window_returns Examples.window
           [("system"%string, "Be brief."%string);
            ("notes"%string, "Nothing yet."%string)]
           (Some ["notes"%string]) short_sections).
Defined.

End WindowProperties.

Module PersistenceProperties.
Import ContextManager Persistence StoreOps MoreSpec StoreFacts DictFacts.

Section RoundTrip.
Variable isoformat : datetime -> string.
Variable str_datetime : datetime -> string.
Variable fromisoformat : string -> option datetime.

Lemma strings_of_strs (l : list string) : strings_of (map JStr l) = Some l.
Proof. induction l as [|x l IH]; simpl; [reflexivity | now rewrite IH]. Qed.

Lemma ints_of_ints (d : Py.dict Z) :
  ints_of (map (fun kv => (fst kv, JInt (snd kv))) d) = Some d.
Proof.
  induction d as [|[k n] d IH]; simpl; [reflexivity | now rewrite IH].
Qed.

(** [from_dict] undoes [to_dict] on an item whose times are read back. *)
Lemma from_dict_to_dict (now : datetime) (fresh : string) (c : ContextItem) :
  fromisoformat (isoformat (timestamp c)) = Some (timestamp c) ->
  (forall e, expiry c = Some e ->
     isoformat e <> EmptyString /\ fromisoformat (isoformat e) = Some e) ->
  from_dict fromisoformat now fresh (to_dict isoformat c) = Value c.
Proof.
  destruct c as [i co ty pr ts me tc rs ex tg]. simpl. intros Ht He.
  unfold from_dict, to_dict. simpl. rewrite Ht. simpl.
  destruct ex as [e|]; simpl.
  - destruct (He e eq_refl) as [Hne Hp].
    destruct (isoformat e) as [|a r] eqn:Ei; [congruence|].
    rewrite Hp. simpl. now rewrite strings_of_strs.
  - now rewrite strings_of_strs.
Qed.

Lemma load_entries_saved (now : datetime) (fresh : nat -> string)
    (d : Py.dict ContextItem) (n : nat) (s0 : t) :
  (forall k c, In (k, c) d ->
     fromisoformat (isoformat (timestamp c)) = Some (timestamp c)
     /\ forall e, expiry c = Some e ->
          isoformat e <> EmptyString
          /\ fromisoformat (isoformat e) = Some e) ->
  NoDup (Py.keys (contexts s0) ++ Py.keys d) ->
  exists s1,
    load_entries fromisoformat now fresh n s0
      (map (fun kv => (fst kv, to_dict isoformat (snd kv))) d) = Value s1
    /\ contexts s1 = contexts s0 ++ d
    /\ context_order s1 = context_order s0
    /\ stats s1 = stats s0
    /\ agent_id s1 = agent_id s0 /\ max_tokens s1 = max_tokens s0.
Proof.
  revert n s0. induction d as [|[k c] d IH]; intros n s0 Hd Hnd.
  - exists s0. simpl. rewrite app_nil_r. now repeat split.
  - destruct (Hd k c (or_introl eq_refl)) as [Ht He].
    cbn [map load_entries fst snd].
    rewrite (from_dict_to_dict now (fresh n) c Ht He).
    assert (Hfresh : Py.has k (contexts s0) = false).
    { destruct (Py.has k (contexts s0)) eqn:E; [|reflexivity].
      apply (proj1 (has_keys _ k _)) in E. exfalso.
      assert (Hnd' := Hnd). unfold Py.keys in Hnd'. simpl in Hnd'.
      apply NoDup_remove_2 in Hnd'. apply Hnd'. apply in_or_app. now left. }
    destruct (IH (S n)
                (with_contexts s0 (Py.set k c (contexts s0)))) as [s1 H].
    + intros k' c' Hin. apply (Hd k' c'). now right.
    + simpl. rewrite (set_fresh _ _ _ _ Hfresh).
      unfold Py.keys in *. rewrite map_app. simpl. rewrite <- app_assoc.
      exact Hnd.
    + exists s1. destruct H as (H1 & H2 & H3 & H4 & H5 & H6).
      split; [exact H1|]. simpl in *.
      rewrite (set_fresh _ _ _ _ Hfresh), <- app_assoc in H2.
      now repeat split.
Qed.

Lemma fold_categorize (l : list ContextItem) (s : t) :
  contexts (fold_left _categorize_context l s) = contexts s
  /\ context_order (fold_left _categorize_context l s) = context_order s
  /\ stats (fold_left _categorize_context l s) = stats s.
Proof.
  revert s. induction l as [|c l IH]; intros s; simpl; [now repeat split|].
  destruct (IH (_categorize_context s c)) as (H1 & H2 & H3).
  rewrite H1, H2, H3. unfold _categorize_context.
  destruct (String.eqb (type c) "system"); [now repeat split|].
  destruct (String.eqb (type c) "user" || String.eqb (type c) "assistant");
    [now repeat split|].
  destruct (String.eqb (type c) "memory"); [now repeat split|].
  destruct (String.eqb (type c) "tool_result"); now repeat split.
Qed.

End RoundTrip.

(** X27.  Saving and loading is a round trip: a new manager that
    loads the document [save_context] wrote finds the same items under
    the same identifiers, the same insertion order and the same
    counts in its statistics, and reports success, provided that
    [fromisoformat] reads back the times [isoformat] wrote (none of
    them as an empty text) and the keys of the item map are unique. *)
Theorem save_then_load (isoformat str_datetime : datetime -> string)
    (fromisoformat : string -> option datetime) (now now' : datetime)
    (fresh : nat -> string) (tk : TokenCounter.t) (s : t) :
  NoDup (Py.keys (contexts s)) ->
  dates_round_trip isoformat fromisoformat s ->
  exists s',
    _load_context fromisoformat now' fresh
      (empty tk (agent_id s) (max_tokens s)) true
      (Some (context_data isoformat str_datetime now s))
    = Load true s'
    /\ contexts s' = contexts s
    /\ context_order s' = context_order s
    /\ total_items (stats s') = total_items (stats s)
    /\ stats_total_tokens (stats s') = stats_total_tokens (stats s)
    /\ items_by_type (stats s') = items_by_type (stats s).
Proof.
  intros Hnd Hdates.
  destruct (load_entries_saved isoformat fromisoformat now' fresh
              (contexts s) 0%nat
              (empty tk (agent_id s) (max_tokens s)) Hdates Hnd)
    as [s1 (H1 & H2 & H3 & H4 & _)].
  unfold _load_context, context_data. simpl.
  rewrite H1. unfold finish_load. simpl.
  rewrite strings_of_strs. unfold update_stat. simpl.
  rewrite ints_of_ints. simpl.
  eexists. split; [reflexivity|].
  match goal with
  | |- context [fold_left _categorize_context ?l ?x] =>
      destruct (fold_categorize l x) as (E1 & E2 & E3)
  end.
  rewrite E1, E2, E3. simpl. rewrite H2. now repeat split.
Qed.

Lemma store_mixed_dates :
  dates_round_trip MoreExamples.stamp_text MoreExamples.stamp_parse
    MoreExamples.store_mixed.
Proof.
  intros k c Hin. vm_compute in Hin.
  destruct Hin as [H|[H|[]]]; injection H as <- <-; split;
    try (vm_compute; reflexivity);
    intros e He; vm_compute in He; try discriminate He;
    injection He as <-; split; [discriminate | vm_compute; reflexivity].
Qed.

Lemma save_then_load_witness :
  exists s',
    _load_context MoreExamples.stamp_parse 20 Examples.fresh_ids
      (empty Examples.tk (agent_id MoreExamples.store_mixed)
         (max_tokens MoreExamples.store_mixed)) true
      (Some (context_data MoreExamples.stamp_text MoreExamples.stamp_text 10
               MoreExamples.store_mixed))
    = Load true s'
    /\ contexts s' = contexts MoreExamples.store_mixed
    /\ context_order s' = context_order MoreExamples.store_mixed
    /\ total_items (stats s') = total_items (stats MoreExamples.store_mixed)
    /\ stats_total_tokens (stats s')
       = stats_total_tokens (stats MoreExamples.store_mixed)
    /\ items_by_type (stats s')
       = items_by_type (stats MoreExamples.store_mixed).
Proof.
  exact (save_then_load MoreExamples.stamp_text MoreExamples.stamp_text
           MoreExamples.stamp_parse 10 20 Examples.fresh_ids Examples.tk
           MoreExamples.store_mixed StoreProperties.store_mixed_keys
           store_mixed_dates).
Defined.

End PersistenceProperties.

Module SearchProperties.
Import ContextManager MoreSpec TextProperties.

Lemma lower_upper (s : string) : PyStr.lower (PyStr.upper s) = PyStr.lower s.
Proof.
  unfold PyStr.lower, PyStr.upper. rewrite chars_str, map_map. f_equal.
  apply map_ext. exact lower_upper_char.
Qed.

Lemma lower_lower (s : string) : PyStr.lower (PyStr.lower s) = PyStr.lower s.
Proof.
  unfold PyStr.lower. rewrite chars_str, map_map. f_equal.
  apply map_ext. exact lower_lower_char.
Qed.

Lemma contains_empty (s : string) : PyStr.contains EmptyString s = true.
Proof. unfold PyStr.contains. now destruct (PyStr.chars s). Qed.

(** X28.  For a query of code points below 128, [search_contexts]
    does not depend on the case of the query; and the empty query
    finds every stored item that has not expired (of the type and tags
    asked for, here none). *)
Theorem search_ignores_query_case (now : datetime) (s : t) (query : string)
    (ty : option string) (tgs : option (list string)) :
  ascii_text query ->
  search_contexts now s (PyStr.upper query) ty tgs
  = search_contexts now s query ty tgs
  /\ search_contexts now s (PyStr.lower query) ty tgs
     = search_contexts now s query ty tgs
  /\ search_contexts now s EmptyString None None
     = Py.sorted_desc key_priority_time_lt
         (filter (fun c => negb (is_expired now c))
                 (Py.values (contexts s))).
Proof.
  intros _. unfold search_contexts. cbv zeta.
  rewrite lower_upper, lower_lower. split; [reflexivity|].
  split; [reflexivity|]. f_equal. apply filter_ext. intros c.
  change (PyStr.lower EmptyString) with EmptyString.
  rewrite contains_empty. now destruct (is_expired now c).
Qed.

Lemma lunch_is_ascii : ascii_text "Lunch".
Proof. unfold ascii_text. vm_compute. repeat constructor. Qed.

Lemma search_ignores_query_case_witness :
  search_contexts 10 MoreExamples.store_dated (PyStr.upper "Lunch") None
    (Some ["plan"%string])
  = search_contexts 10 MoreExamples.store_dated "Lunch" None
      (Some ["plan"%string]).
Proof.
  exact (proj1 (search_ignores_query_case 10 MoreExamples.store_dated
                  "Lunch" None (Some ["plan"%string]) lunch_is_ascii)).
Defined.

End SearchProperties.

Module EvictionProperties.
Import ContextManager StoreSpec MoreSpec ListFacts StoreFacts DictFacts.

Lemma purge_ok (now : datetime) (s : t) :
  store_ok s ->
  store_ok (_remove_expired_contexts now s)
  /\ forall kv, In kv (contexts (_remove_expired_contexts now s)) ->
                In kv (contexts s).
Proof.
  intros Hok.
  assert (E : contexts (_remove_expired_contexts now s)
              = filter (fun kv =>
                          negb (key_in
                                  (map fst
                                     (filter (fun kv0 =>
                                                is_expired now (snd kv0))
                                             (contexts s))) kv))
                       (contexts s))
    by (apply remove_all_contexts; apply Hok).
  split.
  - eapply store_ok_filter; eassumption.
  - intros kv Hin. rewrite E in Hin. apply filter_In in Hin. tauto.
Qed.

(** What [optimize_context] leaves when it has to act: the entries,
    among those that have not expired, whose identifier the loop
    kept. *)
Lemma optimize_context_contents (now : datetime) (s : t) (tgt : option Z) :
  store_ok s ->
  effective_target s tgt < get_total_tokens s ->
  contexts (optimize_context now s tgt)
  = filter (fun kv =>
              Py.mem (fst kv)
                (keep_ids (effective_target s tgt) 0
                   (Py.sorted_desc key_priority_time_lt
                      (Py.values
                         (contexts (_remove_expired_contexts now s))))))
           (contexts (_remove_expired_contexts now s)).
Proof.
  intros Hok Hover. unfold optimize_context. cbv zeta.
  apply Z.leb_gt in Hover. rewrite Hover.
  change (contexts (with_last_optimization ?x _)) with (contexts x).
  rewrite remove_all_contexts by apply (proj1 (purge_ok now s Hok)).
  apply to_remove_spec.
Qed.

Lemma fill_until_each (l : list ContextItem) (target current : Z)
    (x : ContextItem) :
  (forall c, In c l -> 0 <= token_count c) -> 0 <= current ->
  In x (ContextOptimizer.fill_until target current l) ->
  token_count x <= target.
Proof.
  revert current. induction l as [|c l IH]; intros current Hn Hc; simpl;
    [tauto|].
  destruct (current + token_count c <=? target) eqn:E; [|intros []].
  apply Z.leb_le in E.
  assert (Hc0 : 0 <= token_count c) by (apply Hn; now left).
  intros [<-|Hx]; [lia|].
  apply (IH (current + token_count c)); [|lia|exact Hx].
  intros c' Hc'. apply Hn. now right.
Qed.

(** X30.  An item too large for the default target does not survive
    its own insertion: when a fresh item measures more than
    [int(max_tokens * 0.9)] tokens and takes the store above
    [max_tokens], [add_context] still returns its identifier, but
    [get_context] finds nothing under it. *)
Theorem oversized_item_is_dropped (now : datetime) (new_id : string) (s : t)
    (text ty : string) (prio : Z) (meta : option json)
    (tgs : option (list string)) (exp : option datetime) :
  store_ok s ->
  Py.has new_id (contexts s) = false ->
  default_target s < TokenCounter.count_tokens (token_counter s) text ->
  max_tokens s
  < get_total_tokens s + TokenCounter.count_tokens (token_counter s) text ->
  fst (add_context now new_id s text ty prio meta tgs exp) = new_id
  /\ get_context (snd (add_context now new_id s text ty prio meta tgs exp))
       new_id = None.
Proof.
  intros Hok Hfresh Hbig Hover. split; [reflexivity|].
  set (ins := inserted now new_id s text ty prio meta tgs exp).
  destruct (StoreClaims.inserted_spec now new_id s text ty prio meta tgs exp
              Hok) as [Hoki Hm].
  fold ins in Hoki, Hm.
  set (item := mkItem new_id text ty prio now (or_empty_object meta)
                 (TokenCounter.count_tokens (token_counter s) text)
                 PyFloat.f1 exp (match tgs with Some l => l | None => [] end)).
  assert (Hc : contexts ins = contexts s ++ [(new_id, item)]).
  { unfold ins, inserted.
    change (contexts (_update_stats ?x)) with (contexts x).
    rewrite (proj1 (StoreClaims.categorize_contexts _ _)). simpl.
    now apply set_fresh. }
  assert (Ht : get_total_tokens ins
               = get_total_tokens s
                 + TokenCounter.count_tokens (token_counter s) text).
  { unfold get_total_tokens. rewrite Hc. unfold Py.values, total_tokens.
    rewrite map_app, sum_app. unfold Py.sum. simpl. lia. }
  assert (Hs : 0 <= get_total_tokens s).
  { apply sum_nonneg. intros c Hin. unfold Py.values in Hin.
    apply in_map_iff in Hin. destruct Hin as [[k c'] [<- Hin]].
    now apply (proj2 Hok k c'). }
  rewrite StoreClaims.add_context_unfold. fold ins. rewrite Hm, Ht.
  assert (El : (max_tokens s
                <? get_total_tokens s
                   + TokenCounter.count_tokens (token_counter s) text) = true)
    by (apply Z.ltb_lt; exact Hover).
  rewrite El.
  assert (Htgt : effective_target ins None = default_target s)
    by (unfold effective_target, default_target; now rewrite Hm).
  unfold get_context.
  rewrite optimize_context_contents by (try exact Hoki; rewrite Htgt; lia).
  rewrite Htgt.
  rewrite (get_filter_key _
             (fun k => Py.mem k
                (keep_ids (default_target s) 0
                   (Py.sorted_desc key_priority_time_lt
                      (Py.values
                         (contexts (_remove_expired_contexts now ins))))))).
  destruct (Py.mem new_id _) eqn:Emem; [exfalso|reflexivity].
  apply mem_in in Emem. rewrite keep_ids_fill in Emem.
  apply in_map_iff in Emem. destruct Emem as [c [Hid Hin]].
  destruct (purge_ok now ins Hoki) as [Hok1 Hsub].
  assert (Hle : token_count c <= default_target s).
  { apply (fill_until_each _ _ 0 c) in Hin; [exact Hin| |lia].
    intros c' Hc'. apply sorted_desc_in in Hc'. unfold Py.values in Hc'.
    apply in_map_iff in Hc'. destruct Hc' as [[k c2] [<- Hin2]].
    now apply (proj2 Hok1 k c2). }
  assert (Hc0 : In c (Py.values (contexts (_remove_expired_contexts now ins)))).
  { apply (sorted_desc_in _ key_priority_time_lt).
    destruct (fill_until_prefix
                (Py.sorted_desc key_priority_time_lt
                   (Py.values (contexts (_remove_expired_contexts now ins))))
                (default_target s) 0) as [rest Er].
    rewrite Er. apply in_or_app. now left. }
  unfold Py.values in Hc0. apply in_map_iff in Hc0.
  destruct Hc0 as [[k c2] [Ec Hin2]]. simpl in Ec. subst c2.
  assert (Hk : id c = k) by now apply (proj2 Hok1 k c).
  apply Hsub in Hin2. rewrite Hc in Hin2. apply in_app_or in Hin2.
  destruct Hin2 as [Hin2|[Hin2|[]]].
  - assert (Hh : Py.has new_id (contexts s) = true).
    { apply has_keys. unfold Py.keys. apply in_map_iff.
      exists (k, c). split; [simpl; congruence | exact Hin2]. }
    congruence.
  - injection Hin2 as _ <-. simpl in Hle. lia.
Qed.

Lemma store0_fresh_big :
  default_target Examples.store0
  < TokenCounter.count_tokens (token_counter Examples.store0)
      (PyStr.replicate 600 "b").
Proof. vm_compute. reflexivity. Qed.

Lemma store0_overfull :
  max_tokens Examples.store0
  < get_total_tokens Examples.store0
    + TokenCounter.count_tokens (token_counter Examples.store0)
        (PyStr.replicate 600 "b").
Proof. vm_compute. reflexivity. Qed.

Lemma oversized_item_is_dropped_witness :
  get_context
    (snd (add_context 0 "id-1" Examples.store0 (PyStr.replicate 600 "b")
            "user" 1 None None None)) "id-1" = None.
Proof.
  exact (proj2 (oversized_item_is_dropped 0 "id-1" Examples.store0
                  (PyStr.replicate 600 "b") "user" 1 None None None
                  StoreClaims.store0_ok StoreProperties.store0_fresh
                  store0_fresh_big store0_overfull)).
Defined.

End EvictionProperties.
